(** * model/run.py: the workflow builder of the safe deployment pipeline

    A shallow embedding of [src/model/run.py].  The script reads a few JSON
    configuration files, builds a Step Functions workflow graph out of
    SageMaker job steps, pushes the graph to the state machine service and
    writes four JSON artifacts.

    - Decoded JSON values are the values of [json]; a Python [dict] with
      string keys is a [gmap string _].
    - Everything [main] does to the outside (files, the CodePipeline and
      Step Functions services) is a transition on a [World], threaded through
      a state-and-exception monad; every call to the file system and to the
      two services is also appended to the world's [log].
    - The SDK step classes are the constructors of [State]. *)

From Stdlib Require Import Ascii String QArith.
From stdpp Require Import gmap strings list fin_maps.

Local Open Scope string_scope.
Set Warnings "-register-all".

(** ** Decoded JSON *)

(** What [json.load] returns.  Numbers are rationals: every finite float or
    integer JSON can denote is one, and the order on them is the numeric
    order. *)
Inductive json : Type :=
| JNull
| JBool (b : bool)
| JNum (q : Q)
| JStr (s : string)
| JArr (l : list json)
| JObj (m : gmap string json).

(** ** Python exceptions and fallible values *)

Inductive exn : Type :=
| FileNotFoundError (path : string)
| IsADirectoryError (path : string)
| FileExistsError (path : string)
| JSONDecodeError
| KeyError (key : string)
| IndexError
| TypeError
| ValueError
| ClientError (operation : string)
| NoRegionError.

Inductive result (A : Type) : Type :=
| Ok (a : A)
| Raise (e : exn).
Arguments Ok {A} a.
Arguments Raise {A} e.

#[global] Instance result_ret : MRet result := fun _ a => Ok a.
#[global] Instance result_bind : MBind result := fun _ _ f r =>
  match r with Ok a => f a | Raise e => Raise e end.

Definition of_option {A : Type} (e : exn) (o : option A) : result A :=
  match o with Some a => Ok a | None => Raise e end.

(** [d[k]] on a decoded JSON value with a string key: a [KeyError] on a
    dictionary without the key, a [TypeError] on anything that is not a
    dictionary. *)
Definition py_getitem (d : json) (k : string) : result json :=
  match d with
  | JObj m => of_option (KeyError k) (m !! k)
  | _ => Raise TypeError
  end.

(** [d[k]] on a dictionary. *)
Definition dict_getitem {V : Type} (d : gmap string V) (k : string) : result V :=
  of_option (KeyError k) (d !! k).

(** [dict(pairs)]: a later pair replaces an earlier one with the same key. *)
Definition dict_of_pairs {V : Type} (pairs : list (string * V)) : gmap string V :=
  foldl (fun m kv => <[kv.1 := kv.2]> m) ∅ pairs.

(** Truth value of an optional command line string: [None] and the empty
    string are false. *)
Definition truthy (s : option string) : bool :=
  match s with
  | Some s => negb (bool_decide (s = ""))
  | None => false
  end.

(** ** Paths *)

Fixpoint ends_with_sep (s : string) : bool :=
  match s with
  | "" => false
  | String c "" => bool_decide (c = "/"%char)
  | String _ r => ends_with_sep r
  end.

(** [os.path.join(a, b)] of [posixpath]. *)
Definition os_path_join (a b : string) : string :=
  if String.prefix "/" b then b
  else if bool_decide (a = "") || ends_with_sep a then a +:+ b
  else a +:+ "/" +:+ b.

(** ** CloudFormation parameter files *)

(** The dictionary [{"Parameters": {...}}] returned by [get_dev_params] and
    [get_prd_params]: one fixed key, holding a dictionary. *)
Record CfnParams : Type := { Parameters : gmap string json }.

(** Python's [dict(d, **kw)] and [{**d, **kw}]: the entries of [kw] win. *)
Definition dict_update {V : Type} (d kw : gmap string V) : gmap string V := kw ∪ d.

Definition get_dev_params (model_name job_id role : string) (image_uri : json)
    (kms_key_id : string) : CfnParams :=
  {| Parameters :=
       <["ImageRepoUri" := image_uri]>
       (<["ModelName" := JStr model_name]>
       (<["TrainJobId" := JStr job_id]>
       (<["MLOpsRoleArn" := JStr role]>
       (<["VariantName" := JStr ("dev-" +:+ model_name)]>
       (<["KmsKeyId" := JStr kms_key_id]> ∅))))) |}.

Definition get_prd_params (model_name job_id role : string) (image_uri : json)
    (kms_key_id : string) : CfnParams :=
  let dev_params := Parameters (get_dev_params model_name job_id role image_uri kms_key_id) in
  let prod_params : gmap string json :=
    <["VariantName" := JStr ("prd-" +:+ model_name)]>
    (<["ScheduleMetricName" := JStr "feature_baseline_drift_total_amount"]>
    (<["ScheduleMetricThreshold" := JStr "0.20"]> ∅)) in
  {| Parameters := dict_update dev_params prod_params |}.

(** ** Workflow definitions *)

Inductive PathElem : Type :=
| Key (k : string)
| Idx (i : nat).

(** A field of a step: a literal, or a placeholder that the state machine
    service fills in when the workflow runs. [ExecutionInputRef] is
    [execution_input[k]...], [StepOutputRef] is [step.output()[k]...]. *)
Inductive Value : Type :=
| Lit (j : json)
| ExecutionInputRef (path : list PathElem)
| StepOutputRef (path : list PathElem).

(** [ExecutionInput(schema={k: str, ...})]. *)
Record ExecutionInput : Type := { schema : list string }.

(** [execution_input[k]]: a placeholder built with a schema accepts the keys
    of its schema only; [ExecutionInput(schema={})] is a placeholder without
    a schema and accepts every key. *)
Definition ExecutionInput_getitem (execution_input : ExecutionInput) (k : string)
    : result Value :=
  if bool_decide (schema execution_input = []) || bool_decide (k ∈ schema execution_input)
  then Ok (ExecutionInputRef [Key k])
  else Raise ValueError.

(** An environment value of a processing job: a text, or [json.dumps] of a
    value. *)
Inductive EnvValue : Type :=
| EnvText (s : string)
| EnvDumps (j : json).

Record ProcessingInput : Type :=
  { pi_source : json; pi_destination : string; pi_input_name : string }.

Record ProcessingOutput : Type :=
  { po_source : string; po_destination : Value; po_output_name : string }.

Record Processor : Type :=
  { proc_image_uri : string;
    proc_role : string;
    proc_instance_count : nat;
    proc_instance_type : string;
    proc_max_runtime_in_seconds : nat;
    proc_env : gmap string EnvValue }.

Record Estimator : Type :=
  { est_image_uri : json;
    est_role : string;
    est_instance_count : nat;
    est_instance_type : string;
    est_output_path : string;
    est_hyperparameters : gmap string string }.

(** [Processor(...)] and [Estimator(...)] refuse an empty role. *)
Definition require_role (role : string) : result unit :=
  if bool_decide (role = "") then Raise ValueError else Ok tt.

(** [estimator.set_hyperparameters] called with the keyword arguments [kw].
    The method takes [self] and keyword arguments, so a keyword called self
    is a second value for its first parameter: a [TypeError]. *)
Definition set_hyperparameters (e : Estimator) (kw : gmap string string)
    : result Estimator :=
  if bool_decide (is_Some (kw !! "self")) then Raise TypeError
  else Ok {| est_image_uri := est_image_uri e;
             est_role := est_role e;
             est_instance_count := est_instance_count e;
             est_instance_type := est_instance_type e;
             est_output_path := est_output_path e;
             est_hyperparameters := dict_update (est_hyperparameters e) kw |}.

Record TrainingInput : Type := { s3_data : json; content_type : string }.

(** The model a training step is expected to produce: the estimator's image
    and role, with the artifacts of the training job as a placeholder. *)
Record Model : Type :=
  { model_image_uri : json; model_role : string; model_data : Value }.

Record LambdaParameters : Type :=
  { FunctionName : string; Payload : gmap string string }.

Record Retry : Type :=
  { retry_error_equals : list string; max_attempts : nat }.

Inductive ChoiceRule : Type :=
| NumericLessThan (variable : Value) (value : Q).

(** What a task state runs. *)
Inductive TaskBody : Type :=
| LambdaTask (parameters : LambdaParameters) (result_path : string)
| ProcessingTask (processor : Processor) (job_name : Value)
    (inputs : list ProcessingInput) (outputs : list ProcessingOutput)
    (experiment_config tags : gmap string Value)
| TrainingTask (estimator : Estimator) (data : gmap string TrainingInput)
    (job_name : Value) (experiment_config tags : gmap string Value)
    (result_path : string)
| ModelTask (input_path : string) (model : Model) (model_name : Value)
    (result_path : string).

(** The states of [stepfunctions.steps]. A catcher is the pair of its
    [error_equals] and its [next_step]. *)
Inductive State : Type :=
| Task (state_id : string) (body : TaskBody)
    (retriers : list Retry) (catchers : list (list string * State))
| Parallel (state_id : string) (branches : list State)
    (retriers : list Retry) (catchers : list (list string * State))
| Choice (state_id : string) (choices : list (ChoiceRule * State))
    (default : option State)
| Fail (state_id : string) (comment cause : option string)
| Succeed (state_id : string)
| Chain (steps : list State).

Definition state_name (s : State) : option string :=
  match s with
  | Task i _ _ _ | Parallel i _ _ _ | Choice i _ _ | Fail i _ _ | Succeed i => Some i
  | Chain _ => None
  end.

(** [steps.compute.LambdaStep], [steps.sagemaker.ProcessingStep],
    [steps.TrainingStep] and [steps.sagemaker.ModelStep] are task states
    created without retriers and catchers. [steps.TrainingStep] is given a
    placeholder as job name and derives a base name for the job from the
    image of the estimator: a [TypeError] when the image is no string. *)
Definition LambdaStep (state_id : string) (parameters : LambdaParameters)
    (result_path : string) : State :=
  Task state_id (LambdaTask parameters result_path) [] [].

Definition ProcessingStep (state_id : string) (processor : Processor) (job_name : Value)
    (inputs : list ProcessingInput) (outputs : list ProcessingOutput)
    (experiment_config tags : gmap string Value) : State :=
  Task state_id (ProcessingTask processor job_name inputs outputs experiment_config tags) [] [].

Definition TrainingStep (state_id : string) (estimator : Estimator)
    (data : gmap string TrainingInput) (job_name : Value)
    (experiment_config tags : gmap string Value) (result_path : string) : result State :=
  match est_image_uri estimator with
  | JStr _ =>
      Ok (Task state_id
            (TrainingTask estimator data job_name experiment_config tags result_path) [] [])
  | _ => Raise TypeError
  end.

Definition ModelStep (state_id input_path : string) (model : Model) (model_name : Value)
    (result_path : string) : State :=
  Task state_id (ModelTask input_path model model_name result_path) [] [].

(** [state.add_catch(catch)], [state.add_retry(retry)]. The script calls
    [add_catch] on task and parallel states it has just created, and never
    calls [add_retry]; on the other states the SDK raises, here the state is
    returned as it is. *)
Definition add_catch (s : State) (c : list string * State) : State :=
  match s with
  | Task i b r cs => Task i b r (cs ++ [c])
  | Parallel i bs r cs => Parallel i bs r (cs ++ [c])
  | _ => s
  end.

Definition add_retry (s : State) (r : Retry) : State :=
  match s with
  | Task i b rs cs => Task i b (rs ++ [r]) cs
  | Parallel i bs rs cs => Parallel i bs (rs ++ [r]) cs
  | _ => s
  end.

(** [parallel.add_branch(branch)]. *)
Definition add_branch (s branch : State) : State :=
  match s with
  | Parallel i bs r cs => Parallel i (bs ++ [branch]) r cs
  | _ => s
  end.

(** [choice.add_choice(rule, next_step)], [choice.default_choice(next_step)]. *)
Definition add_choice (s : State) (rule : ChoiceRule) (next_step : State) : State :=
  match s with
  | Choice i cs d => Choice i (cs ++ [(rule, next_step)]) d
  | _ => s
  end.

Definition default_choice (s next_step : State) : State :=
  match s with
  | Choice i cs _ => Choice i cs (Some next_step)
  | _ => s
  end.

(** [step.output()[k1][k2]...]. *)
Definition step_output (path : list PathElem) : Value := StepOutputRef path.

(** [training_step.get_expected_model()]. *)
Definition get_expected_model (s : State) : result Model :=
  match s with
  | Task _ (TrainingTask e _ _ _ _ _) _ _ =>
      Ok {| model_image_uri := est_image_uri e;
            model_role := est_role e;
            model_data := step_output [Key "ModelArtifacts"; Key "S3ModelArtifacts"] |}
  | _ => Raise TypeError
  end.

(** [DatasetFormat.csv()] with its default arguments. *)
Definition DatasetFormat_csv : json :=
  JObj {[ "csv" := JObj (<["header" := JBool true]>
                         {[ "output_columns_position" := JStr "START" ]}) ]}.

(** ** Running a Choice state

    The script only builds the [Choice] state; the state machine service
    runs it.  This is the rule of the Amazon States Language for the one
    comparison the script uses: the rules are tried in order, the first that
    holds gives the next state, and the default is taken when none holds.  A
    variable that is not in the state's input stops the execution with a
    runtime error; a variable that is no number does not satisfy a numeric
    comparison. *)

Fixpoint json_path (p : list PathElem) (j : json) : option json :=
  match p with
  | [] => Some j
  | Key k :: p' =>
      match j with
      | JObj m => match m !! k with Some j' => json_path p' j' | None => None end
      | _ => None
      end
  | Idx i :: p' =>
      match j with
      | JArr l => match l !! i with Some j' => json_path p' j' | None => None end
      | _ => None
      end
  end.

Definition Qlt_bool (x y : Q) : bool := negb (Qle_bool y x).

Definition rule_holds (r : ChoiceRule) (input : json) : option bool :=
  match r with
  | NumericLessThan (StepOutputRef p) value =>
      match json_path p input with
      | Some (JNum x) => Some (Qlt_bool x value)
      | Some _ => Some false
      | None => None
      end
  | NumericLessThan _ _ => None
  end.

(** The next state, or [None] when the execution stops with an error. *)
Fixpoint first_choice (choices : list (ChoiceRule * State)) (default : option State)
    (input : json) : option State :=
  match choices with
  | [] => default
  | (r, next) :: rest =>
      match rule_holds r input with
      | Some true => Some next
      | Some false => first_choice rest default input
      | None => None
      end
  end.

Definition choice_next (s : State) (input : json) : option State :=
  match s with
  | Choice _ choices default => first_choice choices default input
  | _ => None
  end.

(** ** The outside world *)

(** What [get_pipeline_state] answers. [currentRevision] is the [revisionId]
    of the action's current revision, [latestExecution] the
    [pipelineExecutionId] of the stage's latest execution; both are absent
    from the answer for an action or stage that has none. The answers are
    those in which every stage lists its actions and every action has its
    name, as the service gives them for a pipeline it knows. *)
Record ActionState : Type :=
  { actionName : string; currentRevision : option string }.

Record StageState : Type :=
  { actionStates : list ActionState; latestExecution : option string }.

Record PipelineState : Type := { stageStates : list StageState }.

(** The calls the script makes to the outside, in the order it makes them. *)
Inductive Event : Type :=
| EvOpenRead (path : string)
| EvExists (path : string)
| EvMkdir (path : string)
| EvWrite (path text : string)
| EvGetPipelineState (name : string)
| EvAttach (arn : string)
| EvUpdate (arn : string) (definition : State).

(** Paths are compared as they are written. *)
Record World : Type :=
  { region_name : option string;
    files : gmap string string;
    dirs : gset string;
    pipelines : gmap string PipelineState;
    state_machines : gmap string State;
    sfn_accepts : string -> State -> bool;
    log : list Event }.

Definition with_log (w : World) (l : list Event) : World :=
  {| region_name := region_name w; files := files w; dirs := dirs w;
     pipelines := pipelines w; state_machines := state_machines w;
     sfn_accepts := sfn_accepts w; log := l |}.

Definition with_files (w : World) (f : gmap string string) : World :=
  {| region_name := region_name w; files := f; dirs := dirs w;
     pipelines := pipelines w; state_machines := state_machines w;
     sfn_accepts := sfn_accepts w; log := log w |}.

Definition with_dirs (w : World) (d : gset string) : World :=
  {| region_name := region_name w; files := files w; dirs := d;
     pipelines := pipelines w; state_machines := state_machines w;
     sfn_accepts := sfn_accepts w; log := log w |}.

Definition with_state_machines (w : World) (s : gmap string State) : World :=
  {| region_name := region_name w; files := files w; dirs := dirs w;
     pipelines := pipelines w; state_machines := s;
     sfn_accepts := sfn_accepts w; log := log w |}.

(** A computation that may change the world and may raise; the world at the
    time of the exception is kept. *)
Definition M (A : Type) : Type := World -> result A * World.

Definition ret {A : Type} (a : A) : M A := fun w => (Ok a, w).

Definition bind {A B : Type} (m : M A) (f : A -> M B) : M B := fun w =>
  match m w with
  | (Ok a, w') => f a w'
  | (Raise e, w') => (Raise e, w')
  end.

Notation "x <- m ;; k" := (bind m (fun x => k))
  (at level 100, m at next level, right associativity).

Definition lift {A : Type} (r : result A) : M A := fun w => (r, w).

Definition record (e : Event) (w : World) : World := with_log w (log w ++ [e]).

(** [boto3.Session().region_name]. *)
Definition boto3_region_name : M (option string) := fun w => (Ok (region_name w), w).

(** [boto3.client(service)]: no client is made where no region is
    configured. *)
Definition boto3_client (service : string) : M unit :=
  fun w =>
    match region_name w with
    | Some _ => (Ok tt, w)
    | None => (Raise NoRegionError, w)
    end.

(** [open(path, "r")] and reading the whole file. *)
Definition open_read (path : string) : M string :=
  fun w0 =>
    let w := record (EvOpenRead path) w0 in
    match files w !! path with
    | Some text => (Ok text, w)
    | None =>
        if bool_decide (path ∈ dirs w) then (Raise (IsADirectoryError path), w)
        else (Raise (FileNotFoundError path), w)
    end.

(** [os.path.exists(path)]. *)
Definition path_exists (w : World) (path : string) : bool :=
  negb (bool_decide (path = ""))
  && (bool_decide (is_Some (files w !! path)) || bool_decide (path ∈ dirs w)).

Definition os_path_exists (path : string) : M bool :=
  fun w0 =>
    let w := record (EvExists path) w0 in
    (Ok (path_exists w path), w).

(** [os.mkdir(path)]. The directory above [path] is not looked at, and the
    new directory exists under the spelling of [path] only: the call also
    goes through where Python raises for a parent that is missing or is a
    file. *)
Definition os_mkdir (path : string) : M unit :=
  fun w0 =>
    let w := record (EvMkdir path) w0 in
    if bool_decide (path = "") then (Raise (FileNotFoundError path), w)
    else if path_exists w path then (Raise (FileExistsError path), w)
    else (Ok tt, with_dirs w ({[path]} ∪ dirs w)).

(** [open(path, "w")], writing [text] and closing the file. As for
    [os_mkdir], the directory above [path] is not looked at. *)
Definition write_file (path text : string) : M unit :=
  fun w0 =>
    let w := record (EvWrite path text) w0 in
    if bool_decide (path ∈ dirs w) then (Raise (IsADirectoryError path), w)
    else (Ok tt, with_files w (<[path := text]> (files w))).

(** [codepipeline.get_pipeline_state(name=...)] on a client. *)
Definition codepipeline_get_pipeline_state (name : string) : M PipelineState :=
  fun w0 =>
    let w := record (EvGetPipelineState name) w0 in
    (of_option (ClientError "GetPipelineState") (pipelines w !! name), w).

(** A [stepfunctions.workflow.Workflow] object. *)
Record Workflow : Type := { state_machine_arn : string; definition : State }.

(** [Workflow.attach(arn)]. *)
Definition Workflow_attach (arn : string) : M Workflow :=
  fun w0 =>
    let w := record (EvAttach arn) w0 in
    match state_machines w !! arn with
    | Some d => (Ok {| state_machine_arn := arn; definition := d |}, w)
    | None => (Raise (ClientError "DescribeStateMachine"), w)
    end.

(** [workflow.update(definition)]: the object takes the new definition, then
    the service is asked to take it. The object after the call is returned. *)
Definition Workflow_update (workflow : Workflow) (graph : State) : M Workflow :=
  let arn := state_machine_arn workflow in
  fun w0 =>
    let w := record (EvUpdate arn graph) w0 in
    if bool_decide (is_Some (state_machines w !! arn)) && sfn_accepts w arn graph
    then (Ok {| state_machine_arn := arn; definition := graph |},
          with_state_machines w (<[arn := graph]> (state_machines w)))
    else (Raise (ClientError "UpdateStateMachine"), w).

(** ** The script *)

Section Script.

(** What the script takes from Python and the SDKs as it is: [str] on a
    decoded JSON value, [json.loads] (no answer on a text that is not JSON),
    [json.dumps], the [to_json(pretty=True)] of a workflow definition, and
    [sagemaker.image_uris.retrieve] by region, framework and version (no
    answer where it raises). *)
Variable py_str : json -> string.
Variable json_loads : string -> option json.
Variable json_dumps : json -> string.
Variable definition_to_json : State -> string.
Variable image_uris_retrieve : option string -> string -> string -> option string.

(** [json.load(f)] on the text read from [f]. *)
Definition json_load (text : string) : result json :=
  of_option JSONDecodeError (json_loads text).

Definition retrieve (region : option string) (framework version : string) : result string :=
  of_option ValueError (image_uris_retrieve region framework version).

Definition create_experiment_step (create_experiment_function_name : string) : State :=
  let create_experiment_step :=
    LambdaStep "Create Experiment"
      {| FunctionName := create_experiment_function_name;
         Payload := <["ExperimentName.$" := "$.ExperimentName"]>
                    {[ "TrialName.$" := "$.TrialName" ]} |}
      "$.CreateTrialResults" in
  create_experiment_step.

Definition create_baseline_step (input_data : json) (execution_input : ExecutionInput)
    (region : option string) (role : string) : result State :=
  let dataset_format := DatasetFormat_csv in
  let env : gmap string EnvValue :=
    <["dataset_format" := EnvDumps dataset_format]>
    (<["dataset_source" := EnvText "/opt/ml/processing/input/baseline_dataset_input"]>
    (<["output_path" := EnvText "/opt/ml/processing/output"]>
    {[ "publish_cloudwatch_metrics" := EnvText "Disabled" ]})) in
  baseline_uri ← py_getitem input_data "BaselineUri";
  let inputs :=
    [ {| pi_source := baseline_uri;
         pi_destination := "/opt/ml/processing/input/baseline_dataset_input";
         pi_input_name := "baseline_dataset_input" |} ] in
  baseline_output_uri ← ExecutionInput_getitem execution_input "BaselineOutputUri";
  let outputs :=
    [ {| po_source := "/opt/ml/processing/output";
         po_destination := baseline_output_uri;
         po_output_name := "monitoring_output" |} ] in
  monor_monitor_container_uri ← retrieve region "model-monitor" "latest";
  _ ← require_role role;
  let monitor_analyzer :=
    {| proc_image_uri := monor_monitor_container_uri;
       proc_role := role;
       proc_instance_count := 1;
       proc_instance_type := "ml.m5.xlarge";
       proc_max_runtime_in_seconds := 1800;
       proc_env := env |} in
  job_name ← ExecutionInput_getitem execution_input "BaselineJobName";
  experiment_name ← ExecutionInput_getitem execution_input "ExperimentName";
  trial_name ← ExecutionInput_getitem execution_input "TrialName";
  git_branch ← ExecutionInput_getitem execution_input "GitBranch";
  git_commit_hash ← ExecutionInput_getitem execution_input "GitCommitHash";
  data_version_id ← ExecutionInput_getitem execution_input "DataVersionId";
  let baseline_step :=
    ProcessingStep "Baseline Job" monitor_analyzer job_name inputs outputs
      (<["ExperimentName" := experiment_name]>
       (<["TrialName" := trial_name]>
       {[ "TrialComponentDisplayName" := Lit (JStr "Baseline") ]}))
      (<["GitBranch" := git_branch]>
       (<["GitCommitHash" := git_commit_hash]>
       {[ "DataVersionId" := data_version_id ]})) in
  let baseline_step :=
    add_catch baseline_step
      (["States.TaskFailed"], Fail "Baseline failed" None (Some "SageMakerBaselineJobFailed")) in
  mret baseline_step.

Definition get_training_image (region : option string) : result string :=
  retrieve region "xgboost" "latest".

(** The built-in hyperparameters. *)
Definition hp : gmap string string :=
  <["max_depth" := "9"]>
  (<["eta" := "0.2"]>
  (<["gamma" := "4"]>
  (<["min_child_weight" := "300"]>
  (<["subsample" := "0.8"]>
  (<["objective" := "reg:linear"]>
  (<["early_stopping_rounds" := "10"]>
  {[ "num_round" := "100" ]})))))).

Definition create_training_step (image_uri : json) (hyperparameters : gmap string string)
    (input_data : json) (output_data : gmap string string)
    (execution_input : ExecutionInput) (query_training_function_name : string)
    (region : option string) (role : string) : result State :=
  model_output_uri ← dict_getitem output_data "ModelOutputUri";
  _ ← require_role role;
  let xgb :=
    {| est_image_uri := image_uri;
       est_role := role;
       est_instance_count := 1;
       est_instance_type := "ml.m4.xlarge";
       est_output_path := model_output_uri;
       est_hyperparameters := ∅ |} in
  xgb ← set_hyperparameters xgb (dict_update hp hyperparameters);
  training_uri ← py_getitem input_data "TrainingUri";
  let s3_input_train := {| s3_data := training_uri; content_type := "csv" |} in
  validation_uri ← py_getitem input_data "ValidationUri";
  let s3_input_val := {| s3_data := validation_uri; content_type := "csv" |} in
  let data : gmap string TrainingInput :=
    <["train" := s3_input_train]> {[ "validation" := s3_input_val ]} in
  job_name ← ExecutionInput_getitem execution_input "TrainingJobName";
  experiment_name ← ExecutionInput_getitem execution_input "ExperimentName";
  trial_name ← ExecutionInput_getitem execution_input "TrialName";
  git_branch ← ExecutionInput_getitem execution_input "GitBranch";
  git_commit_hash ← ExecutionInput_getitem execution_input "GitCommitHash";
  data_version_id ← ExecutionInput_getitem execution_input "DataVersionId";
  training_step ←
    TrainingStep "Training Job" xgb data job_name
      (<["ExperimentName" := experiment_name]>
       (<["TrialName" := trial_name]>
       {[ "TrialComponentDisplayName" := Lit (JStr "Training") ]}))
      (<["GitBranch" := git_branch]>
       (<["GitCommitHash" := git_commit_hash]>
       {[ "DataVersionId" := data_version_id ]}))
      "$.TrainingResults";
  let training_step :=
    add_catch training_step
      (["States.TaskFailed"], Fail "Training failed" None (Some "SageMakerTrainingJobFailed")) in
  expected_model ← get_expected_model training_step;
  model_name ← ExecutionInput_getitem execution_input "TrainingJobName";
  let model_step :=
    ModelStep "Save Model" "$.TrainingResults" expected_model model_name
      "$.ModelStepResults" in
  let training_query_step :=
    LambdaStep "Query Training Results"
      {| FunctionName := query_training_function_name;
         Payload := {[ "TrainingJobName.$" := "$.TrainingJobName" ]} |}
      "$.QueryTrainingResults" in
  let check_accuracy_fail_step :=
    Fail "Model Error Too Low" (Some "RMSE accuracy higher than threshold") None in
  let check_accuracy_succeed_step := Succeed "Model Error Acceptable" in
  let threshold_rule :=
    NumericLessThan
      (step_output [Key "QueryTrainingResults"; Key "Payload"; Key "results";
                    Key "TrainingMetrics"; Idx 0; Key "Value"])
      10 in
  let check_accuracy_step := Choice "RMSE < 10" [] None in
  let check_accuracy_step :=
    add_choice check_accuracy_step threshold_rule check_accuracy_succeed_step in
  let check_accuracy_step := default_choice check_accuracy_step check_accuracy_fail_step in
  mret (Chain [training_step; model_step; training_query_step; check_accuracy_step]).

Definition create_graph (create_experiment_step baseline_step training_step : State) : State :=
  let sagemaker_jobs := Parallel "SageMaker Jobs" [] [] [] in
  let sagemaker_jobs := add_branch sagemaker_jobs baseline_step in
  let sagemaker_jobs := add_branch sagemaker_jobs training_step in
  let sagemaker_jobs :=
    add_catch sagemaker_jobs
      (["States.TaskFailed"], Fail "SageMaker Jobs failed" None (Some "SageMakerJobsFailed")) in
  Chain [create_experiment_step; sagemaker_jobs].

(** [l[i]] on a list. *)
Definition list_getitem {A : Type} (l : list A) (i : nat) : result A :=
  of_option IndexError (l !! i).

(** The pairs [(r["actionName"], r["currentRevision"]["revisionId"])] of the
    list comprehension in [get_pipeline_revision]. *)
Fixpoint action_revisions (actions : list ActionState) : result (list (string * string)) :=
  match actions with
  | [] => Ok []
  | r :: rest =>
      revision_id ← of_option (KeyError "currentRevision") (currentRevision r);
      others ← action_revisions rest;
      mret ((actionName r, revision_id) :: others)
  end.

Definition get_pipeline_revision (pipeline_name : string) : M (gmap string string) :=
  codepipeline <- boto3_client "codepipeline" ;;
  response <- codepipeline_get_pipeline_state pipeline_name ;;
  stage <- lift (list_getitem (stageStates response) 0) ;;
  pairs <- lift (action_revisions (actionStates stage)) ;;
  let rev := dict_of_pairs pairs in
  stage <- lift (list_getitem (stageStates response) 0) ;;
  execution_id <- lift (of_option (KeyError "latestExecution") (latestExecution stage)) ;;
  let rev := <["JobId" := execution_id]> rev in
  ret rev.

(** The command line arguments; [ecr_dir] is [None] when [--ecr-dir] is not
    given. *)
Record Args : Type :=
  { git_branch : string;
    pipeline_name : string;
    model_name : string;
    deploy_role : string;
    sagemaker_role : string;
    sagemaker_bucket : string;
    data_dir : string;
    output_dir : string;
    ecr_dir : option string;
    kms_key_id : string;
    workflow_pipeline_arn : string;
    create_experiment_function_name : string;
    query_training_function_name : string }.

(** [for i in hyperparameters: hyperparameters[i] = str(hyperparameters[i])]
    on the decoded file.  On a value that is no dictionary this raises at
    once; Python raises in the loop or, for an empty list or string and for
    some lists of indices, when [create_training_step] unpacks the value as
    keyword arguments. No outside call lies in between, but the exception can
    be another one: an [IndexError] of the loop, or the exception of a step
    of the builders that comes before the unpacking. *)
Definition stringify (d : json) : result (gmap string string) :=
  match d with
  | JObj m => Ok (py_str <$> m)
  | _ => Raise TypeError
  end.

(** The schema of the execution input declared in [main]. *)
Definition execution_input_schema : ExecutionInput :=
  {| schema := ["GitBranch"; "GitCommitHash"; "DataVersionId"; "ExperimentName";
                "TrialName"; "BaselineJobName"; "BaselineOutputUri"; "TrainingJobName"] |}.

(** The value [json.dump] gets for a parameter file. *)
Definition CfnParams_json (p : CfnParams) : json :=
  JObj {[ "Parameters" := JObj (Parameters p) ]}.

Definition main (a : Args) : M unit :=
  region <- boto3_region_name ;;
  image_uri <-
    (if truthy (ecr_dir a) then
       f <- open_read (os_path_join (default "" (ecr_dir a)) "imageDetail.json") ;;
       d <- lift (json_load f) ;;
       lift (py_getitem d "ImageURI")
     else
       uri <- lift (get_training_image region) ;;
       ret (JStr uri)) ;;
  f <- open_read (os_path_join (data_dir a) "inputData.json") ;;
  input_data <- lift (json_load f) ;;
  _ <- lift (py_getitem input_data "TrainingUri") ;;
  _ <- lift (py_getitem input_data "ValidationUri") ;;
  _ <- lift (py_getitem input_data "BaselineUri") ;;
  revision <- get_pipeline_revision (pipeline_name a) ;;
  job_id <- lift (dict_getitem revision "JobId") ;;
  git_commit_id <- lift (dict_getitem revision "GitSource") ;;
  data_verison_id <- lift (dict_getitem revision "DataSource") ;;
  let output_data : gmap string string :=
    <["ModelOutputUri" := "s3://" +:+ sagemaker_bucket a +:+ "/" +:+ model_name a +:+ "/model"]>
    {[ "BaselineOutputUri" :=
         "s3://" +:+ sagemaker_bucket a +:+ "/" +:+ model_name a
         +:+ "/monitoring/baseline/mlops-" +:+ model_name a +:+ "-pbl-" +:+ job_id ]} in
  hyperparameters_exist <- os_path_exists (os_path_join (data_dir a) "hyperparameters.json") ;;
  hyperparameters <-
    (if hyperparameters_exist then
       f <- open_read (os_path_join (data_dir a) "hyperparameters.json") ;;
       d <- lift (json_load f) ;;
       lift (stringify d)
     else ret ∅) ;;
  let execution_input := execution_input_schema in
  let experiment_step := create_experiment_step (create_experiment_function_name a) in
  baseline_step <- lift (create_baseline_step input_data execution_input region (sagemaker_role a)) ;;
  training_step <-
    lift (create_training_step image_uri hyperparameters input_data output_data
            execution_input (query_training_function_name a) region (sagemaker_role a)) ;;
  let workflow_graph := create_graph experiment_step baseline_step training_step in
  workflow <- Workflow_attach (workflow_pipeline_arn a) ;;
  workflow <- Workflow_update workflow workflow_graph ;;
  output_dir_exists <- os_path_exists (output_dir a) ;;
  _ <- (if output_dir_exists then ret tt else os_mkdir (output_dir a)) ;;
  _ <- write_file (os_path_join (output_dir a) "workflow-graph.json")
         (definition_to_json (definition workflow)) ;;
  let experiment_name := "mlops-" +:+ model_name a in
  let trial_name := "mlops-" +:+ model_name a +:+ "-" +:+ job_id in
  baseline_output_uri <- lift (dict_getitem output_data "BaselineOutputUri") ;;
  let workflow_inputs : gmap string json :=
    <["ExperimentName" := JStr experiment_name]>
    (<["TrialName" := JStr trial_name]>
    (<["GitBranch" := JStr (git_branch a)]>
    (<["GitCommitHash" := JStr git_commit_id]>
    (<["DataVersionId" := JStr data_verison_id]>
    (<["BaselineJobName" := JStr trial_name]>
    (<["BaselineOutputUri" := JStr baseline_output_uri]>
    {[ "TrainingJobName" := JStr trial_name ]})))))) in
  _ <- write_file (os_path_join (output_dir a) "workflow-input.json")
         (json_dumps (JObj workflow_inputs)) ;;
  _ <- write_file (os_path_join (output_dir a) "deploy-model-dev.json")
         (json_dumps (CfnParams_json
            (get_dev_params (model_name a) job_id (deploy_role a) image_uri (kms_key_id a)))) ;;
  write_file (os_path_join (output_dir a) "template-model-prd.json")
    (json_dumps (CfnParams_json
       (get_prd_params (model_name a) job_id (deploy_role a) image_uri (kms_key_id a)))).

End Script.

(** ** Notions used to state the properties *)

(** The shape of the workflow: a chain of the experiment step and a parallel
    state of the baseline job and the training chain. *)
Definition workflow_shape (g : State) : bool :=
  match g with
  | Chain
      [ Task experiment (LambdaTask _ _) _ _;
        Parallel _
          [ Task baseline (ProcessingTask _ _ _ _ _ _) _ _;
            Chain
              [ Task training (TrainingTask _ _ _ _ _ _) _ _;
                Task save (ModelTask _ _ _ _) _ _;
                Task query (LambdaTask _ _) _ _;
                Choice check _ _ ] ] _ _ ] =>
      String.eqb experiment "Create Experiment"
      && String.eqb baseline "Baseline Job"
      && String.eqb training "Training Job"
      && String.eqb save "Save Model"
      && String.eqb query "Query Training Results"
      && String.eqb check "RMSE < 10"
  | _ => false
  end.

(** The accuracy check of a training chain: its last step. *)
Definition accuracy_check (training_chain : State) : option State :=
  match training_chain with
  | Chain steps => last steps
  | _ => None
  end.

(** The estimator of a training chain: that of its first step. *)
Definition training_estimator (training_chain : State) : option Estimator :=
  match training_chain with
  | Chain (Task _ (TrainingTask e _ _ _ _ _) _ _ :: _) => Some e
  | _ => None
  end.

(** The estimator of the workflow graph: that of its training chain. *)
Definition graph_estimator (g : State) : option Estimator :=
  match g with
  | Chain [_; Parallel _ [_; training_chain] _ _] => training_estimator training_chain
  | _ => None
  end.

(** No state of the graph has a retrier. *)
Fixpoint retry_free (s : State) : bool :=
  match s with
  | Task _ _ retriers catchers =>
      match retriers with [] => true | _ => false end
      && forallb (fun c => retry_free c.2) catchers
  | Parallel _ branches retriers catchers =>
      match retriers with [] => true | _ => false end
      && forallb retry_free branches
      && forallb (fun c => retry_free c.2) catchers
  | Choice _ choices default =>
      forallb (fun c => retry_free c.2) choices
      && match default with Some d => retry_free d | None => true end
  | Fail _ _ _ | Succeed _ => true
  | Chain steps => forallb retry_free steps
  end.

(** The path of the metric the accuracy check reads. *)
Definition metric_path : list PathElem :=
  [Key "QueryTrainingResults"; Key "Payload"; Key "results";
   Key "TrainingMetrics"; Idx 0; Key "Value"].

(** The dictionary [output_data] of [main]. *)
Definition main_output_data (a : Args) (job_id : string) : gmap string string :=
  <["ModelOutputUri" := "s3://" +:+ sagemaker_bucket a +:+ "/" +:+ model_name a +:+ "/model"]>
  {[ "BaselineOutputUri" :=
       "s3://" +:+ sagemaker_bucket a +:+ "/" +:+ model_name a
       +:+ "/monitoring/baseline/mlops-" +:+ model_name a +:+ "-pbl-" +:+ job_id ]}.

(** The dictionary [workflow_inputs] of [main]. *)
Definition main_workflow_inputs (a : Args) (job_id git_commit_id data_verison_id : string)
    : gmap string json :=
  let experiment_name := "mlops-" +:+ model_name a in
  let trial_name := "mlops-" +:+ model_name a +:+ "-" +:+ job_id in
  <["ExperimentName" := JStr experiment_name]>
  (<["TrialName" := JStr trial_name]>
  (<["GitBranch" := JStr (git_branch a)]>
  (<["GitCommitHash" := JStr git_commit_id]>
  (<["DataVersionId" := JStr data_verison_id]>
  (<["BaselineJobName" := JStr trial_name]>
  (<["BaselineOutputUri" :=
       JStr ("s3://" +:+ sagemaker_bucket a +:+ "/" +:+ model_name a
             +:+ "/monitoring/baseline/mlops-" +:+ model_name a +:+ "-pbl-" +:+ job_id)]>
  {[ "TrainingJobName" := JStr trial_name ]})))))).

(** The events of the reading phases of [main]. *)
Definition image_trace (a : Args) : list Event :=
  if truthy (ecr_dir a)
  then [EvOpenRead (os_path_join (default "" (ecr_dir a)) "imageDetail.json")]
  else [].

Definition hyperparameters_trace (a : Args) (w : World) : list Event :=
  if path_exists w (os_path_join (data_dir a) "hyperparameters.json")
  then [EvOpenRead (os_path_join (data_dir a) "hyperparameters.json")]
  else [].

Definition mkdir_trace (a : Args) (w : World) : list Event :=
  if path_exists w (output_dir a) then [] else [EvMkdir (output_dir a)].

(** Events of the output phase. *)
Definition output_event (e : Event) : Prop :=
  match e with
  | EvExists _ | EvMkdir _ | EvWrite _ _ => True
  | _ => False
  end.

Definition is_write (e : Event) : bool :=
  match e with EvWrite _ _ => true | _ => false end.

Definition is_mkdir (e : Event) : bool :=
  match e with EvMkdir _ => true | _ => false end.

Definition is_read (e : Event) : bool :=
  match e with EvOpenRead _ => true | _ => false end.

Definition is_update (e : Event) : bool :=
  match e with EvUpdate _ _ => true | _ => false end.

Definition is_attach (e : Event) : bool :=
  match e with EvAttach _ => true | _ => false end.

(** Exceptions of the file system calls. *)
Definition os_error (e : exn) : Prop :=
  match e with
  | FileNotFoundError _ | IsADirectoryError _ | FileExistsError _ => True
  | _ => False
  end.

(** The events a run adds to the log. *)
Definition new_events (w w' : World) : list Event := drop (length (log w)) (log w').

Section Outputs.

Variable json_dumps : json -> string.
Variable definition_to_json : State -> string.

(** The part of [main] after the workflow update, named for the proofs. *)
Definition write_outputs (a : Args) (image_uri : json)
    (job_id git_commit_id data_verison_id : string)
    (output_data : gmap string string) (workflow : Workflow) : M unit :=
  output_dir_exists <- os_path_exists (output_dir a) ;;
  _ <- (if output_dir_exists then ret tt else os_mkdir (output_dir a)) ;;
  _ <- write_file (os_path_join (output_dir a) "workflow-graph.json")
         (definition_to_json (definition workflow)) ;;
  let experiment_name := "mlops-" +:+ model_name a in
  let trial_name := "mlops-" +:+ model_name a +:+ "-" +:+ job_id in
  baseline_output_uri <- lift (dict_getitem output_data "BaselineOutputUri") ;;
  let workflow_inputs : gmap string json :=
    <["ExperimentName" := JStr experiment_name]>
    (<["TrialName" := JStr trial_name]>
    (<["GitBranch" := JStr (git_branch a)]>
    (<["GitCommitHash" := JStr git_commit_id]>
    (<["DataVersionId" := JStr data_verison_id]>
    (<["BaselineJobName" := JStr trial_name]>
    (<["BaselineOutputUri" := JStr baseline_output_uri]>
    {[ "TrainingJobName" := JStr trial_name ]})))))) in
  _ <- write_file (os_path_join (output_dir a) "workflow-input.json")
         (json_dumps (JObj workflow_inputs)) ;;
  _ <- write_file (os_path_join (output_dir a) "deploy-model-dev.json")
         (json_dumps (CfnParams_json
            (get_dev_params (model_name a) job_id (deploy_role a) image_uri (kms_key_id a)))) ;;
  write_file (os_path_join (output_dir a) "template-model-prd.json")
    (json_dumps (CfnParams_json
       (get_prd_params (model_name a) job_id (deploy_role a) image_uri (kms_key_id a)))).

(** The four artifacts: path and text, in the order they are written. *)
Definition artifacts (a : Args) (image_uri : json)
    (job_id git_commit_id data_verison_id : string) (graph : State)
    : list (string * string) :=
  [ (os_path_join (output_dir a) "workflow-graph.json", definition_to_json graph);
    (os_path_join (output_dir a) "workflow-input.json",
     json_dumps (JObj (main_workflow_inputs a job_id git_commit_id data_verison_id)));
    (os_path_join (output_dir a) "deploy-model-dev.json",
     json_dumps (CfnParams_json
       (get_dev_params (model_name a) job_id (deploy_role a) image_uri (kms_key_id a))));
    (os_path_join (output_dir a) "template-model-prd.json",
     json_dumps (CfnParams_json
       (get_prd_params (model_name a) job_id (deploy_role a) image_uri (kms_key_id a)))) ].

End Outputs.

(** Writing a list of files, the first one first. *)
Definition write_all (l : list (string * string)) (f : gmap string string)
    : gmap string string :=
  foldl (fun m pt => <[pt.1 := pt.2]> m) f l.

Definition write_events (l : list (string * string)) : list Event :=
  map (fun pt => EvWrite pt.1 pt.2) l.

Section Loading.

Variable py_str : json -> string.
Variable json_loads : string -> option json.
Variable image_uris_retrieve : option string -> string -> string -> option string.

Definition has_key (d : json) (k : string) : Prop := exists v, py_getitem d k = Ok v.

(** What the reading phases of [main] have bound when they are through. *)
Record Loaded : Type :=
  { ld_image_uri : json;
    ld_input_data : json;
    ld_job_id : string;
    ld_git_commit_id : string;
    ld_data_version_id : string;
    ld_hyperparameters : gmap string string;
    ld_baseline_step : State;
    ld_training_step : State }.

Definition image_loaded (a : Args) (w : World) (image_uri : json) : Prop :=
  if truthy (ecr_dir a) then
    exists text d,
      files w !! os_path_join (default "" (ecr_dir a)) "imageDetail.json" = Some text
      /\ json_loads text = Some d
      /\ py_getitem d "ImageURI" = Ok image_uri
  else
    exists uri,
      image_uris_retrieve (region_name w) "xgboost" "latest" = Some uri
      /\ image_uri = JStr uri.

Definition input_loaded (a : Args) (w : World) (input_data : json) : Prop :=
  exists text,
    files w !! os_path_join (data_dir a) "inputData.json" = Some text
    /\ json_loads text = Some input_data
    /\ has_key input_data "TrainingUri"
    /\ has_key input_data "ValidationUri"
    /\ has_key input_data "BaselineUri".

Definition revision_loaded (a : Args) (w : World)
    (job_id git_commit_id data_verison_id : string) : Prop :=
  is_Some (region_name w)
  /\ exists response stage pairs,
    pipelines w !! pipeline_name a = Some response
    /\ stageStates response !! 0 = Some stage
    /\ action_revisions (actionStates stage) = Ok pairs
    /\ latestExecution stage = Some job_id
    /\ (<["JobId" := job_id]> (dict_of_pairs pairs)) !! "GitSource" = Some git_commit_id
    /\ (<["JobId" := job_id]> (dict_of_pairs pairs)) !! "DataSource" = Some data_verison_id.

Definition hyperparameters_loaded (a : Args) (w : World)
    (hyperparameters : gmap string string) : Prop :=
  if path_exists w (os_path_join (data_dir a) "hyperparameters.json") then
    exists text d,
      files w !! os_path_join (data_dir a) "hyperparameters.json" = Some text
      /\ json_loads text = Some d
      /\ stringify py_str d = Ok hyperparameters
  else hyperparameters = ∅.

Definition loads (a : Args) (w : World) (L : Loaded) : Prop :=
  image_loaded a w (ld_image_uri L)
  /\ input_loaded a w (ld_input_data L)
  /\ revision_loaded a w (ld_job_id L) (ld_git_commit_id L) (ld_data_version_id L)
  /\ hyperparameters_loaded a w (ld_hyperparameters L)
  /\ create_baseline_step image_uris_retrieve (ld_input_data L) execution_input_schema
       (region_name w) (sagemaker_role a) = Ok (ld_baseline_step L)
  /\ create_training_step (ld_image_uri L) (ld_hyperparameters L) (ld_input_data L)
       (main_output_data a (ld_job_id L)) execution_input_schema
       (query_training_function_name a) (region_name w) (sagemaker_role a)
     = Ok (ld_training_step L).

(** The early failures of [main]: inputData.json is missing or decodes to a
    value without one of its three keys, the first stage of the pipeline has
    no action called GitSource or DataSource, or the update of the workflow
    raises. *)
Definition early_failure (a : Args) (w : World) (r : result unit) : Prop :=
  files w !! os_path_join (data_dir a) "inputData.json" = None
  \/ (exists text d k,
        files w !! os_path_join (data_dir a) "inputData.json" = Some text
        /\ json_loads text = Some d
        /\ k ∈ ["TrainingUri"; "ValidationUri"; "BaselineUri"]
        /\ ~ has_key d k)
  \/ (exists response stage k,
        pipelines w !! pipeline_name a = Some response
        /\ stageStates response !! 0 = Some stage
        /\ k ∈ ["GitSource"; "DataSource"]
        /\ k ∉ actionName <$> actionStates stage)
  \/ r = Raise (ClientError "UpdateStateMachine").

End Loading.

(** The graph [main] builds from what it has loaded. *)
Definition ld_graph (a : Args) (L : Loaded) : State :=
  create_graph (create_experiment_step (create_experiment_function_name a))
    (ld_baseline_step L) (ld_training_step L).

(** The events up to the call of [Workflow.attach]. *)
Definition front_trace (a : Args) (w : World) : list Event :=
  image_trace a
  ++ [EvOpenRead (os_path_join (data_dir a) "inputData.json");
      EvGetPipelineState (pipeline_name a);
      EvExists (os_path_join (data_dir a) "hyperparameters.json")]
  ++ hyperparameters_trace a w
  ++ [EvAttach (workflow_pipeline_arn a)].

(** The world once the update has gone through. *)
Definition pushed (a : Args) (w : World) (g : State) : World :=
  with_state_machines
    (with_log w (log w ++ front_trace a w ++ [EvUpdate (workflow_pipeline_arn a) g]))
    (<[workflow_pipeline_arn a := g]> (state_machines w)).

(** The events of a complete output phase. *)
Definition output_trace (a : Args) (w : World) (l : list (string * string)) : list Event :=
  [EvExists (output_dir a)] ++ mkdir_trace a w ++ write_events l.

Section Failure.

Variable py_str : json -> string.
Variable json_loads : string -> option json.
Variable image_uris_retrieve : option string -> string -> string -> option string.

(** A failure of the front phases: only the log has changed, by a prefix of
    the front events or by all of them and a rejected update. *)
Definition front_failure (a : Args) (w : World) (r : result unit) (w' : World) : Prop :=
  exists e (evs : list Event),
    r = Raise e
    /\ w' = with_log w (log w ++ evs)
    /\ (evs `prefix_of` front_trace a w
        \/ exists L, loads py_str json_loads image_uris_retrieve a w L
             /\ evs = (front_trace a w
                       ++ [EvUpdate (workflow_pipeline_arn a) (ld_graph a L)])%list
             /\ e = ClientError "UpdateStateMachine")
    /\ ((exists image_uri, image_loaded json_loads image_uris_retrieve a w image_uri) ->
        (image_trace a ++ [EvOpenRead (os_path_join (data_dir a) "inputData.json")])%list
          `prefix_of` evs).

End Failure.

(** ** A sample run *)

Module Sample.

Definition input_doc : json :=
  JObj (<["TrainingUri" := JStr "s3://data/train.csv"]>
       (<["ValidationUri" := JStr "s3://data/val.csv"]>
       {[ "BaselineUri" := JStr "s3://data/baseline.csv" ]})).

Definition hyper_doc : json :=
  JObj (<["max_depth" := JNum 5]> {[ "alpha" := JStr "1" ]}).

Definition py_str (j : json) : string :=
  match j with
  | JStr s => s
  | JNum q => if Qeq_bool q 5 then "5" else "number"
  | JBool true => "True"
  | JBool false => "False"
  | JNull => "None"
  | _ => "..."
  end.

Definition json_loads (text : string) : option json :=
  if bool_decide (text = "INPUT") then Some input_doc
  else if bool_decide (text = "HYPER") then Some hyper_doc
  else if bool_decide (text = "IMAGE") then Some (JObj {[ "ImageURI" := JStr "repo/image:1" ]})
  else None.

Definition json_dumps (j : json) : string :=
  match j with JStr s => s | JObj _ => "{}" | _ => "?" end.

Definition definition_to_json (g : State) : string :=
  match g with Chain _ => "chain" | _ => "state" end.

Definition image_uris_retrieve (region : option string) (framework version : string)
    : option string :=
  match region with
  | Some r => Some (r +:+ "/" +:+ framework +:+ ":" +:+ version)
  | None => None
  end.

Definition pipeline : PipelineState :=
  {| stageStates :=
       [ {| actionStates :=
              [ {| actionName := "GitSource"; currentRevision := Some "abc123" |};
                {| actionName := "DataSource"; currentRevision := Some "v7" |} ];
            latestExecution := Some "exec-1" |} ] |}.

Definition world : World :=
  {| region_name := Some "eu-west-1";
     files := <["data/inputData.json" := "INPUT"]> {[ "data/hyperparameters.json" := "HYPER" ]};
     dirs := {[ "data" ]};
     pipelines := {[ "pipe" := pipeline ]};
     state_machines := {[ "arn:wf" := Succeed "old" ]};
     sfn_accepts := fun _ _ => true;
     log := [] |}.

Definition args : Args :=
  {| git_branch := "master"; pipeline_name := "pipe"; model_name := "nyctaxi";
     deploy_role := "role/deploy"; sagemaker_role := "role/sm"; sagemaker_bucket := "bucket";
     data_dir := "data"; output_dir := "out"; ecr_dir := None; kms_key_id := "key";
     workflow_pipeline_arn := "arn:wf"; create_experiment_function_name := "fn-exp";
     query_training_function_name := "fn-query" |}.

Definition run (a : Args) (w : World) : result unit * World :=
  main py_str json_loads json_dumps definition_to_json image_uris_retrieve a w.

(** The world after the run, and the graph it has pushed. *)
Definition final : World := (run args world).2.

Definition graph : State :=
  default (Succeed "none") (state_machines final !! "arn:wf").

(** The same files in a world with another pipeline and a service that
    rejects the update. *)
Definition other_world : World :=
  {| region_name := Some "eu-west-1";
     files := files world;
     dirs := dirs world;
     pipelines :=
       {[ "pipe" :=
            {| stageStates :=
                 [ {| actionStates :=
                        [ {| actionName := "DataSource"; currentRevision := Some "v8" |};
                          {| actionName := "GitSource"; currentRevision := Some "def456" |} ];
                      latestExecution := Some "exec-2" |} ] |} ]};
     state_machines := {[ "arn:wf" := Fail "older" None None ]};
     sfn_accepts := fun _ _ => false;
     log := [EvExists "out"] |}.

Definition other_final : World := (run args other_world).2.

Definition other_graph : State :=
  match last (log other_final) with
  | Some (EvUpdate _ g) => g
  | _ => Succeed "none"
  end.

(** The world without inputData.json. *)
Definition world_without_input : World :=
  {| region_name := Some "eu-west-1";
     files := {[ "data/hyperparameters.json" := "HYPER" ]};
     dirs := {[ "data" ]};
     pipelines := {[ "pipe" := pipeline ]};
     state_machines := {[ "arn:wf" := Succeed "old" ]};
     sfn_accepts := fun _ _ => true;
     log := [] |}.

Definition failed : World := (run args world_without_input).2.

(** A training chain. *)
Definition training_chain : State :=
  match create_training_step (JStr "repo/image:1") {[ "eta" := "0.3" ]} input_doc
          {[ "ModelOutputUri" := "s3://bucket/nyctaxi/model" ]} execution_input_schema
          "fn-query" (Some "eu-west-1") "role/sm" with
  | Ok t => t
  | Raise _ => Succeed "none"
  end.

End Sample.

Local Open Scope list_scope.

(** ** Further notions *)

(** The names of the four artifacts, in the order they are written. *)
Definition artifact_names : list string :=
  ["workflow-graph.json"; "workflow-input.json"; "deploy-model-dev.json";
   "template-model-prd.json"].

(** The directories once the output directory is there. *)
Definition dirs_with_output (a : Args) (w : World) : gset string :=
  if path_exists w (output_dir a) then dirs w else {[output_dir a]} ∪ dirs w.

(** The output phase can go through: the output directory can be made if it
    is not there, and no artifact path is a directory. *)
Definition outputs_writable (a : Args) (w : World) : Prop :=
  output_dir a <> ""
  /\ Forall (fun name => os_path_join (output_dir a) name ∉ dirs_with_output a w)
       artifact_names.

(** A run that has pushed nothing and written nothing. *)
Definition nothing_done (w w' : World) : Prop :=
  files w' = files w
  /\ dirs w' = dirs w
  /\ state_machines w' = state_machines w
  /\ List.filter is_update (new_events w w') = []
  /\ List.filter is_write (new_events w w') = []
  /\ List.filter is_mkdir (new_events w w') = [].

(** The directory of imageDetail.json: [ecr_dir], when it is given and not
    empty. *)
Definition image_dir (a : Args) : option string :=
  match ecr_dir a with
  | Some d => if bool_decide (d = "") then None else Some d
  | None => None
  end.

Section Image.

Variable json_loads : string -> option json.
Variable image_uris_retrieve : option string -> string -> string -> option string.

(** The training image can be determined: imageDetail.json is a JSON object
    with an ImageURI, or, without [ecr_dir], the region has a managed xgboost
    image. *)
Definition image_available (a : Args) (w : World) : Prop :=
  match image_dir a with
  | Some d =>
      exists text (detail : gmap string json),
        files w !! os_path_join d "imageDetail.json" = Some text
        /\ json_loads text = Some (JObj detail)
        /\ is_Some (detail !! "ImageURI")
  | None => is_Some (image_uris_retrieve (region_name w) "xgboost" "latest")
  end.

End Image.

Section Defects.

Variable json_loads : string -> option json.
Variable image_uris_retrieve : option string -> string -> string -> option string.

(** The answer of the pipeline service cannot be used: the pipeline is not
    known, has no stage, has an action without a current revision in its first
    stage, or has no execution of its first stage. *)
Definition pipeline_defect (a : Args) (w : World) : Prop :=
  pipelines w !! pipeline_name a = None
  \/ exists response,
       pipelines w !! pipeline_name a = Some response
       /\ (stageStates response = []
           \/ exists stage rest,
                stageStates response = stage :: rest
                /\ (Exists (fun r => currentRevision r = None) (actionStates stage)
                    \/ latestExecution stage = None)).

(** A file that is there cannot be used as a JSON document with the property
    [good]: it cannot be opened, is no JSON, or decodes to another value. *)
Definition unusable (w : World) (path : string) (good : json -> Prop) : Prop :=
  files w !! path = None
  \/ exists text,
       files w !! path = Some text
       /\ (json_loads text = None
           \/ exists d, json_loads text = Some d /\ ~ good d).

(** hyperparameters.json is there and is no JSON object. *)
Definition hyperparameters_defect (a : Args) (w : World) : Prop :=
  path_exists w (os_path_join (data_dir a) "hyperparameters.json") = true
  /\ unusable w (os_path_join (data_dir a) "hyperparameters.json")
       (fun d => exists m, d = JObj m).

(** No image: imageDetail.json is asked for and has no ImageURI, the managed
    xgboost image is asked for and the region has none, or the region has no
    model monitor image. *)
Definition image_defect (a : Args) (w : World) : Prop :=
  (truthy (ecr_dir a) = true
   /\ unusable w (os_path_join (default "" (ecr_dir a)) "imageDetail.json")
        (fun d => has_key d "ImageURI"))
  \/ (truthy (ecr_dir a) = false
      /\ image_uris_retrieve (region_name w) "xgboost" "latest" = None)
  \/ image_uris_retrieve (region_name w) "model-monitor" "latest" = None.

End Defects.

(** The ids of the states of a graph, those of its catchers and choices
    included, in the order of the definition. *)
Fixpoint state_ids (s : State) : list string :=
  match s with
  | Task i _ _ catchers => i :: flat_map (fun c => state_ids c.2) catchers
  | Parallel i branches _ catchers =>
      i :: flat_map state_ids branches ++ flat_map (fun c => state_ids c.2) catchers
  | Choice i choices default =>
      i :: flat_map (fun c => state_ids c.2) choices
        ++ match default with Some d => state_ids d | None => [] end
  | Fail i _ _ | Succeed i => [i]
  | Chain steps => flat_map state_ids steps
  end.

(** The key of the execution input a placeholder stands for. *)
Definition value_keys (v : Value) : list string :=
  match v with
  | ExecutionInputRef (Key k :: _) => [k]
  | _ => []
  end.

(** The key a path ['$.key'] of a Lambda payload selects from the input. *)
Definition path_keys (path : string) : list string :=
  match path with
  | String "$" (String "." k) => [k]
  | _ => []
  end.

Definition body_keys (b : TaskBody) : list string :=
  match b with
  | LambdaTask parameters _ => flat_map path_keys (map_to_list (Payload parameters)).*2
  | ProcessingTask _ job_name _ outputs experiment_config tags =>
      value_keys job_name
      ++ flat_map (fun o => value_keys (po_destination o)) outputs
      ++ flat_map value_keys (map_to_list experiment_config).*2
      ++ flat_map value_keys (map_to_list tags).*2
  | TrainingTask _ _ job_name experiment_config tags _ =>
      value_keys job_name
      ++ flat_map value_keys (map_to_list experiment_config).*2
      ++ flat_map value_keys (map_to_list tags).*2
  | ModelTask _ model model_name _ =>
      value_keys (model_data model) ++ value_keys model_name
  end.

(** The keys of the execution input the states of a graph refer to. *)
Fixpoint input_keys (s : State) : list string :=
  match s with
  | Task _ body _ catchers => body_keys body ++ flat_map (fun c => input_keys c.2) catchers
  | Parallel _ branches _ catchers =>
      flat_map input_keys branches ++ flat_map (fun c => input_keys c.2) catchers
  | Choice _ choices default =>
      flat_map (fun c => input_keys c.2) choices
      ++ match default with Some d => input_keys d | None => [] end
  | Fail _ _ _ | Succeed _ => []
  | Chain steps => flat_map input_keys steps
  end.

(** The part of a path after its last separator, if it has one. *)
Fixpoint after_last_sep (s : string) : option string :=
  match s with
  | "" => None
  | String c r =>
      match after_last_sep r with
      | Some t => Some t
      | None => if bool_decide (c = "/"%char) then Some r else None
      end
  end.

(** [os.path.basename(path)] of [posixpath]; the proofs tell paths apart by
    it. *)
Definition os_path_basename (path : string) : string :=
  default path (after_last_sep path).

(** The arguments that can show in the graph. *)
Definition same_graph_arguments (a1 a2 : Args) : Prop :=
  data_dir a1 = data_dir a2
  /\ ecr_dir a1 = ecr_dir a2
  /\ sagemaker_role a1 = sagemaker_role a2
  /\ sagemaker_bucket a1 = sagemaker_bucket a2
  /\ model_name a1 = model_name a2
  /\ create_experiment_function_name a1 = create_experiment_function_name a2
  /\ query_training_function_name a1 = query_training_function_name a2.

(** ** Further sample worlds *)

Module Cases.

(** The sample world with another answer of the pipeline service. *)
Definition with_pipeline (p : option PipelineState) : World :=
  {| region_name := region_name Sample.world;
     files := files Sample.world;
     dirs := dirs Sample.world;
     pipelines := match p with Some p => {[ "pipe" := p ]} | None => ∅ end;
     state_machines := state_machines Sample.world;
     sfn_accepts := sfn_accepts Sample.world;
     log := [] |}.

Definition no_stage : PipelineState := {| stageStates := [] |}.

Definition no_revision : PipelineState :=
  {| stageStates :=
       [ {| actionStates :=
              [ {| actionName := "GitSource"; currentRevision := Some "abc123" |};
                {| actionName := "DataSource"; currentRevision := Some "v7" |};
                {| actionName := "Approval"; currentRevision := None |} ];
            latestExecution := Some "exec-1" |} ] |}.

Definition no_execution : PipelineState :=
  {| stageStates :=
       [ {| actionStates :=
              [ {| actionName := "GitSource"; currentRevision := Some "abc123" |};
                {| actionName := "DataSource"; currentRevision := Some "v7" |} ];
            latestExecution := None |} ] |}.

(** A first stage with two actions of one name and an action called JobId,
    and a second stage. *)
Definition twice : PipelineState :=
  {| stageStates :=
       [ {| actionStates :=
              [ {| actionName := "GitSource"; currentRevision := Some "abc123" |};
                {| actionName := "DataSource"; currentRevision := Some "v7" |};
                {| actionName := "JobId"; currentRevision := Some "mine" |};
                {| actionName := "GitSource"; currentRevision := Some "abc124" |} ];
            latestExecution := Some "exec-1" |};
         {| actionStates := [ {| actionName := "Build"; currentRevision := None |} ];
            latestExecution := None |} ] |}.

(** The sample world in which the path of the third artifact is a
    directory. *)
Definition blocked_world : World :=
  {| region_name := region_name Sample.world;
     files := files Sample.world;
     dirs := {[ "data"; "out"; "out/deploy-model-dev.json" ]};
     pipelines := pipelines Sample.world;
     state_machines := state_machines Sample.world;
     sfn_accepts := sfn_accepts Sample.world;
     log := [] |}.

(** A decoder that also knows a document that is a list and one with a key
    called self. *)
Definition json_loads (text : string) : option json :=
  if bool_decide (text = "LIST") then Some (JArr [JStr "max_depth"; JNum 5])
  else if bool_decide (text = "SELF")
       then Some (JObj (<["self" := JStr "me"]> {[ "max_depth" := JNum 5 ]}))
  else Sample.json_loads text.

(** The sample world with a list in hyperparameters.json. *)
Definition list_world : World :=
  {| region_name := region_name Sample.world;
     files := <["data/inputData.json" := "INPUT"]> {[ "data/hyperparameters.json" := "LIST" ]};
     dirs := dirs Sample.world;
     pipelines := pipelines Sample.world;
     state_machines := state_machines Sample.world;
     sfn_accepts := sfn_accepts Sample.world;
     log := [] |}.

(** The sample world without a region. *)
Definition no_region_world : World :=
  {| region_name := None;
     files := files Sample.world;
     dirs := dirs Sample.world;
     pipelines := pipelines Sample.world;
     state_machines := state_machines Sample.world;
     sfn_accepts := sfn_accepts Sample.world;
     log := [] |}.

(** The sample world without the state machine. *)
Definition no_machine_world : World :=
  {| region_name := region_name Sample.world;
     files := files Sample.world;
     dirs := dirs Sample.world;
     pipelines := pipelines Sample.world;
     state_machines := ∅;
     sfn_accepts := sfn_accepts Sample.world;
     log := [] |}.

(** The world a run with the sample arguments leaves. *)
Definition after (w : World) : World := (Sample.run Sample.args w).2.

(** The run with the list in hyperparameters.json. *)
Definition list_run : result unit * World :=
  main Sample.py_str json_loads Sample.json_dumps Sample.definition_to_json
    Sample.image_uris_retrieve Sample.args list_world.

(** What [get_pipeline_revision] returns for the first stage with two
    actions of one name. *)
Definition twice_revision : gmap string string :=
  match (get_pipeline_revision "pipe" (with_pipeline (Some twice))).1 with
  | Ok rev => rev
  | Raise _ => ∅
  end.

(** Other arguments with the same configuration, run in the world whose
    service rejects the update. *)
Definition other_args : Args :=
  {| git_branch := "develop"; pipeline_name := "pipe"; model_name := "nyctaxi";
     deploy_role := "role/other"; sagemaker_role := "role/sm"; sagemaker_bucket := "bucket";
     data_dir := "data"; output_dir := "elsewhere"; ecr_dir := None;
     kms_key_id := "another-key"; workflow_pipeline_arn := "arn:wf";
     create_experiment_function_name := "fn-exp";
     query_training_function_name := "fn-query" |}.

Definition other_args_final : World := (Sample.run other_args Sample.other_world).2.

Definition other_args_graph : State :=
  match last (log other_args_final) with
  | Some (EvUpdate _ g) => g
  | _ => Succeed "none"
  end.

(** The sample arguments with a directory for imageDetail.json, and the
    sample world with that file. *)
Definition ecr_args : Args :=
  {| git_branch := "master"; pipeline_name := "pipe"; model_name := "nyctaxi";
     deploy_role := "role/deploy"; sagemaker_role := "role/sm"; sagemaker_bucket := "bucket";
     data_dir := "data"; output_dir := "out"; ecr_dir := Some "ecr"; kms_key_id := "key";
     workflow_pipeline_arn := "arn:wf"; create_experiment_function_name := "fn-exp";
     query_training_function_name := "fn-query" |}.

Definition ecr_world : World :=
  {| region_name := region_name Sample.world;
     files := <["ecr/imageDetail.json" := "IMAGE"]> (files Sample.world);
     dirs := {[ "data"; "ecr" ]};
     pipelines := pipelines Sample.world;
     state_machines := state_machines Sample.world;
     sfn_accepts := sfn_accepts Sample.world;
     log := [] |}.

(** The world a run with these arguments leaves. *)
Definition after_ecr (w : World) : World := (Sample.run ecr_args w).2.

Definition ecr_final : World := after_ecr ecr_world.

Definition ecr_graph : State :=
  default (Succeed "none") (state_machines ecr_final !! "arn:wf").

(** The same arguments in the sample world, which has no imageDetail.json. *)
Definition ecr_failed : World := after_ecr Sample.world.

(** The sample world with a hyperparameter called self. *)
Definition self_world : World :=
  {| region_name := region_name Sample.world;
     files := <["data/inputData.json" := "INPUT"]> {[ "data/hyperparameters.json" := "SELF" ]};
     dirs := dirs Sample.world;
     pipelines := pipelines Sample.world;
     state_machines := state_machines Sample.world;
     sfn_accepts := sfn_accepts Sample.world;
     log := [] |}.

Definition self_run : result unit * World :=
  main Sample.py_str json_loads Sample.json_dumps Sample.definition_to_json
    Sample.image_uris_retrieve Sample.args self_world.

(** The result of the query Lambda when the training job has no metrics. *)
Definition no_metrics : json :=
  JObj {[ "QueryTrainingResults" :=
            JObj {[ "Payload" :=
                      JObj {[ "results" := JObj {[ "TrainingMetrics" := JArr [] ]} ]} ]} ]}.

(** The sample world without a region. The arguments give a directory for
    the image, so that the region is first needed for the pipeline. *)
Definition ecr_no_region_world : World :=
  {| region_name := None;
     files := files ecr_world;
     dirs := dirs ecr_world;
     pipelines := pipelines Sample.world;
     state_machines := state_machines Sample.world;
     sfn_accepts := sfn_accepts Sample.world;
     log := [] |}.

End Cases.

(** ** Properties *)

Local Open Scope list_scope.

(** *** Dictionaries and paths *)

Lemma dict_update_lookup {V : Type} (d kw : gmap string V) (k : string) :
  dict_update d kw !! k = match kw !! k with Some v => Some v | None => d !! k end.
Proof.
  unfold dict_update. rewrite lookup_union.
  destruct (kw !! k), (d !! k); reflexivity.
Qed.

Lemma dict_of_pairs_snoc {V : Type} (pairs : list (string * V)) (k : string) (v : V) :
  dict_of_pairs (pairs ++ [(k, v)]) = <[k := v]> (dict_of_pairs pairs).
Proof. unfold dict_of_pairs. rewrite foldl_app. reflexivity. Qed.

(** A key is in [dict(pairs)] exactly when some pair has it. *)
Lemma dict_of_pairs_None {V : Type} (pairs : list (string * V)) (k : string) :
  dict_of_pairs pairs !! k = None <-> k ∉ pairs.*1.
Proof.
  induction pairs as [| [k' v] pairs IH] using rev_ind.
  - cbn. rewrite lookup_empty. split; [intros _; apply not_elem_of_nil | done].
  - rewrite dict_of_pairs_snoc, fmap_app, not_elem_of_app. cbn.
    rewrite lookup_insert. case_decide as Hk.
    + subst k'. split; [done |]. intros [_ Hn]. exfalso. apply Hn. left.
    + rewrite IH. split.
      * intros Hp. split; [done |]. intros Hin%list_elem_of_singleton. congruence.
      * tauto.
Qed.

Lemma Qlt_bool_iff (x y : Q) : Qlt_bool x y = true <-> (x < y)%Q.
Proof.
  unfold Qlt_bool. rewrite negb_true_iff. split.
  - intros H. apply Qnot_le_lt. intros Hle. apply Qle_bool_iff in Hle. congruence.
  - intros H. destruct (Qle_bool y x) eqn:E; [| reflexivity].
    apply Qle_bool_iff in E. exfalso. exact (Qlt_not_le _ _ H E).
Qed.

Lemma after_last_sep_app d r t :
  after_last_sep r = Some t -> after_last_sep (d +:+ r) = Some t.
Proof.
  intros Hr. induction d as [| c d IH]; [done |].
  change (String c d +:+ r) with (String c (d +:+ r)).
  cbn [after_last_sep]. by rewrite IH.
Qed.

Lemma after_last_sep_ends d n :
  after_last_sep n = None -> ends_with_sep d = true -> after_last_sep (d +:+ n) = Some n.
Proof.
  intros Hn. induction d as [| c d IH]; [done |].
  destruct d as [| c' d].
  - intros Hc%bool_decide_eq_true. subst c.
    change (String "/" "" +:+ n) with (String "/" n).
    cbn [after_last_sep]. rewrite Hn. by rewrite bool_decide_eq_true_2.
  - intros He. change (ends_with_sep (String c (String c' d)))
      with (ends_with_sep (String c' d)) in He.
    change (String c (String c' d) +:+ n) with (String c (String c' d +:+ n)).
    cbn [after_last_sep]. by rewrite (IH He).
Qed.

(** The base name of a file of a directory is its name. *)
Lemma os_path_basename_join d n :
  after_last_sep n = None -> os_path_basename (os_path_join d n) = n.
Proof.
  intros Hn. unfold os_path_basename, os_path_join.
  assert (String.prefix "/" n = false) as ->.
  { destruct n as [| c n]; [done |]. cbn [after_last_sep] in Hn.
    destruct (after_last_sep n); [discriminate |].
    cbn [String.prefix]. destruct (Ascii.ascii_dec "/" c) as [<- | Hc]; [| done].
    rewrite bool_decide_eq_true_2 in Hn by done. discriminate. }
  destruct (bool_decide (d = "")) eqn:Hd; cbn [orb].
  - apply bool_decide_eq_true in Hd as ->. change ("" +:+ n) with n. by rewrite Hn.
  - destruct (ends_with_sep d) eqn:He.
    + by rewrite (after_last_sep_ends _ _ Hn He).
    + rewrite (after_last_sep_app d ("/" +:+ n) n); [done |].
      change ("/" +:+ n) with (String "/" n). cbn [after_last_sep].
      rewrite Hn. by rewrite bool_decide_eq_true_2.
Qed.

(** Files of different names are different files, whatever their
    directories. *)
Lemma os_path_join_names d1 n1 d2 n2 :
  after_last_sep n1 = None -> after_last_sep n2 = None -> n1 <> n2 ->
  os_path_join d1 n1 <> os_path_join d2 n2.
Proof.
  intros H1 H2 Hne Heq. apply Hne.
  by rewrite <- (os_path_basename_join d1 n1 H1), Heq, os_path_basename_join.
Qed.

(** *** The graph builders *)

Lemma result_bind_Ok {A B : Type} (m : result A) (f : A -> result B) (b : B) :
  m ≫= f = Ok b -> exists a, m = Ok a /\ f a = Ok b.
Proof. destruct m as [a | e]; [eauto | discriminate]. Qed.

Ltac rstep H :=
  let E := fresh "E" in
  apply result_bind_Ok in H as (? & E & H).

Lemma require_role_Ok role u : require_role role = Ok u -> role <> "".
Proof. unfold require_role. case_bool_decide; [discriminate | done]. Qed.

Lemma set_hyperparameters_Ok e kw e' :
  set_hyperparameters e kw = Ok e' ->
  kw !! "self" = None
  /\ est_image_uri e' = est_image_uri e
  /\ est_hyperparameters e' = dict_update (est_hyperparameters e) kw.
Proof.
  unfold set_hyperparameters. case_bool_decide as Hself; [discriminate |].
  intros [= <-]. split; [| done].
  destruct (kw !! "self") eqn:E; [| done]. exfalso. apply Hself. eauto.
Qed.

Lemma TrainingStep_Ok state_id estimator data job_name experiment_config tags result_path s :
  TrainingStep state_id estimator data job_name experiment_config tags result_path = Ok s ->
  (exists uri, est_image_uri estimator = JStr uri)
  /\ s = Task state_id
           (TrainingTask estimator data job_name experiment_config tags result_path) [] [].
Proof.
  unfold TrainingStep. destruct (est_image_uri estimator); try discriminate.
  intros [= <-]. eauto.
Qed.

Lemma create_training_step_Ok image_uri hyperparameters input_data output_data
    execution_input query_training_function_name region role t :
  create_training_step image_uri hyperparameters input_data output_data execution_input
    query_training_function_name region role = Ok t ->
  exists xgb data job_name experiment_config tags input_path model model_name
    result_path parameters query_result_path,
    t = Chain
          [ Task "Training Job"
              (TrainingTask xgb data job_name experiment_config tags "$.TrainingResults")
              []
              [(["States.TaskFailed"],
                Fail "Training failed" None (Some "SageMakerTrainingJobFailed"))];
            Task "Save Model" (ModelTask input_path model model_name result_path) [] [];
            Task "Query Training Results" (LambdaTask parameters query_result_path) [] [];
            Choice "RMSE < 10"
              [(NumericLessThan (StepOutputRef metric_path) 10,
                Succeed "Model Error Acceptable")]
              (Some (Fail "Model Error Too Low"
                       (Some "RMSE accuracy higher than threshold") None)) ]
    /\ est_image_uri xgb = image_uri
    /\ est_hyperparameters xgb = dict_update ∅ (dict_update hp hyperparameters)
    /\ hyperparameters !! "self" = None
    /\ (exists uri, image_uri = JStr uri)
    /\ role <> "".
Proof.
  unfold create_training_step. intros H.
  rstep H. rstep H.
  match goal with E : require_role _ = _ |- _ => apply require_role_Ok in E end.
  rstep H.
  match goal with
  | E : set_hyperparameters _ _ = _ |- _ =>
      apply set_hyperparameters_Ok in E as (Hself & Himage & Hhyper)
  end.
  do 9 rstep H.
  match goal with
  | E : TrainingStep _ _ _ _ _ _ _ = _ |- _ =>
      apply TrainingStep_Ok in E as ([uri Huri] & ->)
  end.
  rstep H.
  match goal with
  | E : get_expected_model _ = _ |- _ =>
      cbv [get_expected_model add_catch] in E; injection E as <-
  end.
  rstep H. injection H as <-.
  do 11 eexists. split; [reflexivity |].
  cbn [est_image_uri est_hyperparameters] in Himage, Hhyper.
  split; [exact Himage |]. split; [exact Hhyper |].
  split.
  { rewrite dict_update_lookup in Hself. by destruct (hyperparameters !! "self"). }
  split; [| assumption]. exists uri. by rewrite <- Himage.
Qed.

Lemma create_baseline_step_Ok retrieve_image input_data execution_input region role b :
  create_baseline_step retrieve_image input_data execution_input region role = Ok b ->
  exists processor job_name inputs outputs experiment_config tags,
    b = Task "Baseline Job"
          (ProcessingTask processor job_name inputs outputs experiment_config tags)
          []
          [(["States.TaskFailed"],
            Fail "Baseline failed" None (Some "SageMakerBaselineJobFailed"))].
Proof.
  unfold create_baseline_step. intros H.
  do 10 rstep H. injection H as <-.
  do 6 eexists. reflexivity.
Qed.

Lemma create_graph_shape retrieve_image function_name input_data execution_input region
    role image_uri hyperparameters output_data query_name region' role' b t :
  create_baseline_step retrieve_image input_data execution_input region role = Ok b ->
  create_training_step image_uri hyperparameters input_data output_data execution_input
    query_name region' role' = Ok t ->
  workflow_shape (create_graph (create_experiment_step function_name) b t) = true.
Proof.
  intros (? & ? & ? & ? & ? & ? & ->)%create_baseline_step_Ok.
  intros (? & ? & ? & ? & ? & ? & ? & ? & ? & ? & ? & -> & _)%create_training_step_Ok.
  reflexivity.
Qed.

(** *** Stepping through a computation *)

Lemma bind_inv {A B : Type} (m : M A) (f : A -> M B) w r w' :
  bind m f w = (r, w') ->
  (exists a w1, m w = (Ok a, w1) /\ f a w1 = (r, w'))
  \/ (exists e, m w = (Raise e, w') /\ r = Raise e).
Proof.
  unfold bind. destruct (m w) as [[a | e] w1]; intros H.
  - left. eauto.
  - right. injection H as <- <-. eauto.
Qed.

Lemma lift_inv {A : Type} (x : result A) w r w' :
  lift x w = (r, w') -> x = r /\ w' = w.
Proof. unfold lift. intros [= <- <-]. auto. Qed.

Lemma ret_inv {A : Type} (x : A) w r w' :
  ret x w = (r, w') -> r = Ok x /\ w' = w.
Proof. unfold ret. intros [= <- <-]. auto. Qed.

Lemma boto3_region_name_inv w r w' :
  boto3_region_name w = (r, w') -> r = Ok (region_name w) /\ w' = w.
Proof. unfold boto3_region_name. intros [= <- <-]. auto. Qed.

Lemma open_read_inv path w r w' :
  open_read path w = (r, w') ->
  w' = record (EvOpenRead path) w
  /\ match r with
     | Ok text => files w !! path = Some text
     | Raise _ => files w !! path = None
     end.
Proof.
  unfold open_read. cbn [files dirs record with_log].
  destruct (files w !! path) as [text |].
  - intros [= <- <-]. auto.
  - case_bool_decide; intros [= <- <-]; auto.
Qed.

Lemma os_path_exists_inv path w r w' :
  os_path_exists path w = (r, w') ->
  w' = record (EvExists path) w /\ r = Ok (path_exists w path).
Proof. unfold os_path_exists. intros [= <- <-]. auto. Qed.

Lemma os_mkdir_inv path w r w' :
  os_mkdir path w = (r, w') ->
  match r with
  | Ok _ => path_exists w path = false
            /\ w' = with_dirs (record (EvMkdir path) w) ({[path]} ∪ dirs w)
  | Raise e => os_error e /\ w' = record (EvMkdir path) w
  end.
Proof.
  unfold os_mkdir. case_bool_decide.
  - intros [= <- <-]. cbn. auto.
  - change (path_exists (record (EvMkdir path) w) path) with (path_exists w path).
    destruct (path_exists w path); intros [= <- <-]; cbn; auto.
Qed.

Lemma write_file_inv path text w r w' :
  write_file path text w = (r, w') ->
  match r with
  | Ok _ => w' = with_files (record (EvWrite path text) w) (<[path := text]> (files w))
  | Raise e => os_error e /\ w' = record (EvWrite path text) w
  end.
Proof.
  unfold write_file. cbn [files dirs record with_log].
  case_bool_decide; intros [= <- <-]; cbn; auto.
Qed.

Lemma Workflow_attach_inv arn w r w' :
  Workflow_attach arn w = (r, w') ->
  w' = record (EvAttach arn) w
  /\ match r with
     | Ok wf => state_machine_arn wf = arn /\ state_machines w !! arn = Some (definition wf)
     | Raise _ => state_machines w !! arn = None
     end.
Proof.
  unfold Workflow_attach. cbn [state_machines record with_log].
  destruct (state_machines w !! arn); intros [= <- <-]; auto.
Qed.

Lemma Workflow_update_inv wf g w r w' :
  Workflow_update wf g w = (r, w') ->
  match r with
  | Ok wf' =>
      wf' = {| state_machine_arn := state_machine_arn wf; definition := g |}
      /\ is_Some (state_machines w !! state_machine_arn wf)
      /\ sfn_accepts w (state_machine_arn wf) g = true
      /\ w' = with_state_machines (record (EvUpdate (state_machine_arn wf) g) w)
                (<[state_machine_arn wf := g]> (state_machines w))
  | Raise e =>
      e = ClientError "UpdateStateMachine"
      /\ w' = record (EvUpdate (state_machine_arn wf) g) w
      /\ (is_Some (state_machines w !! state_machine_arn wf) ->
          sfn_accepts w (state_machine_arn wf) g = false)
  end.
Proof.
  unfold Workflow_update. cbn [state_machines sfn_accepts record with_log].
  case_bool_decide as Hsm; cbn [andb].
  - destruct (sfn_accepts w (state_machine_arn wf) g); intros [= <- <-]; auto.
  - intros [= <- <-]. repeat split; [done..|]. intros ?. done.
Qed.

Lemma boto3_client_inv service w r w' :
  boto3_client service w = (r, w') ->
  w' = w
  /\ match r with
     | Ok _ => is_Some (region_name w)
     | Raise e => region_name w = None /\ e = NoRegionError
     end.
Proof.
  unfold boto3_client. destruct (region_name w); intros [= <- <-]; eauto.
Qed.

Lemma get_pipeline_revision_inv name w r w' :
  get_pipeline_revision name w = (r, w') ->
  (region_name w = None /\ r = Raise NoRegionError /\ w' = w)
  \/ (is_Some (region_name w)
      /\ w' = record (EvGetPipelineState name) w
      /\ match r with
         | Ok rev =>
             exists response stage pairs execution_id,
               pipelines w !! name = Some response
               /\ stageStates response !! 0 = Some stage
               /\ action_revisions (actionStates stage) = Ok pairs
               /\ latestExecution stage = Some execution_id
               /\ rev = <["JobId" := execution_id]> (dict_of_pairs pairs)
         | Raise _ => True
         end).
Proof.
  unfold get_pipeline_revision, bind, boto3_client, codepipeline_get_pipeline_state,
    lift, ret.
  destruct (region_name w) as [region |] eqn:Hregion.
  2: { intros [= <- <-]. by left. }
  intros H. right. split; [done |]. revert H.
  cbn [pipelines record with_log].
  destruct (pipelines w !! name) as [response |] eqn:Hresponse; cbn [of_option].
  2: { intros [= <- <-]; auto. }
  unfold list_getitem.
  destruct (stageStates response !! 0) as [stage |] eqn:Hstage; cbn [of_option].
  2: { intros [= <- <-]; auto. }
  destruct (action_revisions (actionStates stage)) as [pairs |] eqn:Hpairs.
  2: { intros [= <- <-]; auto. }
  destruct (latestExecution stage) as [execution_id |] eqn:Hexecution; cbn [of_option].
  2: { intros [= <- <-]; auto. }
  intros [= <- <-]. split; [done |]. eauto 10.
Qed.

(** Worlds that differ in the log only. *)
Lemma with_log_nil w : with_log w (log w ++ []) = w.
Proof. destruct w. unfold with_log. cbn. by rewrite app_nil_r. Qed.

Lemma record_with_log e w evs :
  record e (with_log w (log w ++ evs)) = with_log w (log w ++ (evs ++ [e])).
Proof. unfold record, with_log. cbn. by rewrite app_assoc. Qed.

Lemma with_log_app w evs evs' :
  with_log (with_log w (log w ++ evs)) (log (with_log w (log w ++ evs)) ++ evs')
  = with_log w (log w ++ (evs ++ evs')).
Proof. unfold with_log. cbn. by rewrite app_assoc. Qed.

Lemma path_exists_with_log w l path : path_exists (with_log w l) path = path_exists w path.
Proof. reflexivity. Qed.

Ltac norm_world :=
  rewrite ?record_with_log, ?with_log_app, ?path_exists_with_log in *;
  cbn [files dirs pipelines state_machines sfn_accepts region_name with_log] in *.

Lemma record_start e w : record e w = with_log w (log w ++ [e]).
Proof. reflexivity. Qed.

Lemma new_events_app w w' evs : log w' = log w ++ evs -> new_events w w' = evs.
Proof. unfold new_events. intros ->. by rewrite drop_app_length. Qed.

(** *** The phases of [main] *)

Section Properties.

Context (py_str : json -> string) (json_loads : string -> option json)
  (json_dumps : json -> string) (definition_to_json : State -> string)
  (image_uris_retrieve : option string -> string -> string -> option string).

Local Abbreviation run_main :=
  (main py_str json_loads json_dumps definition_to_json image_uris_retrieve).
Local Abbreviation run_loads := (loads py_str json_loads image_uris_retrieve).
Local Abbreviation run_outputs := (write_outputs json_dumps definition_to_json).
Local Abbreviation run_artifacts := (artifacts json_dumps definition_to_json).
Local Abbreviation front_failure := (front_failure py_str json_loads image_uris_retrieve).

Ltac step H :=
  let E := fresh "E" in
  let Hr := fresh "Hr" in
  apply bind_inv in H as [(? & ? & E & H) | (? & E & Hr)].

Lemma json_load_Ok text d :
  json_load json_loads text = Ok d <-> json_loads text = Some d.
Proof. unfold json_load. destruct (json_loads text); cbn; split; congruence. Qed.

Lemma image_phase_inv a w r w1 :
  (if truthy (ecr_dir a) then
     f <- open_read (os_path_join (default "" (ecr_dir a)) "imageDetail.json") ;;
     d <- lift (json_load json_loads f) ;;
     lift (py_getitem d "ImageURI")
   else
     uri <- lift (get_training_image image_uris_retrieve (region_name w)) ;;
     ret (JStr uri)) w = (r, w1) ->
  w1 = with_log w (log w ++ image_trace a)
  /\ match r with
     | Ok image_uri => image_loaded json_loads image_uris_retrieve a w image_uri
     | Raise _ => ~ exists image_uri, image_loaded json_loads image_uris_retrieve a w image_uri
     end.
Proof.
  unfold image_loaded, image_trace. destruct (truthy (ecr_dir a)); intros H.
  - step H.
    2: { apply open_read_inv in E as [-> E]. subst r. split; [done |].
         intros (img & text & d & Hf & _). congruence. }
    apply open_read_inv in E as [-> E].
    step H.
    2: { apply lift_inv in E0 as [E0 ->]. subst r. split; [done |].
         intros (img & text & d & Hf & Hd & _).
         assert (json_load json_loads text = Ok d) as Hd' by (by apply json_load_Ok).
         congruence. }
    apply lift_inv in E0 as [E0%json_load_Ok ->].
    apply lift_inv in H as [H ->]. split; [reflexivity |].
    destruct r; [eauto |].
    intros (img & text & d & Hf & Hd & Hk). congruence.
  - step H.
    2: { apply lift_inv in E as [E ->]. subst r. rewrite with_log_nil. split; [done |].
         intros (img & uri & Hi & _). unfold get_training_image, retrieve in E.
         rewrite Hi in E. discriminate. }
    apply lift_inv in E as [E ->].
    apply ret_inv in H as [-> ->]. rewrite with_log_nil. split; [done |].
    unfold get_training_image, retrieve in E.
    destruct (image_uris_retrieve (region_name w) "xgboost" "latest") eqn:Hi;
      [| discriminate].
    injection E as <-. eauto.
Qed.

Lemma hyperparameters_phase_inv path (b : bool) w r w1 :
  (if b then
     f <- open_read path ;;
     d <- lift (json_load json_loads f) ;;
     lift (stringify py_str d)
   else ret ∅) w = (r, w1) ->
  w1 = with_log w (log w ++ if b then [EvOpenRead path] else [])
  /\ match r with
     | Ok hyperparameters =>
         if b then
           exists text d,
             files w !! path = Some text /\ json_loads text = Some d
             /\ stringify py_str d = Ok hyperparameters
         else hyperparameters = ∅
     | Raise _ => True
     end.
Proof.
  destruct b; intros H.
  - step H.
    2: { apply open_read_inv in E as [-> _]. subst r. auto. }
    apply open_read_inv in E as [-> E].
    step H.
    2: { apply lift_inv in E0 as [_ ->]. subst r. auto. }
    apply lift_inv in E0 as [E0%json_load_Ok ->].
    apply lift_inv in H as [H ->]. split; [reflexivity |].
    destruct r; [eauto | done].
  - apply ret_inv in H as [-> ->]. by rewrite with_log_nil.
Qed.

Ltac prefix_front :=
  unfold front_trace; rewrite <- ?app_assoc; cbn [app];
  repeat first
    [ apply prefix_nil
    | reflexivity
    | apply prefix_cons
    | apply prefix_app
    | apply prefix_app_r; reflexivity ].

Ltac front_fails :=
  subst; norm_world; left; do 2 eexists; split; [reflexivity |];
  split; [reflexivity |]; split; [left; prefix_front | intros _; prefix_front].

Lemma main_run a w r w' :
  run_main a w = (r, w') ->
  front_failure a w r w'
  \/ exists L,
       run_loads a w L
       /\ is_Some (state_machines w !! workflow_pipeline_arn a)
       /\ sfn_accepts w (workflow_pipeline_arn a) (ld_graph a L) = true
       /\ run_outputs a (ld_image_uri L) (ld_job_id L) (ld_git_commit_id L)
            (ld_data_version_id L) (main_output_data a (ld_job_id L))
            {| state_machine_arn := workflow_pipeline_arn a; definition := ld_graph a L |}
            (pushed a w (ld_graph a L)) = (r, w').
Proof.
  intros H. unfold main in H.
  step H; apply boto3_region_name_inv in E as [[= ->] ->].
  step H; apply image_phase_inv in E as [-> Himage].
  2: { subst. left. do 2 eexists. split; [reflexivity |]. split; [reflexivity |].
       split; [left; prefix_front | done]. }
  step H; apply open_read_inv in E as [-> Hfile]; norm_world.
  2: { front_fails. }
  step H; apply lift_inv in E as [Hinput ->].
  2: { front_fails. }
  apply json_load_Ok in Hinput.
  step H; apply lift_inv in E as [Htraining ->].
  2: { front_fails. }
  step H; apply lift_inv in E as [Hvalidation ->].
  2: { front_fails. }
  step H; apply lift_inv in E as [Hbaseline ->].
  2: { front_fails. }
  step H.
  2: { apply get_pipeline_revision_inv in E as [(_ & _ & ->) | (_ & -> & _)];
         norm_world; front_fails. }
  apply get_pipeline_revision_inv in E as [(_ & [=] & _) | (Hregion & -> & Hrevision)];
    norm_world.
  destruct Hrevision as (response & stage & pairs & execution_id & Hresponse & Hstage
                         & Hpairs & Hexecution & ->).
  step H; apply lift_inv in E as [Hjob ->].
  2: { front_fails. }
  unfold dict_getitem in Hjob. rewrite lookup_insert_eq in Hjob. injection Hjob as <-.
  step H; apply lift_inv in E as [Hgit ->].
  2: { front_fails. }
  step H; apply lift_inv in E as [Hdata ->].
  2: { front_fails. }
  step H; apply os_path_exists_inv in E as [-> [= ->]]; norm_world.
  step H; apply hyperparameters_phase_inv in E as [-> Hhyper]; norm_world;
    fold (hyperparameters_trace a w) in *.
  2: { front_fails. }
  step H; apply lift_inv in E as [Hbase ->].
  2: { front_fails. }
  step H; apply lift_inv in E as [Htrain ->].
  2: { front_fails. }
  step H; apply Workflow_attach_inv in E as [-> Hattach]; norm_world.
  2: { front_fails. }
  destruct Hattach as [Harn Hmachine].
  unfold dict_getitem in Hgit, Hdata.
  destruct (_ !! "GitSource") as [git |] eqn:Hgit'; [injection Hgit as -> | done].
  destruct (_ !! "DataSource") as [data |] eqn:Hdata'; [injection Hdata as -> | done].
  set (L := {| ld_image_uri := x; ld_input_data := x1; ld_job_id := execution_id;
               ld_git_commit_id := x5; ld_data_version_id := x6;
               ld_hyperparameters := x7; ld_baseline_step := x8;
               ld_training_step := x9 |}).
  assert (run_loads a w L) as Hloads.
  { unfold loads, input_loaded, revision_loaded, hyperparameters_loaded, has_key.
    subst L.
    cbn [ld_image_uri ld_input_data ld_job_id ld_git_commit_id ld_data_version_id
         ld_hyperparameters ld_baseline_step ld_training_step].
    repeat split; eauto 10. }
  step H; apply Workflow_update_inv in E; rewrite Harn in *; norm_world.
  2: { destruct E as (-> & -> & _). subst r. left. do 2 eexists.
       split; [reflexivity |]. split; [reflexivity |]. split.
       - right. exists L. split; [exact Hloads |].
         split; [| reflexivity]. unfold front_trace. rewrite <- !app_assoc. reflexivity.
       - intros _. prefix_front. }
  destruct E as (-> & _ & Haccepts & ->). norm_world.
  right. exists L.
  split; [exact Hloads |]. split; [eauto |]. split; [exact Haccepts |].
  match type of H with
  | _ ?wu = _ => replace wu with (pushed a w (ld_graph a L)) in H
  end.
  - exact H.
  - unfold pushed, front_trace. rewrite <- !app_assoc. reflexivity.
Qed.

Lemma main_output_data_baseline a job_id :
  dict_getitem (main_output_data a job_id) "BaselineOutputUri"
  = Ok ("s3://" +:+ sagemaker_bucket a +:+ "/" +:+ model_name a
        +:+ "/monitoring/baseline/mlops-" +:+ model_name a +:+ "-pbl-" +:+ job_id).
Proof.
  unfold dict_getitem, main_output_data.
  rewrite lookup_insert_ne by done. by rewrite lookup_singleton_eq.
Qed.

Lemma mkdir_phase_inv path (b : bool) w r w1 :
  (if b then ret tt else os_mkdir path) w = (r, w1) ->
  match r with
  | Ok _ =>
      w1 = with_dirs (with_log w (log w ++ if b then [] else [EvMkdir path]))
             (if b then dirs w else {[path]} ∪ dirs w)
  | Raise e => os_error e /\ b = false /\ w1 = record (EvMkdir path) w
  end.
Proof.
  destruct b; intros H.
  - apply ret_inv in H as [-> ->]. destruct w. unfold with_dirs, with_log. cbn.
    by rewrite app_nil_r.
  - apply os_mkdir_inv in H. destruct r; [| tauto]. by destruct H as [_ ->].
Qed.

Ltac world_fields :=
  cbn [files dirs log pipelines state_machines region_name sfn_accepts
       record with_log with_files with_dirs with_state_machines].

Ltac output_fails :=
  subst; split; [assumption |]; eexists; world_fields;
  rewrite <- ?app_assoc;
  split; [reflexivity |]; split; [| reflexivity];
  rewrite ?Forall_app; repeat split; repeat case_match; repeat constructor.

Lemma write_outputs_run a image_uri job_id git_commit_id data_verison_id workflow w r w' :
  run_outputs a image_uri job_id git_commit_id data_verison_id
    (main_output_data a job_id) workflow w = (r, w') ->
  let l := run_artifacts a image_uri job_id git_commit_id data_verison_id
             (definition workflow) in
  match r with
  | Ok _ =>
      log w' = log w ++ output_trace a w l
      /\ files w' = write_all l (files w)
      /\ dirs w' = (if path_exists w (output_dir a) then dirs w
                    else {[output_dir a]} ∪ dirs w)
      /\ state_machines w' = state_machines w
  | Raise e =>
      os_error e
      /\ exists evs, log w' = log w ++ evs /\ Forall output_event evs
                     /\ state_machines w' = state_machines w
  end.
Proof.
  intros H l. unfold write_outputs in H.
  step H; apply os_path_exists_inv in E as [-> [= ->]].
  step H; apply mkdir_phase_inv in E.
  2: { destruct E as (? & _ & ->). output_fails. }
  subst.
  step H; apply write_file_inv in E.
  2: { destruct E as (? & ->). output_fails. }
  subst.
  step H; apply lift_inv in E as [Huri ->].
  2: { rewrite main_output_data_baseline in Huri. discriminate. }
  rewrite main_output_data_baseline in Huri. injection Huri as <-.
  step H; apply write_file_inv in E.
  2: { destruct E as (? & ->). output_fails. }
  subst.
  step H; apply write_file_inv in E.
  2: { destruct E as (? & ->). output_fails. }
  subst.
  apply write_file_inv in H. destruct r as [[] | e].
  2: { destruct H as (? & ->). output_fails. }
  subst w'. world_fields. rewrite <- !app_assoc.
  repeat split; reflexivity.
Qed.

(** What a run that returns has done. *)
Lemma main_Ok a w w' :
  run_main a w = (Ok tt, w') ->
  exists L,
    run_loads a w L
    /\ is_Some (state_machines w !! workflow_pipeline_arn a)
    /\ sfn_accepts w (workflow_pipeline_arn a) (ld_graph a L) = true
    /\ new_events w w'
       = front_trace a w ++ [EvUpdate (workflow_pipeline_arn a) (ld_graph a L)]
         ++ output_trace a w
              (run_artifacts a (ld_image_uri L) (ld_job_id L) (ld_git_commit_id L)
                 (ld_data_version_id L) (ld_graph a L))
    /\ files w'
       = write_all
           (run_artifacts a (ld_image_uri L) (ld_job_id L) (ld_git_commit_id L)
              (ld_data_version_id L) (ld_graph a L))
           (files w)
    /\ dirs w' = (if path_exists w (output_dir a) then dirs w
                  else {[output_dir a]} ∪ dirs w)
    /\ state_machines w'
       = <[workflow_pipeline_arn a := ld_graph a L]> (state_machines w).
Proof.
  intros [Hfail | (L & Hloads & Hmachine & Haccepts & Hout)]%main_run.
  { destruct Hfail as (e & evs & [=] & _). }
  exists L. apply write_outputs_run in Hout.
  cbv zeta in Hout. destruct Hout as (Hlog & Hfiles & Hdirs & Hsm).
  split; [exact Hloads |]. split; [exact Hmachine |]. split; [exact Haccepts |].
  split; [| split; [exact Hfiles | split; [exact Hdirs | exact Hsm]]].
  apply new_events_app. rewrite Hlog. unfold pushed. world_fields.
  rewrite <- !app_assoc. reflexivity.
Qed.

(** What any run has done: a prefix of the front events, or all of them, the
    update with the graph built from what was loaded, and events of the
    output phase. *)
Lemma main_events a w r w' :
  run_main a w = (r, w') ->
  (exists e, r = Raise e /\ files w' = files w /\ dirs w' = dirs w
             /\ state_machines w' = state_machines w
             /\ new_events w w' `prefix_of` front_trace a w
             /\ ((exists image_uri,
                    image_loaded json_loads image_uris_retrieve a w image_uri) ->
                 (image_trace a ++ [EvOpenRead (os_path_join (data_dir a) "inputData.json")])
                   `prefix_of` new_events w w'))
  \/ (exists L post,
        run_loads a w L
        /\ new_events w w'
           = front_trace a w ++ [EvUpdate (workflow_pipeline_arn a) (ld_graph a L)] ++ post
        /\ Forall output_event post).
Proof.
  intros [Hfail | (L & Hloads & Hmachine & Haccepts & Hout)]%main_run.
  - destruct Hfail as (e & evs & -> & -> & [Hpre | (L & HL & -> & ->)] & Himage).
    + left. exists e. world_fields. erewrite new_events_app by reflexivity.
      repeat split; try reflexivity; assumption.
    + right. exists L, []. split; [done |]. split; [| constructor].
      by erewrite new_events_app by reflexivity.
  - right.
    apply write_outputs_run in Hout. cbv zeta in Hout.
    assert (exists post, log w' = log (pushed a w (ld_graph a L)) ++ post
                         /\ Forall output_event post) as (post & Hlog & Hpost).
    { destruct r as [[] | e].
      - destruct Hout as (Hlog & _). eexists. split; [exact Hlog |].
        unfold output_trace, mkdir_trace, write_events, artifacts.
        destruct (path_exists _ _); repeat constructor.
      - destruct Hout as (_ & evs & Hlog & Hevs & _). eauto. }
    exists L, post. split; [exact Hloads |]. split; [| exact Hpost].
    apply new_events_app. rewrite Hlog. unfold pushed. world_fields.
    rewrite <- !app_assoc. reflexivity.
Qed.

Lemma loads_shape a w L : run_loads a w L -> workflow_shape (ld_graph a L) = true.
Proof.
  intros (_ & _ & _ & _ & Hb & Ht). eapply create_graph_shape; eauto.
Qed.

(** The estimator in the graph carries the image and the hyperparameters that
    were loaded; no state of the graph has a retrier. *)
Lemma loads_estimator a w L :
  run_loads a w L ->
  retry_free (ld_graph a L) = true
  /\ exists e,
       graph_estimator (ld_graph a L) = Some e
       /\ est_image_uri e = ld_image_uri L
       /\ est_hyperparameters e = dict_update ∅ (dict_update hp (ld_hyperparameters L)).
Proof.
  intros (_ & _ & _ & _ & Hb & Ht). unfold ld_graph.
  apply create_baseline_step_Ok in Hb as (? & ? & ? & ? & ? & ? & ->).
  apply create_training_step_Ok in Ht
    as (xgb & ? & ? & ? & ? & ? & ? & ? & ? & ? & ? & -> & Himage & Hhyper & _).
  split; [reflexivity |]. exists xgb. split; [reflexivity |]. done.
Qed.

(** What the SDK has checked when the configuration is loaded. *)
Lemma loads_checks a w L :
  run_loads a w L ->
  is_Some (region_name w)
  /\ sagemaker_role a <> ""
  /\ ld_hyperparameters L !! "self" = None
  /\ exists uri, ld_image_uri L = JStr uri.
Proof.
  intros (_ & _ & (Hregion & _) & _ & _ & Ht).
  apply create_training_step_Ok in Ht
    as (? & ? & ? & ? & ? & ? & ? & ? & ? & ? & ? & _ & _ & _ & Hself & Himage & Hrole).
  done.
Qed.

(** *** The events of the phases, by kind *)

Lemma front_trace_kinds a w :
  List.filter is_write (front_trace a w) = []
  /\ List.filter is_mkdir (front_trace a w) = []
  /\ List.filter is_update (front_trace a w) = []
  /\ List.filter is_attach (front_trace a w) = [EvAttach (workflow_pipeline_arn a)]
  /\ List.filter is_read (front_trace a w)
     = image_trace a ++ [EvOpenRead (os_path_join (data_dir a) "inputData.json")]
       ++ hyperparameters_trace a w.
Proof.
  unfold front_trace, image_trace, hyperparameters_trace.
  destruct (truthy (ecr_dir a)), (path_exists w _); repeat split; reflexivity.
Qed.

Lemma write_events_kinds l :
  List.filter is_write (write_events l) = write_events l
  /\ List.filter is_mkdir (write_events l) = []
  /\ List.filter is_update (write_events l) = []
  /\ List.filter is_attach (write_events l) = []
  /\ List.filter is_read (write_events l) = [].
Proof.
  induction l as [| [path text] l (IH1 & IH2 & IH3 & IH4 & IH5)]; [done |].
  change (write_events ((path, text) :: l)) with (EvWrite path text :: write_events l).
  cbn [List.filter is_write is_mkdir is_update is_attach is_read].
  rewrite IH1, IH2, IH3, IH4, IH5. done.
Qed.

Lemma output_trace_kinds a w l :
  List.filter is_write (output_trace a w l) = write_events l
  /\ List.filter is_mkdir (output_trace a w l) = mkdir_trace a w
  /\ List.filter is_update (output_trace a w l) = []
  /\ List.filter is_attach (output_trace a w l) = []
  /\ List.filter is_read (output_trace a w l) = [].
Proof.
  destruct (write_events_kinds l) as (H1 & H2 & H3 & H4 & H5).
  unfold output_trace, mkdir_trace.
  destruct (path_exists w _);
    cbn [app List.filter is_write is_mkdir is_update is_attach is_read];
    rewrite ?H1, ?H2, ?H3, ?H4, ?H5; done.
Qed.

Lemma filter_output_events (P : Event -> bool) post :
  (forall e, output_event e -> P e = false) ->
  Forall output_event post -> List.filter P post = [].
Proof.
  intros HP. induction 1 as [| e post He _ IH]; [done |].
  cbn. by rewrite (HP e He).
Qed.

Lemma filter_prefix (P : Event -> bool) l1 l2 :
  l1 `prefix_of` l2 -> List.filter P l1 `prefix_of` List.filter P l2.
Proof. intros [k ->]. rewrite List.filter_app. by eexists. Qed.

Lemma write_all_other l f path :
  path ∉ l.*1 -> write_all l f !! path = f !! path.
Proof.
  unfold write_all. revert f. induction l as [| [p t] l IH]; intros f Hp; [done |].
  cbn in *. apply not_elem_of_cons in Hp as [Hne Hp].
  rewrite IH by done. by rewrite lookup_insert_ne.
Qed.

Lemma filter_nil_elem (P : Event -> bool) l e :
  List.filter P l = [] -> e ∈ l -> P e = false.
Proof.
  intros Hnil Hin. destruct (P e) eqn:HP; [| done].
  assert (In e (List.filter P l)) as Hf.
  { apply List.filter_In. split; [by apply list_elem_of_In | done]. }
  rewrite Hnil in Hf. destruct Hf.
Qed.

(** An update among the new events pushes the graph built from what was
    loaded. *)
Lemma main_update_graph a w r w' arn g :
  run_main a w = (r, w') ->
  EvUpdate arn g ∈ new_events w w' ->
  exists L, run_loads a w L /\ arn = workflow_pipeline_arn a /\ g = ld_graph a L.
Proof.
  intros Hrun Hin. destruct (front_trace_kinds a w) as (_ & _ & Hupdate & _).
  apply main_events in Hrun as [(e & _ & _ & _ & _ & Hpre & _) | (L & post & HL & Hev & Hpost)].
  - destruct Hpre as [k Hk].
    assert (EvUpdate arn g ∈ front_trace a w) as Hin'.
    { rewrite Hk. apply elem_of_app. by left. }
    by apply (filter_nil_elem is_update) in Hin'.
  - rewrite Hev in Hin. apply elem_of_app in Hin as [Hin | Hin].
    { by apply (filter_nil_elem is_update) in Hin. }
    apply elem_of_cons in Hin as [[= -> ->] | Hin]; [eauto |].
    rewrite Forall_forall in Hpost. destruct (Hpost _ Hin).
Qed.

(** *** The workflow graph *)

(** C1: the graph [main] builds and pushes is a chain of the 'Create
    Experiment' Lambda step and a parallel state with exactly two branches, the
    'Baseline Job' processing step and the chain of 'Training Job', 'Save
    Model', 'Query Training Results' and the 'RMSE < 10' choice. This holds
    for whatever the builders return, for every update [main] calls, and a
    run that returns has called the update with such a graph. *)
Theorem main_graph_shape a w r w' :
  run_main a w = (r, w') ->
  (forall arn g, EvUpdate arn g ∈ new_events w w' -> workflow_shape g = true)
  /\ (r = Ok tt ->
      exists g, EvUpdate (workflow_pipeline_arn a) g ∈ new_events w w'
                /\ workflow_shape g = true)
  /\ (forall function_name input_data execution_input region role image_uri
        hyperparameters output_data query_name b t,
        create_baseline_step image_uris_retrieve input_data execution_input region role
          = Ok b ->
        create_training_step image_uri hyperparameters input_data output_data
          execution_input query_name region role = Ok t ->
        workflow_shape (create_graph (create_experiment_step function_name) b t) = true).
Proof.
  intros Hrun. split; [| split].
  - intros arn g Hin.
    destruct (main_update_graph _ _ _ _ _ _ Hrun Hin) as (L & HL & _ & ->).
    by eapply loads_shape.
  - intros ->. apply main_Ok in Hrun as (L & Hloads & _ & _ & Hev & _).
    exists (ld_graph a L). split.
    + rewrite Hev. apply elem_of_app. right. left.
    + by eapply loads_shape.
  - intros; eapply create_graph_shape; eauto.
Qed.

(** *** The artifacts *)

(** C3: a run of [main] that returns has written exactly four files, all in
    [output_dir]: workflow-graph.json with the serialized definition that was
    pushed, workflow-input.json with the execution inputs, deploy-model-dev.json
    and template-model-prd.json with the dev and prod parameters. It has
    created [output_dir] before, if it did not exist, and no other file has
    changed. *)
Theorem main_writes_four_artifacts a w w' :
  run_main a w = (Ok tt, w') ->
  exists image_uri job_id git_commit_id data_verison_id graph pre,
    let l := run_artifacts a image_uri job_id git_commit_id data_verison_id graph in
    new_events w w' = pre ++ mkdir_trace a w ++ write_events l
    /\ List.filter is_write pre = []
    /\ List.filter is_mkdir pre = []
    /\ List.filter is_update pre = [EvUpdate (workflow_pipeline_arn a) graph]
    /\ files w' = write_all l (files w)
    /\ (forall path, path ∉ l.*1 -> files w' !! path = files w !! path)
    /\ dirs w' = (if path_exists w (output_dir a) then dirs w
                  else {[output_dir a]} ∪ dirs w).
Proof.
  intros (L & Hloads & _ & _ & Hev & Hfiles & Hdirs & _)%main_Ok.
  exists (ld_image_uri L), (ld_job_id L), (ld_git_commit_id L), (ld_data_version_id L),
    (ld_graph a L),
    (front_trace a w ++ [EvUpdate (workflow_pipeline_arn a) (ld_graph a L)]
     ++ [EvExists (output_dir a)]).
  cbv zeta. destruct (front_trace_kinds a w) as (Hw & Hm & Hu & _).
  split; [| split; [| split; [| split; [| split; [exact Hfiles | split; [| exact Hdirs]]]]]].
  - rewrite Hev. unfold output_trace. rewrite <- !app_assoc. reflexivity.
  - rewrite List.filter_app, Hw. reflexivity.
  - rewrite List.filter_app, Hm. reflexivity.
  - rewrite List.filter_app, Hu. reflexivity.
  - intros path Hpath. rewrite Hfiles. by apply write_all_other.
Qed.

(** The events before the call of [Workflow.attach]. *)
Lemma front_trace_split a w :
  exists pre,
    front_trace a w = pre ++ [EvAttach (workflow_pipeline_arn a)]
    /\ List.filter is_attach pre = [] /\ List.filter is_update pre = []
    /\ List.filter is_write pre = [] /\ List.filter is_mkdir pre = [].
Proof.
  exists (image_trace a
          ++ [EvOpenRead (os_path_join (data_dir a) "inputData.json");
              EvGetPipelineState (pipeline_name a);
              EvExists (os_path_join (data_dir a) "hyperparameters.json")]
          ++ hyperparameters_trace a w).
  split.
  - unfold front_trace. rewrite <- !app_assoc. reflexivity.
  - unfold image_trace, hyperparameters_trace.
    destruct (truthy (ecr_dir a)), (path_exists w _); repeat split; reflexivity.
Qed.

(** C4: [main] attaches to the workflow named by [workflow_pipeline_arn] and
    calls update with the graph it has built, once; whatever file or
    directory a run writes or creates, it does so after that update. *)
Theorem main_pushes_graph_before_writing a w r w' :
  run_main a w = (r, w') ->
  (forall pre e post,
     new_events w w' = pre ++ e :: post ->
     is_write e || is_mkdir e = true ->
     exists g,
       List.filter is_attach pre = [EvAttach (workflow_pipeline_arn a)]
       /\ List.filter is_update pre = [EvUpdate (workflow_pipeline_arn a) g])
  /\ (r = Ok tt ->
      exists L pre post,
        run_loads a w L
        /\ new_events w w'
           = pre ++ [EvAttach (workflow_pipeline_arn a);
                     EvUpdate (workflow_pipeline_arn a) (ld_graph a L)] ++ post
        /\ List.filter is_attach pre = [] /\ List.filter is_update pre = []
        /\ List.filter is_write pre = [] /\ List.filter is_mkdir pre = []
        /\ List.filter is_attach post = [] /\ List.filter is_update post = []
        /\ state_machines w' !! workflow_pipeline_arn a = Some (ld_graph a L)).
Proof.
  intros Hrun. split.
  - intros pre e post Hsplit He.
    destruct (front_trace_kinds a w) as (Hw & Hm & Hu & Ha & _).
    assert (forall e', e' ∈ front_trace a w -> is_write e' || is_mkdir e' = false) as Hfront.
    { intros e' Hin. rewrite (filter_nil_elem is_write _ _ Hw Hin).
      by rewrite (filter_nil_elem is_mkdir _ _ Hm Hin). }
    apply main_events in Hrun
      as [(x & _ & _ & _ & _ & Hpre & _) | (L & post' & _ & Hev & Hpost)].
    + destruct Hpre as [k Hk]. rewrite Hsplit in Hk.
      assert (e ∈ front_trace a w) as Hin.
      { rewrite Hk, <- app_assoc. apply elem_of_app. right. left. }
      apply Hfront in Hin. congruence.
    + rewrite Hsplit in Hev. exists (ld_graph a L). set (g := ld_graph a L) in *.
      rewrite (app_assoc _ [_] post') in Hev.
      apply List.app_eq_app in Hev as [k [[Hk1 Hk2] | [Hk1 Hk2]]].
      * subst pre post'. apply Forall_app in Hpost as [Hk _].
        rewrite !List.filter_app, Ha, Hu.
        rewrite (filter_output_events is_attach k), (filter_output_events is_update k);
          try done; by intros [].
      * destruct k as [| e' k].
        { rewrite app_nil_r in Hk1. rewrite <- Hk1.
          rewrite !List.filter_app, Ha, Hu. done. }
        injection Hk2 as <- Hk2.
        assert (e ∈ front_trace a w ++ [EvUpdate (workflow_pipeline_arn a) g]) as Hin.
        { rewrite Hk1. apply elem_of_app. right. left. }
        apply elem_of_app in Hin as [Hin | Hin].
        { apply Hfront in Hin. congruence. }
        apply list_elem_of_singleton in Hin. subst e. discriminate.
  - intros ->. apply main_Ok in Hrun as (L & Hloads & _ & _ & Hev & _ & _ & Hsm).
    destruct (front_trace_split a w) as (pre & Hfront & Ha & Hu & Hw & Hm).
    destruct (output_trace_kinds a w
                (run_artifacts a (ld_image_uri L) (ld_job_id L) (ld_git_commit_id L)
                   (ld_data_version_id L) (ld_graph a L))) as (_ & _ & Hou & Hoa & _).
    exists L, pre, (output_trace a w
                      (run_artifacts a (ld_image_uri L) (ld_job_id L) (ld_git_commit_id L)
                         (ld_data_version_id L) (ld_graph a L))).
    split; [exact Hloads |]. split.
    { rewrite Hev, Hfront, <- !app_assoc. reflexivity. }
    repeat (split; [assumption |]).
    rewrite Hsm. apply lookup_insert_eq.
Qed.

(** *** Failures *)

Lemma action_revisions_names actions pairs :
  action_revisions actions = Ok pairs -> pairs.*1 = actionName <$> actions.
Proof.
  revert pairs. induction actions as [| r actions IH]; intros pairs H.
  - injection H as <-. reflexivity.
  - cbn [action_revisions] in H. rstep H. rstep H. injection H as <-.
    cbn. f_equal. by apply IH.
Qed.

Lemma revision_loaded_names a w job_id git_commit_id data_verison_id response stage k :
  revision_loaded a w job_id git_commit_id data_verison_id ->
  pipelines w !! pipeline_name a = Some response ->
  stageStates response !! 0 = Some stage ->
  k ∈ ["GitSource"; "DataSource"] ->
  k ∈ actionName <$> actionStates stage.
Proof.
  intros (_ & response' & stage' & pairs & Hresponse & Hstage & Hpairs & _ & Hgit & Hdata).
  intros Hr Hs Hk. rewrite Hr in Hresponse. injection Hresponse as <-.
  rewrite Hs in Hstage. injection Hstage as <-.
  rewrite <- (action_revisions_names _ _ Hpairs).
  rewrite lookup_insert_ne in Hgit by done. rewrite lookup_insert_ne in Hdata by done.
  destruct (decide (k ∈ pairs.*1)) as [| Hn]; [done |].
  apply dict_of_pairs_None in Hn.
  apply elem_of_cons in Hk as [-> | Hk]; [congruence |].
  apply list_elem_of_singleton in Hk as ->. congruence.
Qed.

(** C10: when inputData.json is missing or lacks one of its keys, when the
    first stage of the pipeline has no GitSource or no DataSource action, or
    when the update of the workflow raises, [main] raises, the files and
    directories are what they were, and no file was written and no directory
    created. *)
Theorem main_early_failure_writes_nothing a w r w' :
  run_main a w = (r, w') ->
  early_failure json_loads a w r ->
  (exists e, r = Raise e)
  /\ files w' = files w
  /\ dirs w' = dirs w
  /\ List.filter is_write (new_events w w') = []
  /\ List.filter is_mkdir (new_events w w') = [].
Proof.
  intros [Hfail | (L & Hloads & _ & _ & Hout)]%main_run Hearly.
  - destruct Hfail as (e & evs & -> & -> & Hevs & _). world_fields.
    split; [eauto |]. split; [done |]. split; [done |].
    erewrite new_events_app by reflexivity.
    destruct (front_trace_kinds a w) as (Hw & Hm & _).
    destruct Hevs as [Hpre | (L & _ & -> & _)].
    + split; apply prefix_nil_inv.
      * rewrite <- Hw. by apply filter_prefix.
      * rewrite <- Hm. by apply filter_prefix.
    + rewrite !List.filter_app, Hw, Hm. done.
  - exfalso.
    destruct Hloads as (_ & Hinput & Hrevision & _).
    destruct Hinput as (text & Hfile & Hd & Ht & Hv & Hb).
    destruct Hearly as [Hnone | [(text' & d & k & Hfile' & Hd' & Hk & Hno)
                         | [(response & stage & k & Hr & Hs & Hk & Hno) | ->]]].
    + congruence.
    + rewrite Hfile in Hfile'. injection Hfile' as <-.
      rewrite Hd in Hd'. injection Hd' as <-.
      apply Hno.
      repeat (apply elem_of_cons in Hk as [-> | Hk]; [assumption |]).
      by apply elem_of_nil in Hk.
    + apply Hno. eapply revision_loaded_names; eauto.
    + apply write_outputs_run in Hout. cbv zeta in Hout. by destruct Hout as [Herr _].
Qed.

(** *** The execution inputs *)

Lemma string_app_inj (d x y : string) : d +:+ x = d +:+ y -> x = y.
Proof. induction d as [| c d IH]; cbn; [done |]. intros [= H]. by apply IH. Qed.

(** Two names that are no absolute paths give two files of a directory. *)
Lemma os_path_join_inj d n1 n2 :
  String.prefix "/" n1 = false -> String.prefix "/" n2 = false ->
  os_path_join d n1 = os_path_join d n2 -> n1 = n2.
Proof.
  unfold os_path_join. intros -> ->.
  destruct (bool_decide (d = "") || ends_with_sep d); intros H.
  - by apply string_app_inj in H.
  - apply string_app_inj in H. by injection H.
Qed.

Lemma get_pipeline_revision_run name w response stage pairs execution_id :
  is_Some (region_name w) ->
  pipelines w !! name = Some response ->
  stageStates response !! 0 = Some stage ->
  action_revisions (actionStates stage) = Ok pairs ->
  latestExecution stage = Some execution_id ->
  get_pipeline_revision name w
  = (Ok (<["JobId" := execution_id]> (dict_of_pairs pairs)),
     record (EvGetPipelineState name) w).
Proof.
  intros [region Hregion] Hr Hs Hp He.
  unfold get_pipeline_revision, bind, boto3_client, codepipeline_get_pipeline_state,
    lift, ret, list_getitem.
  rewrite Hregion. cbn [pipelines record with_log]. rewrite Hr. cbn [of_option].
  rewrite Hs. cbn [of_option]. rewrite Hp, He. reflexivity.
Qed.

(** C9: in the workflow-input.json that a run of [main] leaves behind,
    TrialName, BaselineJobName and TrainingJobName are all
    'mlops-<model_name>-<job_id>', ExperimentName is 'mlops-<model_name>' and
    BaselineOutputUri is
    's3://<sagemaker_bucket>/<model_name>/monitoring/baseline/mlops-<model_name>-pbl-<job_id>',
    where job_id is the JobId of [get_pipeline_revision], the execution id of
    the first stage of the pipeline. *)
Theorem workflow_input_names a w w' :
  run_main a w = (Ok tt, w') ->
  exists job_id response stage revision w1 inputs,
    pipelines w !! pipeline_name a = Some response
    /\ stageStates response !! 0 = Some stage
    /\ latestExecution stage = Some job_id
    /\ get_pipeline_revision (pipeline_name a) w = (Ok revision, w1)
    /\ revision !! "JobId" = Some job_id
    /\ files w' !! os_path_join (output_dir a) "workflow-input.json"
       = Some (json_dumps (JObj inputs))
    /\ inputs !! "TrialName" = Some (JStr ("mlops-" +:+ model_name a +:+ "-" +:+ job_id))
    /\ inputs !! "BaselineJobName"
       = Some (JStr ("mlops-" +:+ model_name a +:+ "-" +:+ job_id))
    /\ inputs !! "TrainingJobName"
       = Some (JStr ("mlops-" +:+ model_name a +:+ "-" +:+ job_id))
    /\ inputs !! "ExperimentName" = Some (JStr ("mlops-" +:+ model_name a))
    /\ inputs !! "BaselineOutputUri"
       = Some (JStr ("s3://" +:+ sagemaker_bucket a +:+ "/" +:+ model_name a
                     +:+ "/monitoring/baseline/mlops-" +:+ model_name a
                     +:+ "-pbl-" +:+ job_id)).
Proof.
  intros (L & Hloads & _ & _ & _ & Hfiles & _)%main_Ok.
  destruct Hloads as (_ & _ & Hrevision & _).
  destruct Hrevision as (Hregion & response & stage & pairs & Hr & Hs & Hp & He & _).
  exists (ld_job_id L), response, stage. do 2 eexists.
  exists (main_workflow_inputs a (ld_job_id L) (ld_git_commit_id L) (ld_data_version_id L)).
  split; [exact Hr |]. split; [exact Hs |]. split; [exact He |].
  split; [by eapply get_pipeline_revision_run |].
  split; [apply lookup_insert_eq |].
  split.
  { rewrite Hfiles. unfold write_all, artifacts. cbn [foldl fst snd].
    rewrite lookup_insert_ne by (intros [=]%os_path_join_inj; done).
    rewrite lookup_insert_ne by (intros [=]%os_path_join_inj; done).
    apply lookup_insert_eq. }
  unfold main_workflow_inputs. cbv zeta.
  repeat split; by simplify_map_eq.
Qed.

(** *** The configuration files *)

Lemma image_trace_reads a : List.filter is_read (image_trace a) = image_trace a.
Proof. unfold image_trace. by destruct (truthy (ecr_dir a)). Qed.

Lemma py_getitem_Ok d k v :
  py_getitem d k = Ok v <-> exists m, d = JObj m /\ m !! k = Some v.
Proof.
  split.
  - destruct d as [| | | | | m]; try discriminate. cbn.
    destruct (m !! k) eqn:E; [| discriminate]. intros [= <-]. eauto.
  - intros (m & -> & Hk). cbn. by rewrite Hk.
Qed.

Lemma image_trace_dir a :
  image_trace a
  = match image_dir a with
    | Some d => [EvOpenRead (os_path_join d "imageDetail.json")]
    | None => []
    end.
Proof.
  unfold image_trace, image_dir, truthy.
  destruct (ecr_dir a) as [d |]; [| done]. by case_bool_decide.
Qed.

Lemma image_loaded_dir a w image_uri :
  image_loaded json_loads image_uris_retrieve a w image_uri <->
  match image_dir a with
  | Some d =>
      exists text (detail : gmap string json),
        files w !! os_path_join d "imageDetail.json" = Some text
        /\ json_loads text = Some (JObj detail)
        /\ detail !! "ImageURI" = Some image_uri
  | None =>
      exists uri,
        image_uris_retrieve (region_name w) "xgboost" "latest" = Some uri
        /\ image_uri = JStr uri
  end.
Proof.
  unfold image_loaded, image_dir, truthy.
  destruct (ecr_dir a) as [d |]; [| done]. case_bool_decide; [done |].
  cbn [negb default]. split.
  - intros (text & dd & Hf & Hd & (detail & -> & Hk)%py_getitem_Ok). eauto.
  - intros (text & detail & Hf & Hd & Hk). exists text, (JObj detail).
    split; [done |]. split; [done |]. apply py_getitem_Ok. eauto.
Qed.

Lemma image_available_loaded a w :
  image_available json_loads image_uris_retrieve a w <->
  exists image_uri, image_loaded json_loads image_uris_retrieve a w image_uri.
Proof.
  unfold image_available. split.
  - intros H. destruct (image_dir a) as [d |] eqn:Hd.
    + destruct H as (text & detail & Hf & Hj & [image_uri Hk]).
      exists image_uri. apply image_loaded_dir. rewrite Hd. eauto.
    + destruct H as [uri Hu]. exists (JStr uri). apply image_loaded_dir. rewrite Hd. eauto.
  - intros [image_uri H%image_loaded_dir]. destruct (image_dir a) as [d |].
    + destruct H as (text & detail & Hf & Hj & Hk). eauto 6.
    + destruct H as (uri & Hu & _). eauto.
Qed.

(** A run in which the image cannot be determined raises where the image
    is asked for. *)
Lemma main_image_failure a w r w' :
  run_main a w = (r, w') ->
  ~ image_available json_loads image_uris_retrieve a w ->
  (exists e, r = Raise e) /\ new_events w w' = image_trace a.
Proof.
  intros H Hno. unfold main in H.
  step H; apply boto3_region_name_inv in E as [[= ->] ->].
  step H; apply image_phase_inv in E as [-> Himage].
  - destruct Hno. apply image_available_loaded. eauto.
  - subst r. split; [eauto |]. by apply new_events_app.
Qed.

(** C5: the files [main] opens for reading are, in this order,
    imageDetail.json in [ecr_dir] exactly when [ecr_dir] is given and not
    empty, inputData.json in [data_dir], and hyperparameters.json in
    [data_dir] exactly when it exists; no run reads anything else.
    inputData.json is opened in every run in which the training image can be
    determined; the other runs raise without opening it. A run that pushes a
    graph, as every run that returns does, has read all of these, has found
    TrainingUri, ValidationUri and BaselineUri in the object of
    inputData.json, trains with the ImageURI of the object of
    imageDetail.json when [ecr_dir] is given and not empty and with the
    managed xgboost image of the region otherwise, and trains with the
    built-in hyperparameters alone when hyperparameters.json does not
    exist. *)
Theorem main_reads_configuration a w r w' :
  run_main a w = (r, w') ->
  let input_file := os_path_join (data_dir a) "inputData.json" in
  let hyper_file := os_path_join (data_dir a) "hyperparameters.json" in
  let all_reads :=
    match image_dir a with
    | Some d => [EvOpenRead (os_path_join d "imageDetail.json")]
    | None => []
    end
    ++ [EvOpenRead input_file]
    ++ (if path_exists w hyper_file then [EvOpenRead hyper_file] else []) in
  List.filter is_read (new_events w w') `prefix_of` all_reads
  /\ (image_available json_loads image_uris_retrieve a w ->
      EvOpenRead input_file ∈ List.filter is_read (new_events w w'))
  /\ (~ image_available json_loads image_uris_retrieve a w ->
      (exists e, r = Raise e) /\ EvOpenRead input_file ∉ new_events w w')
  /\ (r = Ok tt -> exists g, EvUpdate (workflow_pipeline_arn a) g ∈ new_events w w')
  /\ (forall arn g,
        EvUpdate arn g ∈ new_events w w' ->
        List.filter is_read (new_events w w') = all_reads
        /\ exists text (input : gmap string json) e,
             files w !! input_file = Some text
             /\ json_loads text = Some (JObj input)
             /\ is_Some (input !! "TrainingUri")
             /\ is_Some (input !! "ValidationUri")
             /\ is_Some (input !! "BaselineUri")
             /\ graph_estimator g = Some e
             /\ match image_dir a with
                | Some d =>
                    exists image_text (detail : gmap string json),
                      files w !! os_path_join d "imageDetail.json" = Some image_text
                      /\ json_loads image_text = Some (JObj detail)
                      /\ detail !! "ImageURI" = Some (est_image_uri e)
                | None =>
                    exists uri,
                      image_uris_retrieve (region_name w) "xgboost" "latest" = Some uri
                      /\ est_image_uri e = JStr uri
                end
             /\ (path_exists w hyper_file = false -> est_hyperparameters e = hp)).
Proof.
  intros Hrun. cbv zeta. rewrite <- image_trace_dir.
  fold (hyperparameters_trace a w).
  destruct (front_trace_kinds a w) as (_ & _ & _ & _ & Hreads).
  split; [| split; [| split; [| split]]].
  - apply main_events in Hrun as [(e & _ & _ & _ & _ & Hpre & _) | (L & post & _ & Hev & Hpost)].
    + rewrite <- Hreads. by apply filter_prefix.
    + rewrite Hev, !List.filter_app, Hreads.
      rewrite (filter_output_events is_read post) by (try done; by intros []).
      cbn. by rewrite app_nil_r.
  - intros Himage%image_available_loaded.
    assert ((image_trace a ++ [EvOpenRead (os_path_join (data_dir a) "inputData.json")])
              `prefix_of` List.filter is_read (new_events w w')) as [k ->].
    { apply main_events in Hrun
        as [(e & _ & _ & _ & _ & _ & Hpre) | (L & post & _ & Hev & Hpost)].
      - apply (filter_prefix is_read) in Hpre; [| done].
        by rewrite List.filter_app, image_trace_reads in Hpre.
      - rewrite Hev, !List.filter_app, Hreads. rewrite <- !app_assoc, app_assoc.
        by apply prefix_app_r. }
    apply elem_of_app. left. apply elem_of_app. right. left.
  - intros Hno. destruct (main_image_failure _ _ _ _ Hrun Hno) as [Hraise Hev].
    split; [exact Hraise |]. rewrite Hev, image_trace_dir.
    destruct (image_dir a) as [d |]; [| apply not_elem_of_nil].
    intros [= Heq]%list_elem_of_singleton. revert Heq.
    by apply os_path_join_names.
  - intros ->. apply main_Ok in Hrun as (L & _ & _ & _ & Hev & _).
    exists (ld_graph a L). rewrite Hev. apply elem_of_app. right. left.
  - intros arn g Hin.
    destruct (main_update_graph _ _ _ _ _ _ Hrun Hin) as (L & HL & -> & ->).
    split.
    + apply main_events in Hrun
        as [(e & _ & _ & _ & _ & Hpre & _) | (L' & post & _ & Hev & Hpost)].
      * destruct Hpre as [k Hk].
        destruct (front_trace_kinds a w) as (_ & _ & Hupdate & _).
        assert (EvUpdate (workflow_pipeline_arn a) (ld_graph a L) ∈ front_trace a w)
          as Hin' by (rewrite Hk; apply elem_of_app; by left).
        by apply (filter_nil_elem is_update _ _ Hupdate) in Hin'.
      * rewrite Hev, !List.filter_app, Hreads.
        rewrite (filter_output_events is_read post) by (try done; by intros []).
        cbn. by rewrite app_nil_r.
    + destruct (loads_estimator _ _ _ HL) as (_ & e & He & Himage & Hhyper).
      destruct HL as (Hi & Hd & _ & Hh & _).
      destruct Hd as (text & Hfile & Hinput & [tu Htu] & [vu Hvu] & [bu Hbu]).
      apply py_getitem_Ok in Htu as (input & Hobj & Htu).
      apply py_getitem_Ok in Hvu as (? & Hobj' & Hvu).
      apply py_getitem_Ok in Hbu as (? & Hobj'' & Hbu).
      rewrite Hobj in Hobj', Hobj''. injection Hobj' as <-. injection Hobj'' as <-.
      rewrite Hobj in Hinput.
      exists text, input, e. split; [exact Hfile |]. split; [exact Hinput |].
      split; [eauto |]. split; [eauto |]. split; [eauto |]. split; [exact He |].
      split.
      * rewrite Himage. by apply image_loaded_dir.
      * intros Hnone. unfold hyperparameters_loaded in Hh. rewrite Hnone in Hh.
        rewrite Hhyper, Hh. unfold dict_update.
        by rewrite (left_id_L ∅ (∪)), (right_id_L ∅ (∪)).
Qed.

Lemma stringify_Ok d hyperparameters :
  stringify py_str d = Ok hyperparameters <->
  exists m, d = JObj m /\ hyperparameters = py_str <$> m.
Proof.
  split.
  - destruct d; try discriminate. intros [= <-]. eauto.
  - intros (m & -> & ->). reflexivity.
Qed.

(** C6: the estimator of the graph [main] pushes has, for every
    key of hyperparameters.json, [str] of the value in the file, and for every
    other key the built-in default (max_depth '9', eta '0.2', gamma '4',
    min_child_weight '300', subsample '0.8', objective 'reg:linear',
    early_stopping_rounds '10', num_round '100'); without the file it has the
    defaults. No key of the file is called self: with such a key
    [create_training_step] raises and [main] pushes no graph. *)
Theorem hyperparameters_passed_through a w r w' arn g :
  run_main a w = (r, w') ->
  EvUpdate arn g ∈ new_events w w' ->
  exists (file : gmap string json) e,
    (if path_exists w (os_path_join (data_dir a) "hyperparameters.json")
     then exists text,
            files w !! os_path_join (data_dir a) "hyperparameters.json" = Some text
            /\ json_loads text = Some (JObj file)
     else file = ∅)
    /\ file !! "self" = None
    /\ graph_estimator g = Some e
    /\ (forall k, est_hyperparameters e !! k
                  = match file !! k with
                    | Some v => Some (py_str v)
                    | None => hp !! k
                    end)
    /\ hp = list_to_map
              [("max_depth", "9"); ("eta", "0.2"); ("gamma", "4");
               ("min_child_weight", "300"); ("subsample", "0.8");
               ("objective", "reg:linear"); ("early_stopping_rounds", "10");
               ("num_round", "100")].
Proof.
  intros Hrun Hin.
  destruct (main_update_graph _ _ _ _ _ _ Hrun Hin) as (L & HL & _ & ->).
  destruct (loads_estimator _ _ _ HL) as (_ & e & He & _ & Hhyper).
  destruct (loads_checks _ _ _ HL) as (_ & _ & Hself & _).
  destruct HL as (_ & _ & _ & Hh & _). unfold hyperparameters_loaded in Hh.
  assert (exists file : gmap string json,
            (if path_exists w (os_path_join (data_dir a) "hyperparameters.json")
             then exists text,
                 files w !! os_path_join (data_dir a) "hyperparameters.json" = Some text
                 /\ json_loads text = Some (JObj file)
             else file = ∅)
            /\ ld_hyperparameters L = py_str <$> file) as (file & Hfile & Hl).
  { destruct (path_exists w _).
    - destruct Hh as (text & d & Hf & Hd & (m & -> & ->)%stringify_Ok). eauto.
    - exists ∅. by rewrite fmap_empty. }
  exists file, e. split; [exact Hfile |]. split.
  { rewrite Hl, lookup_fmap in Hself. by destruct (file !! "self"). }
  split; [exact He |]. split; [| reflexivity].
  intros k. rewrite Hhyper, !dict_update_lookup, Hl, lookup_fmap, lookup_empty.
  destruct (file !! k); cbn; [done |]. by destruct (hp !! k).
Qed.

(** *** What the graph depends on *)

(** Of [output_data] the training chain uses the model output only. *)
Lemma create_training_step_output_data image_uri hyperparameters input_data
    (output_data output_data' : gmap string string) execution_input query_name region role :
  output_data !! "ModelOutputUri" = output_data' !! "ModelOutputUri" ->
  create_training_step image_uri hyperparameters input_data output_data execution_input
    query_name region role
  = create_training_step image_uri hyperparameters input_data output_data' execution_input
      query_name region role.
Proof. unfold create_training_step, dict_getitem. by intros ->. Qed.

(** Two worlds with the same region, files and directories load the same
    graph, whatever the pipeline and the state machines are. *)
Lemma loads_graph_functional a w1 w2 L1 L2 :
  region_name w1 = region_name w2 -> files w1 = files w2 -> dirs w1 = dirs w2 ->
  run_loads a w1 L1 -> run_loads a w2 L2 ->
  ld_graph a L1 = ld_graph a L2.
Proof.
  intros Hregion Hfiles Hdirs (Hi1 & Hd1 & _ & Hh1 & Hb1 & Ht1) (Hi2 & Hd2 & _ & Hh2 & Hb2 & Ht2).
  assert (ld_image_uri L1 = ld_image_uri L2) as Himage.
  { unfold image_loaded in Hi1, Hi2. rewrite Hfiles, Hregion in Hi1.
    destruct (truthy (ecr_dir a)).
    - destruct Hi1 as (text & d & Hf & Hd & Hk), Hi2 as (text' & d' & Hf' & Hd' & Hk').
      congruence.
    - destruct Hi1 as (uri & Hu & ->), Hi2 as (uri' & Hu' & ->). congruence. }
  assert (ld_input_data L1 = ld_input_data L2) as Hinput.
  { destruct Hd1 as (text & Hf & Hd & _), Hd2 as (text' & Hf' & Hd' & _).
    rewrite Hfiles in Hf. congruence. }
  assert (ld_hyperparameters L1 = ld_hyperparameters L2) as Hhyper.
  { unfold hyperparameters_loaded, path_exists in Hh1, Hh2.
    rewrite Hfiles, Hdirs in Hh1.
    destruct (negb _ && _).
    - destruct Hh1 as (text & d & Hf & Hd & Hs), Hh2 as (text' & d' & Hf' & Hd' & Hs').
      congruence.
    - congruence. }
  unfold ld_graph. f_equal.
  - rewrite Hregion, Hinput in Hb1. congruence.
  - rewrite Hregion, Hinput, Himage, Hhyper in Ht1.
    rewrite (create_training_step_output_data _ _ _ _ (main_output_data a (ld_job_id L2)))
      in Ht1; [congruence |].
    unfold main_output_data. by rewrite !lookup_insert_eq.
Qed.

(** C7: the graph is a function of the configuration. The builders return
    equal graphs on equal arguments; two runs of [main] with the same arguments
    in worlds with the same region, files and directories push the same graph,
    whatever the pipeline, the state machines and the service answer; and
    the graph has no retrier in any state. *)
Theorem graph_depends_on_configuration_only a w1 w2 r1 r2 w1' w2' arn1 arn2 g1 g2 :
  region_name w1 = region_name w2 -> files w1 = files w2 -> dirs w1 = dirs w2 ->
  run_main a w1 = (r1, w1') -> run_main a w2 = (r2, w2') ->
  EvUpdate arn1 g1 ∈ new_events w1 w1' ->
  EvUpdate arn2 g2 ∈ new_events w2 w2' ->
  g1 = g2
  /\ retry_free g1 = true
  /\ (forall n n', n = n' -> create_experiment_step n = create_experiment_step n')
  /\ (forall d d' x x' region region' role role',
        d = d' -> x = x' -> region = region' -> role = role' ->
        create_baseline_step image_uris_retrieve d x region role
        = create_baseline_step image_uris_retrieve d' x' region' role')
  /\ (forall i i' h h' d d' o o' x x' q q' region region' role role',
        i = i' -> h = h' -> d = d' -> o = o' -> x = x' -> q = q' ->
        region = region' -> role = role' ->
        create_training_step i h d o x q region role
        = create_training_step i' h' d' o' x' q' region' role')
  /\ (forall e e' b b' t t',
        e = e' -> b = b' -> t = t' -> create_graph e b t = create_graph e' b' t').
Proof.
  intros Hregion Hfiles Hdirs Hrun1 Hrun2 Hin1 Hin2.
  destruct (main_update_graph _ _ _ _ _ _ Hrun1 Hin1) as (L1 & HL1 & _ & ->).
  destruct (main_update_graph _ _ _ _ _ _ Hrun2 Hin2) as (L2 & HL2 & _ & ->).
  split; [by eapply loads_graph_functional |].
  split; [by destruct (loads_estimator _ _ _ HL1) |].
  repeat split; intros; congruence.
Qed.

End Properties.

(** *** The accuracy gate *)

(** C2: the choice at the end of the training chain goes to the
    Succeed state 'Model Error Acceptable' exactly when the Value of the first
    entry of TrainingMetrics in the payload of the query results is a number
    less than 10, and to the Fail state 'Model Error Too Low' for every other
    Value that is there. When there is no such Value in the input of the
    state (the results have no TrainingMetrics, or an empty list) the choice
    gives no next state: the execution stops with an error of the service.
    The 10 is the same for all arguments of [create_training_step]. *)
Theorem accuracy_gate image_uri hyperparameters input_data output_data execution_input
    query_training_function_name region role t :
  create_training_step image_uri hyperparameters input_data output_data execution_input
    query_training_function_name region role = Ok t ->
  exists check,
    accuracy_check t = Some check
    /\ state_name check = Some "RMSE < 10"
    /\ forall input,
         (forall metric,
            json_path metric_path input = Some metric ->
            (choice_next check input = Some (Succeed "Model Error Acceptable")
             <-> exists x, metric = JNum x /\ (x < 10)%Q)
            /\ (~ (exists x, metric = JNum x /\ (x < 10)%Q) ->
                choice_next check input
                = Some (Fail "Model Error Too Low"
                          (Some "RMSE accuracy higher than threshold") None)))
         /\ (json_path metric_path input = None -> choice_next check input = None).
Proof.
  intros (? & ? & ? & ? & ? & ? & ? & ? & ? & ? & ? & -> & _)%create_training_step_Ok.
  eexists. split; [reflexivity |]. split; [reflexivity |].
  intros input. split.
  - intros metric Hmetric.
    cbn [choice_next first_choice rule_holds]. rewrite Hmetric.
    destruct metric as [| b | v | s | l | m];
      try (split; [split; [done | by intros (? & [=] & _)] | done]).
    destruct (Qlt_bool v 10) eqn:Hlt.
    + apply Qlt_bool_iff in Hlt. split; [split; eauto |].
      intros Hno. exfalso. eauto.
    + assert (~ (v < 10)%Q) as Hge.
      { intros Hv%Qlt_bool_iff. congruence. }
      split; [| done]. split; [done |]. intros (? & [= <-] & ?). done.
  - intros Hnone. cbn [choice_next first_choice rule_holds]. by rewrite Hnone.
Qed.

(** *** The parameter files *)

(** C8: the Parameters of [get_prd_params] have every key of the Parameters
    of [get_dev_params] with the same value, except VariantName, which is
    'prd-<model_name>' where the dev one is 'dev-<model_name>', and two more
    keys, ScheduleMetricName with 'feature_baseline_drift_total_amount' and
    ScheduleMetricThreshold with the string '0.20'. *)
Theorem prd_params_extend_dev_params model_name job_id role image_uri kms_key_id :
  let dev := Parameters (get_dev_params model_name job_id role image_uri kms_key_id) in
  let prd := Parameters (get_prd_params model_name job_id role image_uri kms_key_id) in
  (forall k, k ∈ dom dev -> k <> "VariantName" -> prd !! k = dev !! k)
  /\ dev !! "VariantName" = Some (JStr ("dev-" +:+ model_name))
  /\ prd !! "VariantName" = Some (JStr ("prd-" +:+ model_name))
  /\ dom prd = dom dev ∪ {["ScheduleMetricName"; "ScheduleMetricThreshold"]}
  /\ ("ScheduleMetricName" ∉ dom dev)
  /\ ("ScheduleMetricThreshold" ∉ dom dev)
  /\ prd !! "ScheduleMetricName" = Some (JStr "feature_baseline_drift_total_amount")
  /\ prd !! "ScheduleMetricThreshold" = Some (JStr "0.20").
Proof.
  cbv zeta. unfold get_prd_params, get_dev_params. cbn [Parameters].
  split; [| split; [| split; [| split; [| split; [| split; [| split]]]]]].
  - intros k Hk Hne. rewrite dict_update_lookup.
    rewrite !dom_insert_L, dom_empty_L in Hk.
    rewrite lookup_insert_ne by done.
    assert (k <> "ScheduleMetricName" /\ k <> "ScheduleMetricThreshold") as [H1 H2].
    { split; intros ->; set_solver. }
    by rewrite !lookup_insert_ne, lookup_empty by done.
  - rewrite !lookup_insert_ne by done. apply lookup_insert_eq.
  - rewrite dict_update_lookup. by rewrite lookup_insert_eq.
  - unfold dict_update. rewrite dom_union_L, !dom_insert_L, !dom_empty_L. set_solver.
  - apply not_elem_of_dom. by rewrite !lookup_insert_ne by done.
  - apply not_elem_of_dom. by rewrite !lookup_insert_ne by done.
  - rewrite dict_update_lookup, lookup_insert_ne by done. by rewrite lookup_insert_eq.
  - rewrite dict_update_lookup, !lookup_insert_ne by done. by rewrite lookup_insert_eq.
Qed.

(** *** The properties on the sample run *)

Lemma sample_run : Sample.run Sample.args Sample.world = (Ok tt, Sample.final).
Proof. vm_compute. reflexivity. Qed.

Lemma sample_other_run :
  Sample.run Sample.args Sample.other_world
  = (Raise (ClientError "UpdateStateMachine"), Sample.other_final).
Proof. vm_compute. reflexivity. Qed.

Lemma sample_failed_run :
  Sample.run Sample.args Sample.world_without_input
  = (Raise (FileNotFoundError "data/inputData.json"), Sample.failed).
Proof. vm_compute. reflexivity. Qed.

Lemma sample_update :
  EvUpdate "arn:wf" Sample.graph ∈ new_events Sample.world Sample.final.
Proof. apply (list_elem_of_lookup_2 _ 5). vm_compute. reflexivity. Qed.

Lemma sample_other_update :
  EvUpdate "arn:wf" Sample.other_graph ∈ new_events Sample.other_world Sample.other_final.
Proof. apply (list_elem_of_lookup_2 _ 5). vm_compute. reflexivity. Qed.

Lemma main_graph_shape_witness :
  Sample.run Sample.args Sample.world = (Ok tt, Sample.final)
  /\ (forall arn g,
        EvUpdate arn g ∈ new_events Sample.world Sample.final -> workflow_shape g = true)
  /\ exists g, EvUpdate "arn:wf" g ∈ new_events Sample.world Sample.final
               /\ workflow_shape g = true.
Proof.
  pose proof sample_run as Hrun.
  split; [exact Hrun |].
  destruct (main_graph_shape Sample.py_str Sample.json_loads Sample.json_dumps
              Sample.definition_to_json Sample.image_uris_retrieve
              Sample.args Sample.world (Ok tt) Sample.final Hrun) as (H1 & H2 & _).
  split; [exact H1 | exact (H2 eq_refl)].
Defined.

Lemma accuracy_gate_witness :
  create_training_step (JStr "repo/image:1") {[ "eta" := "0.3" ]} Sample.input_doc
    {[ "ModelOutputUri" := "s3://bucket/nyctaxi/model" ]} execution_input_schema
    "fn-query" (Some "eu-west-1") "role/sm" = Ok Sample.training_chain
  /\ exists check,
       accuracy_check Sample.training_chain = Some check
       /\ state_name check = Some "RMSE < 10"
       /\ forall input,
            (forall metric,
               json_path metric_path input = Some metric ->
               (choice_next check input = Some (Succeed "Model Error Acceptable")
                <-> exists x, metric = JNum x /\ (x < 10)%Q)
               /\ (~ (exists x, metric = JNum x /\ (x < 10)%Q) ->
                   choice_next check input
                   = Some (Fail "Model Error Too Low"
                             (Some "RMSE accuracy higher than threshold") None)))
            /\ (json_path metric_path input = None -> choice_next check input = None).
Proof.
  assert (create_training_step (JStr "repo/image:1") {[ "eta" := "0.3" ]} Sample.input_doc
            {[ "ModelOutputUri" := "s3://bucket/nyctaxi/model" ]} execution_input_schema
            "fn-query" (Some "eu-west-1") "role/sm" = Ok Sample.training_chain) as Hchain
    by (vm_compute; reflexivity).
  split; [exact Hchain |].
  exact (accuracy_gate _ _ _ _ _ _ _ _ _ Hchain).
Defined.

(** C2 as the specification words it fails when the training job has no
    metrics: the Value is no number less than 10, and the choice goes
    neither to the Succeed nor to the Fail state. *)
Lemma accuracy_gate_counterexample :
  create_training_step (JStr "repo/image:1") {[ "eta" := "0.3" ]} Sample.input_doc
    {[ "ModelOutputUri" := "s3://bucket/nyctaxi/model" ]} execution_input_schema
    "fn-query" (Some "eu-west-1") "role/sm" = Ok Sample.training_chain
  /\ exists check,
       accuracy_check Sample.training_chain = Some check
       /\ ~ (exists x, json_path metric_path Cases.no_metrics = Some (JNum x) /\ (x < 10)%Q)
       /\ choice_next check Cases.no_metrics = None
       /\ choice_next check Cases.no_metrics
          <> Some (Fail "Model Error Too Low"
                     (Some "RMSE accuracy higher than threshold") None).
Proof.
  split; [vm_compute; reflexivity |].
  eexists. split; [vm_compute; reflexivity |].
  assert (json_path metric_path Cases.no_metrics = None) as Hnone
    by (vm_compute; reflexivity).
  split; [rewrite Hnone; by intros (x & [=] & _) |].
  assert (forall s, choice_next s Cases.no_metrics = None ->
                    choice_next s Cases.no_metrics = None
                    /\ choice_next s Cases.no_metrics
                       <> Some (Fail "Model Error Too Low"
                                  (Some "RMSE accuracy higher than threshold") None))
    as Hboth by (intros s Hs; rewrite Hs; split; [reflexivity | discriminate]).
  apply Hboth. vm_compute. reflexivity.
Qed.

Lemma main_writes_four_artifacts_witness :
  Sample.run Sample.args Sample.world = (Ok tt, Sample.final)
  /\ exists image_uri job_id git_commit_id data_verison_id graph pre,
       let l := artifacts Sample.json_dumps Sample.definition_to_json Sample.args
                  image_uri job_id git_commit_id data_verison_id graph in
       new_events Sample.world Sample.final
       = pre ++ mkdir_trace Sample.args Sample.world ++ write_events l
       /\ List.filter is_write pre = []
       /\ List.filter is_mkdir pre = []
       /\ List.filter is_update pre = [EvUpdate "arn:wf" graph]
       /\ files Sample.final = write_all l (files Sample.world)
       /\ (forall path,
             path ∉ l.*1 -> files Sample.final !! path = files Sample.world !! path)
       /\ dirs Sample.final
          = (if path_exists Sample.world "out" then dirs Sample.world
             else {["out"]} ∪ dirs Sample.world).
Proof.
  pose proof sample_run as Hrun.
  split; [exact Hrun |].
  exact (main_writes_four_artifacts Sample.py_str Sample.json_loads Sample.json_dumps
           Sample.definition_to_json Sample.image_uris_retrieve
           Sample.args Sample.world Sample.final Hrun).
Defined.

Lemma main_pushes_graph_before_writing_witness :
  Sample.run Sample.args Sample.world = (Ok tt, Sample.final)
  /\ (forall pre e post,
        new_events Sample.world Sample.final = pre ++ e :: post ->
        is_write e || is_mkdir e = true ->
        exists g,
          List.filter is_attach pre = [EvAttach "arn:wf"]
          /\ List.filter is_update pre = [EvUpdate "arn:wf" g])
  /\ List.filter is_update (new_events Sample.world Sample.final)
     = [EvUpdate "arn:wf" Sample.graph].
Proof.
  pose proof sample_run as Hrun.
  split; [exact Hrun |].
  split; [| vm_compute; reflexivity].
  exact (proj1 (main_pushes_graph_before_writing Sample.py_str Sample.json_loads
                  Sample.json_dumps Sample.definition_to_json Sample.image_uris_retrieve
                  Sample.args Sample.world (Ok tt) Sample.final Hrun)).
Defined.

Lemma cases_ecr_run :
  Sample.run Cases.ecr_args Cases.ecr_world = (Ok tt, Cases.ecr_final).
Proof. vm_compute. reflexivity. Qed.

Lemma cases_ecr_update :
  EvUpdate "arn:wf" Cases.ecr_graph ∈ new_events Cases.ecr_world Cases.ecr_final.
Proof. apply (list_elem_of_lookup_2 _ 6). vm_compute. reflexivity. Qed.

Lemma cases_ecr_failed_run :
  Sample.run Cases.ecr_args Sample.world
  = (Raise (FileNotFoundError "ecr/imageDetail.json"), Cases.ecr_failed).
Proof. vm_compute. reflexivity. Qed.

Lemma cases_self_run : Cases.self_run = (Raise TypeError, Cases.self_run.2).
Proof. vm_compute. reflexivity. Qed.

Lemma main_reads_configuration_witness :
  (Sample.run Cases.ecr_args Cases.ecr_world = (Ok tt, Cases.ecr_final)
   /\ EvUpdate "arn:wf" Cases.ecr_graph ∈ new_events Cases.ecr_world Cases.ecr_final
   /\ List.filter is_read (new_events Cases.ecr_world Cases.ecr_final)
      = [EvOpenRead "ecr/imageDetail.json"; EvOpenRead "data/inputData.json";
         EvOpenRead "data/hyperparameters.json"]
   /\ exists text (input : gmap string json) e,
        files Cases.ecr_world !! "data/inputData.json" = Some text
        /\ Sample.json_loads text = Some (JObj input)
        /\ is_Some (input !! "TrainingUri")
        /\ is_Some (input !! "ValidationUri")
        /\ is_Some (input !! "BaselineUri")
        /\ graph_estimator Cases.ecr_graph = Some e
        /\ (exists image_text (detail : gmap string json),
              files Cases.ecr_world !! "ecr/imageDetail.json" = Some image_text
              /\ Sample.json_loads image_text = Some (JObj detail)
              /\ detail !! "ImageURI" = Some (est_image_uri e))
        /\ (path_exists Cases.ecr_world "data/hyperparameters.json" = false ->
            est_hyperparameters e = hp))
  /\ (Sample.run Sample.args Sample.world = (Ok tt, Sample.final)
      /\ EvUpdate "arn:wf" Sample.graph ∈ new_events Sample.world Sample.final
      /\ List.filter is_read (new_events Sample.world Sample.final)
         = [EvOpenRead "data/inputData.json"; EvOpenRead "data/hyperparameters.json"]
      /\ exists text (input : gmap string json) e,
           files Sample.world !! "data/inputData.json" = Some text
           /\ Sample.json_loads text = Some (JObj input)
           /\ is_Some (input !! "TrainingUri")
           /\ is_Some (input !! "ValidationUri")
           /\ is_Some (input !! "BaselineUri")
           /\ graph_estimator Sample.graph = Some e
           /\ (exists uri,
                 Sample.image_uris_retrieve (region_name Sample.world) "xgboost" "latest"
                 = Some uri
                 /\ est_image_uri e = JStr uri)
           /\ (path_exists Sample.world "data/hyperparameters.json" = false ->
               est_hyperparameters e = hp)).
Proof.
  pose proof cases_ecr_run as Hrun.
  pose proof cases_ecr_update as Hin.
  pose proof sample_run as Hrun'.
  pose proof sample_update as Hin'.
  split.
  - split; [exact Hrun |]. split; [exact Hin |].
    destruct (main_reads_configuration Sample.py_str Sample.json_loads Sample.json_dumps
                Sample.definition_to_json Sample.image_uris_retrieve
                Cases.ecr_args Cases.ecr_world (Ok tt) Cases.ecr_final Hrun)
      as (_ & _ & _ & _ & H).
    exact (H "arn:wf" Cases.ecr_graph Hin).
  - split; [exact Hrun' |]. split; [exact Hin' |].
    destruct (main_reads_configuration Sample.py_str Sample.json_loads Sample.json_dumps
                Sample.definition_to_json Sample.image_uris_retrieve
                Sample.args Sample.world (Ok tt) Sample.final Hrun')
      as (_ & _ & _ & _ & H).
    exact (H "arn:wf" Sample.graph Hin').
Defined.

(** C5 as the specification words it fails where [ecr_dir] is given and
    has no imageDetail.json: inputData.json is there and is not read. *)
Lemma main_reads_configuration_counterexample :
  Sample.run Cases.ecr_args Sample.world
  = (Raise (FileNotFoundError "ecr/imageDetail.json"), Cases.ecr_failed)
  /\ files Sample.world !! os_path_join (data_dir Cases.ecr_args) "inputData.json"
     = Some "INPUT"
  /\ new_events Sample.world Cases.ecr_failed = [EvOpenRead "ecr/imageDetail.json"]
  /\ EvOpenRead (os_path_join (data_dir Cases.ecr_args) "inputData.json")
       ∉ new_events Sample.world Cases.ecr_failed.
Proof.
  assert (new_events Sample.world Cases.ecr_failed = [EvOpenRead "ecr/imageDetail.json"])
    as Hev by (vm_compute; reflexivity).
  split; [exact cases_ecr_failed_run |].
  split; [vm_compute; reflexivity |]. split; [exact Hev |].
  rewrite Hev. intros Hin%list_elem_of_singleton. vm_compute in Hin. discriminate.
Qed.

Lemma hyperparameters_passed_through_witness :
  Sample.run Sample.args Sample.world = (Ok tt, Sample.final)
  /\ EvUpdate "arn:wf" Sample.graph ∈ new_events Sample.world Sample.final
  /\ exists (file : gmap string json) e,
       (if path_exists Sample.world (os_path_join "data" "hyperparameters.json")
        then exists text,
               files Sample.world !! os_path_join "data" "hyperparameters.json" = Some text
               /\ Sample.json_loads text = Some (JObj file)
        else file = ∅)
       /\ file !! "self" = None
       /\ graph_estimator Sample.graph = Some e
       /\ (forall k, est_hyperparameters e !! k
                     = match file !! k with
                       | Some v => Some (Sample.py_str v)
                       | None => hp !! k
                       end).
Proof.
  pose proof sample_run as Hrun.
  pose proof sample_update as Hin.
  split; [exact Hrun |]. split; [exact Hin |].
  destruct (hyperparameters_passed_through Sample.py_str Sample.json_loads Sample.json_dumps
              Sample.definition_to_json Sample.image_uris_retrieve
              Sample.args Sample.world (Ok tt) Sample.final "arn:wf" Sample.graph Hrun Hin)
    as (file & e & Hfile & Hself & He & Hk & _).
  exists file, e. auto.
Defined.

(** C6 as the specification words it fails for a file with a key called
    self: the value is passed to no estimator, [create_training_step] raises
    and [main] pushes no graph. *)
Lemma hyperparameters_passed_through_counterexample :
  Cases.self_run = (Raise TypeError, Cases.self_run.2)
  /\ (exists text (file : gmap string json),
        files Cases.self_world !! os_path_join (data_dir Sample.args) "hyperparameters.json"
        = Some text
        /\ Cases.json_loads text = Some (JObj file)
        /\ file !! "self" = Some (JStr "me"))
  /\ List.filter is_update (new_events Cases.self_world Cases.self_run.2) = []
  /\ create_training_step (JStr "repo/image:1") {[ "self" := "me" ]} Sample.input_doc
       {[ "ModelOutputUri" := "s3://bucket/nyctaxi/model" ]} execution_input_schema
       "fn-query" (Some "eu-west-1") "role/sm" = Raise TypeError.
Proof.
  split; [exact cases_self_run |]. split.
  { eexists _, _. split; [vm_compute; reflexivity |].
    split; [vm_compute; reflexivity |]. vm_compute. reflexivity. }
  split; vm_compute; reflexivity.
Qed.

Lemma graph_depends_on_configuration_only_witness :
  region_name Sample.world = region_name Sample.other_world
  /\ files Sample.world = files Sample.other_world
  /\ dirs Sample.world = dirs Sample.other_world
  /\ Sample.run Sample.args Sample.world = (Ok tt, Sample.final)
  /\ Sample.run Sample.args Sample.other_world
     = (Raise (ClientError "UpdateStateMachine"), Sample.other_final)
  /\ EvUpdate "arn:wf" Sample.graph ∈ new_events Sample.world Sample.final
  /\ EvUpdate "arn:wf" Sample.other_graph ∈ new_events Sample.other_world Sample.other_final
  /\ Sample.graph = Sample.other_graph
  /\ retry_free Sample.graph = true.
Proof.
  pose proof sample_run as Hrun.
  pose proof sample_other_run as Hrun'.
  pose proof sample_update as Hin.
  pose proof sample_other_update as Hin'.
  do 3 (split; [reflexivity |]).
  split; [exact Hrun |]. split; [exact Hrun' |]. split; [exact Hin |]. split; [exact Hin' |].
  destruct (graph_depends_on_configuration_only Sample.py_str Sample.json_loads
              Sample.json_dumps Sample.definition_to_json Sample.image_uris_retrieve
              Sample.args Sample.world Sample.other_world _ _ _ _ _ _ _ _
              eq_refl eq_refl eq_refl Hrun Hrun' Hin Hin') as (Heq & Hfree & _).
  split; [exact Heq | exact Hfree].
Defined.

Lemma workflow_input_names_witness :
  Sample.run Sample.args Sample.world = (Ok tt, Sample.final)
  /\ exists job_id response stage revision w1 inputs,
       pipelines Sample.world !! "pipe" = Some response
       /\ stageStates response !! 0 = Some stage
       /\ latestExecution stage = Some job_id
       /\ get_pipeline_revision "pipe" Sample.world = (Ok revision, w1)
       /\ revision !! "JobId" = Some job_id
       /\ files Sample.final !! os_path_join "out" "workflow-input.json"
          = Some (Sample.json_dumps (JObj inputs))
       /\ inputs !! "TrialName" = Some (JStr ("mlops-" +:+ "nyctaxi" +:+ "-" +:+ job_id))
       /\ inputs !! "BaselineJobName"
          = Some (JStr ("mlops-" +:+ "nyctaxi" +:+ "-" +:+ job_id))
       /\ inputs !! "TrainingJobName"
          = Some (JStr ("mlops-" +:+ "nyctaxi" +:+ "-" +:+ job_id))
       /\ inputs !! "ExperimentName" = Some (JStr ("mlops-" +:+ "nyctaxi"))
       /\ inputs !! "BaselineOutputUri"
          = Some (JStr ("s3://" +:+ "bucket" +:+ "/" +:+ "nyctaxi"
                        +:+ "/monitoring/baseline/mlops-" +:+ "nyctaxi"
                        +:+ "-pbl-" +:+ job_id)).
Proof.
  pose proof sample_run as Hrun.
  split; [exact Hrun |].
  exact (workflow_input_names Sample.py_str Sample.json_loads Sample.json_dumps
           Sample.definition_to_json Sample.image_uris_retrieve
           Sample.args Sample.world Sample.final Hrun).
Defined.

Lemma main_early_failure_writes_nothing_witness :
  Sample.run Sample.args Sample.world_without_input
  = (Raise (FileNotFoundError "data/inputData.json"), Sample.failed)
  /\ early_failure Sample.json_loads Sample.args Sample.world_without_input
       (Raise (FileNotFoundError "data/inputData.json"))
  /\ (exists e, Raise (FileNotFoundError "data/inputData.json") = @Raise unit e)
  /\ files Sample.failed = files Sample.world_without_input
  /\ dirs Sample.failed = dirs Sample.world_without_input
  /\ List.filter is_write (new_events Sample.world_without_input Sample.failed) = []
  /\ List.filter is_mkdir (new_events Sample.world_without_input Sample.failed) = [].
Proof.
  pose proof sample_failed_run as Hrun.
  assert (early_failure Sample.json_loads Sample.args Sample.world_without_input
            (Raise (FileNotFoundError "data/inputData.json"))) as Hearly.
  { left. vm_compute. reflexivity. }
  split; [exact Hrun |]. split; [exact Hearly |].
  exact (main_early_failure_writes_nothing Sample.py_str Sample.json_loads Sample.json_dumps
           Sample.definition_to_json Sample.image_uris_retrieve
           Sample.args Sample.world_without_input _ Sample.failed Hrun Hearly).
Defined.

(** ** More on the script *)

(** *** The revisions of the pipeline *)

(** [dict(pairs)[k]] is the value of the last pair with the key [k]. *)
Lemma dict_of_pairs_last {V : Type} (pairs : list (string * V)) (k : string) (v : V) :
  dict_of_pairs pairs !! k = Some v <->
  exists pre post, pairs = pre ++ (k, v) :: post /\ k ∉ post.*1.
Proof.
  induction pairs as [| [k' v'] pairs IH] using rev_ind.
  - cbn. rewrite lookup_empty. split; [done |].
    intros (pre & post & H & _). by destruct pre.
  - rewrite dict_of_pairs_snoc, lookup_insert. case_decide as Hk.
    + subst k'. split.
      * intros [= ->]. exists pairs, []. split; [done |]. apply not_elem_of_nil.
      * intros (pre & post & H & Hpost).
        destruct post as [| p post _] using rev_ind.
        { apply app_inj_tail in H as [_ [= ->]]. done. }
        rewrite app_comm_cons, app_assoc in H. apply app_inj_tail in H as [_ <-].
        exfalso. apply Hpost. rewrite fmap_app. apply elem_of_app. right. left.
    + rewrite IH. split.
      * intros (pre & post & -> & Hpost). exists pre, (post ++ [(k', v')]).
        split; [by rewrite <- app_assoc |].
        rewrite fmap_app. apply not_elem_of_app. split; [done |].
        intros Hin%list_elem_of_singleton. cbn in Hin. congruence.
      * intros (pre & post & H & Hpost).
        destruct post as [| p post _] using rev_ind.
        { apply app_inj_tail in H as [_ [= -> _]]. done. }
        rewrite app_comm_cons, app_assoc in H. apply app_inj_tail in H as [-> <-].
        exists pre, post. split; [done |].
        rewrite fmap_app in Hpost. by apply not_elem_of_app in Hpost as [? _].
Qed.

(** The pairs of the comprehension, action by action. *)
Lemma action_revisions_Ok actions pairs :
  action_revisions actions = Ok pairs <->
  Forall2 (fun r p => p.1 = actionName r /\ currentRevision r = Some p.2) actions pairs.
Proof.
  revert pairs. induction actions as [| r actions IH]; intros pairs.
  - split.
    + intros [= <-]. constructor.
    + intros ->%Forall2_nil_inv_l. reflexivity.
  - cbn [action_revisions]. split.
    + intros H. rstep H. rstep H. injection H as <-.
      destruct (currentRevision r) as [v |] eqn:Hr; [| discriminate].
      injection E as <-. constructor; [done |]. by apply IH.
    + intros (p & pairs' & [Hn Hr] & Hrest & ->)%Forall2_cons_inv_l.
      rewrite Hr. cbn. apply IH in Hrest. rewrite Hrest. cbn.
      destruct p as [n v]. cbn in *. by subst n.
Qed.

Lemma action_revisions_raises actions :
  (exists e, action_revisions actions = Raise e) <->
  Exists (fun r => currentRevision r = None) actions.
Proof.
  induction actions as [| r actions IH].
  - split; [by intros [? [=]] | by intros ?%Exists_nil].
  - cbn [action_revisions]. rewrite Exists_cons, <- IH.
    destruct (currentRevision r) as [v |]; cbn.
    + destruct (action_revisions actions) as [pairs | e]; cbn.
      * split; [by intros [? [=]] | intros [[=] | [? [=]]]].
      * split; [eauto | eauto].
    + split; [auto | eauto].
Qed.

(** The first error: an action without a current revision is a [KeyError]. *)
Lemma action_revisions_error actions e :
  action_revisions actions = Raise e -> e = KeyError "currentRevision".
Proof.
  induction actions as [| r actions IH]; [discriminate |].
  cbn [action_revisions].
  destruct (currentRevision r) as [v |]; cbn; [| by intros [= <-]].
  destruct (action_revisions actions) as [pairs | e']; cbn; [discriminate |].
  intros [= <-]. by apply IH.
Qed.

(** X1: [get_pipeline_revision] makes its client first: without a region it
    raises [NoRegionError] and calls nothing. With a region it calls the
    service once, looks at the first stage only and tells its failures apart:
    an unknown pipeline is a [ClientError], a pipeline without stages an
    [IndexError], an action of the first stage without a current revision or
    a first stage without an execution a [KeyError]; otherwise it returns a
    dictionary whose JobId is the execution id. The answers of the service
    are those of [PipelineState]: every stage lists its actions and every
    action has its name. *)
Theorem get_pipeline_revision_outcome name w :
  (region_name w = None ->
   get_pipeline_revision name w = (Raise NoRegionError, w))
  /\ (is_Some (region_name w) ->
      (pipelines w !! name = None ->
       get_pipeline_revision name w
       = (Raise (ClientError "GetPipelineState"), record (EvGetPipelineState name) w))
      /\ (forall response,
            pipelines w !! name = Some response ->
            stageStates response = [] ->
            get_pipeline_revision name w
            = (Raise IndexError, record (EvGetPipelineState name) w))
      /\ (forall response stage rest,
            pipelines w !! name = Some response ->
            stageStates response = stage :: rest ->
            Exists (fun r => currentRevision r = None) (actionStates stage) ->
            get_pipeline_revision name w
            = (Raise (KeyError "currentRevision"), record (EvGetPipelineState name) w))
      /\ (forall response stage rest,
            pipelines w !! name = Some response ->
            stageStates response = stage :: rest ->
            Forall (fun r => is_Some (currentRevision r)) (actionStates stage) ->
            latestExecution stage = None ->
            get_pipeline_revision name w
            = (Raise (KeyError "latestExecution"), record (EvGetPipelineState name) w))
      /\ (forall response stage rest execution_id,
            pipelines w !! name = Some response ->
            stageStates response = stage :: rest ->
            Forall (fun r => is_Some (currentRevision r)) (actionStates stage) ->
            latestExecution stage = Some execution_id ->
            exists rev,
              get_pipeline_revision name w = (Ok rev, record (EvGetPipelineState name) w)
              /\ rev !! "JobId" = Some execution_id)).
Proof.
  assert (forall actions,
            Forall (fun r => is_Some (currentRevision r)) actions ->
            exists pairs, action_revisions actions = Ok pairs) as Hall.
  { intros actions Hf. destruct (action_revisions actions) as [pairs | e] eqn:E; [eauto |].
    assert (Exists (fun r => currentRevision r = None) actions) as Hex
      by (apply action_revisions_raises; eauto).
    apply Exists_exists in Hex as (r & Hin & Hr).
    rewrite Forall_forall in Hf. destruct (Hf r Hin) as [v Hv]. congruence. }
  unfold get_pipeline_revision, bind, boto3_client, codepipeline_get_pipeline_state,
    lift, ret, list_getitem.
  split; [by intros -> |]. intros [region ->].
  cbn [pipelines record with_log].
  split; [| split; [| split; [| split]]].
  - intros ->. reflexivity.
  - intros response -> Hs. cbn [of_option]. rewrite Hs. reflexivity.
  - intros response stage rest -> Hs Hex. cbn [of_option]. rewrite Hs. cbn.
    apply action_revisions_raises in Hex as [e He]. rewrite He.
    by rewrite (action_revisions_error _ _ He).
  - intros response stage rest -> Hs Hf He. cbn [of_option]. rewrite Hs. cbn.
    destruct (Hall _ Hf) as [pairs ->]. rewrite He. reflexivity.
  - intros response stage rest execution_id -> Hs Hf He.
    cbn [of_option]. rewrite Hs. cbn.
    destruct (Hall _ Hf) as [pairs ->]. rewrite He. cbn.
    eexists. split; [reflexivity |]. apply lookup_insert_eq.
Qed.

Lemma dom_dict_of_pairs {V : Type} (pairs : list (string * V)) :
  dom (dict_of_pairs pairs) = list_to_set pairs.*1.
Proof.
  apply set_eq. intros k. rewrite elem_of_list_to_set.
  destruct (decide (k ∈ pairs.*1)) as [Hin | Hn].
  - split; [done | intros _].
    apply elem_of_dom. destruct (dict_of_pairs pairs !! k) eqn:E; [done |].
    by apply dict_of_pairs_None in E.
  - split; [| done]. intros Hd%elem_of_dom. apply dict_of_pairs_None in Hn.
    rewrite Hn in Hd. by destruct Hd.
Qed.

(** X2: the dictionary of [get_pipeline_revision] has the names of the actions of
    the first stage and JobId as its keys. JobId is the execution id, also
    when an action is called JobId; of the actions with one name the last
    one gives the revision. *)
Theorem get_pipeline_revision_lookup name w rev w' :
  get_pipeline_revision name w = (Ok rev, w') ->
  exists response stage execution_id,
    pipelines w !! name = Some response
    /\ stageStates response !! 0 = Some stage
    /\ latestExecution stage = Some execution_id
    /\ rev !! "JobId" = Some execution_id
    /\ dom rev = {["JobId"]} ∪ list_to_set (actionName <$> actionStates stage)
    /\ forall pre r post,
         actionStates stage = pre ++ r :: post ->
         actionName r ∉ actionName <$> post ->
         actionName r <> "JobId" ->
         rev !! actionName r = currentRevision r.
Proof.
  intros [(_ & [=] & _)
          | (_ & _ & response & stage & pairs & execution_id & Hr & Hs & Hp & He & ->)]
    %get_pipeline_revision_inv.
  exists response, stage, execution_id.
  split; [done |]. split; [done |]. split; [done |].
  split; [apply lookup_insert_eq |]. split.
  - rewrite dom_insert_L, dom_dict_of_pairs. by rewrite (action_revisions_names _ _ Hp).
  - intros pre r post Hactions Hlast Hjob.
    rewrite lookup_insert_ne by done.
    apply action_revisions_Ok in Hp. rewrite Hactions in Hp.
    apply Forall2_app_inv_l in Hp as (ppre & prest & Hpre & Hrest & ->).
    apply Forall2_cons_inv_l in Hrest as ([k v] & ppost & [Hk Hv] & Hpost & ->).
    cbn in Hk, Hv. subst k. rewrite Hv.
    apply dict_of_pairs_last. exists ppre, ppost. split; [done |].
    assert (ppost.*1 = actionName <$> post) as ->; [| done].
    clear -Hpost. induction Hpost as [| r' p post ppost [Hn _] _ IH]; [done |].
    cbn. by rewrite Hn, IH.
Qed.

(** *** Running [main] forward *)

Lemma bind_Ok_run {A B : Type} (m : M A) (f : A -> M B) w a w1 :
  m w = (Ok a, w1) -> bind m f w = f a w1.
Proof. unfold bind. by intros ->. Qed.

Lemma bind_Raise_run {A B : Type} (m : M A) (f : A -> M B) w e w1 :
  m w = (Raise e, w1) -> bind m f w = (Raise e, w1).
Proof. unfold bind. by intros ->. Qed.

Lemma open_read_run path w text :
  files w !! path = Some text ->
  open_read path w = (Ok text, record (EvOpenRead path) w).
Proof. unfold open_read. cbn [files record with_log]. by intros ->. Qed.

Lemma write_file_run path text w :
  path ∉ dirs w ->
  write_file path text w
  = (Ok tt, with_files (record (EvWrite path text) w) (<[path := text]> (files w))).
Proof.
  intros Hp. unfold write_file. cbn [dirs files record with_log].
  by rewrite bool_decide_eq_false_2.
Qed.

Lemma write_file_Ok path text w u w' :
  write_file path text w = (Ok u, w') -> path ∉ dirs w.
Proof.
  unfold write_file. cbn [dirs files record with_log].
  case_bool_decide; [discriminate | done].
Qed.

Section Forward.

Context (py_str : json -> string) (json_loads : string -> option json)
  (json_dumps : json -> string) (definition_to_json : State -> string)
  (image_uris_retrieve : option string -> string -> string -> option string).

Local Abbreviation run_main :=
  (main py_str json_loads json_dumps definition_to_json image_uris_retrieve).
Local Abbreviation run_loads := (loads py_str json_loads image_uris_retrieve).
Local Abbreviation run_outputs := (write_outputs json_dumps definition_to_json).
Local Abbreviation run_artifacts := (artifacts json_dumps definition_to_json).

Ltac forward H := rewrite (bind_Ok_run _ _ _ _ _ H).

Lemma image_phase_run a w image_uri :
  image_loaded json_loads image_uris_retrieve a w image_uri ->
  (if truthy (ecr_dir a) then
     f <- open_read (os_path_join (default "" (ecr_dir a)) "imageDetail.json") ;;
     d <- lift (json_load json_loads f) ;;
     lift (py_getitem d "ImageURI")
   else
     uri <- lift (get_training_image image_uris_retrieve (region_name w)) ;;
     ret (JStr uri)) w
  = (Ok image_uri, with_log w (log w ++ image_trace a)).
Proof.
  unfold image_loaded, image_trace. destruct (truthy (ecr_dir a)).
  - intros (text & d & Hf & Hd & Hk).
    forward (open_read_run _ _ _ Hf).
    unfold bind, lift, json_load. rewrite Hd. cbn [of_option]. by rewrite Hk.
  - intros (uri & Hu & ->).
    unfold bind, lift, ret, get_training_image, retrieve. rewrite Hu. cbn [of_option].
    by rewrite with_log_nil.
Qed.

Lemma hyperparameters_phase_run a w w0 evs hyperparameters :
  w0 = with_log w (log w ++ evs) ->
  hyperparameters_loaded py_str json_loads a w hyperparameters ->
  (if path_exists w (os_path_join (data_dir a) "hyperparameters.json") then
     f <- open_read (os_path_join (data_dir a) "hyperparameters.json") ;;
     d <- lift (json_load json_loads f) ;;
     lift (stringify py_str d)
   else ret ∅) w0
  = (Ok hyperparameters, with_log w (log w ++ evs ++ hyperparameters_trace a w)).
Proof.
  intros ->. unfold hyperparameters_loaded, hyperparameters_trace.
  destruct (path_exists w _).
  - intros (text & d & Hf & Hd & Hs).
    rewrite (bind_Ok_run _ _ _ _ _
               (open_read_run _ (with_log w (log w ++ evs)) _ Hf)).
    unfold bind, lift, json_load. rewrite Hd. cbn [of_option]. rewrite Hs.
    by rewrite record_with_log.
  - intros ->. unfold ret. by rewrite app_nil_r.
Qed.

(** What [main] does once the configuration is loaded: it attaches, updates
    and, when the service takes the update, goes on to the output phase. *)
Lemma main_loaded a w L :
  run_loads a w L ->
  run_main a w
  = match state_machines w !! workflow_pipeline_arn a with
    | None =>
        (Raise (ClientError "DescribeStateMachine"),
         with_log w (log w ++ front_trace a w))
    | Some _ =>
        if sfn_accepts w (workflow_pipeline_arn a) (ld_graph a L)
        then run_outputs a (ld_image_uri L) (ld_job_id L) (ld_git_commit_id L)
               (ld_data_version_id L) (main_output_data a (ld_job_id L))
               {| state_machine_arn := workflow_pipeline_arn a;
                  definition := ld_graph a L |}
               (pushed a w (ld_graph a L))
        else (Raise (ClientError "UpdateStateMachine"),
              with_log w (log w ++ front_trace a w
                          ++ [EvUpdate (workflow_pipeline_arn a) (ld_graph a L)]))
    end.
Proof.
  intros (Hi & Hd & Hr & Hh & Hb & Ht).
  destruct Hd as (text & Hfile & Hinput & [tu Htu] & [vu Hvu] & [bu Hbu]).
  destruct Hr as (Hregion & response & stage & pairs & Hresponse & Hstage & Hpairs & Hexec
                  & Hgit & Hdata).
  unfold main.
  unfold bind at 1. unfold boto3_region_name at 1.
  forward (image_phase_run _ _ _ Hi).
  rewrite (bind_Ok_run _ _ _ _ _ (open_read_run _ (with_log w (log w ++ image_trace a)) _ Hfile)).
  rewrite record_with_log.
  unfold bind at 1, lift at 1, json_load at 1. rewrite Hinput. cbn [of_option].
  unfold bind at 1, lift at 1. rewrite Htu.
  unfold bind at 1, lift at 1. rewrite Hvu.
  unfold bind at 1, lift at 1. rewrite Hbu.
  rewrite (bind_Ok_run _ _ _ _ _
             (get_pipeline_revision_run _ (with_log w _) _ _ _ _
                Hregion Hresponse Hstage Hpairs Hexec)).
  rewrite record_with_log.
  unfold bind at 1, lift at 1, dict_getitem at 1. rewrite lookup_insert_eq. cbn [of_option].
  unfold bind at 1, lift at 1, dict_getitem at 1. rewrite Hgit. cbn [of_option].
  unfold bind at 1, lift at 1, dict_getitem at 1. rewrite Hdata. cbn [of_option].
  unfold bind at 1, os_path_exists at 1. rewrite record_with_log, path_exists_with_log.
  erewrite (bind_Ok_run _ _ _ _ _ (hyperparameters_phase_run _ _ _ _ _ eq_refl Hh)).
  unfold bind at 1, lift at 1. rewrite Hb.
  unfold bind at 1, lift at 1.
  fold (main_output_data a (ld_job_id L)). rewrite Ht.
  unfold bind at 1, Workflow_attach at 1. rewrite record_with_log.
  cbn [state_machines with_log].
  fold (ld_graph a L).
  replace (((((image_trace a ++ [EvOpenRead (os_path_join (data_dir a) "inputData.json")])
               ++ [EvGetPipelineState (pipeline_name a)])
              ++ [EvExists (os_path_join (data_dir a) "hyperparameters.json")])
             ++ hyperparameters_trace a w) ++ [EvAttach (workflow_pipeline_arn a)])
    with (front_trace a w)
    by (unfold front_trace; rewrite <- !app_assoc; reflexivity).
  destruct (state_machines w !! workflow_pipeline_arn a) as [old |] eqn:Hold; [| done].
  unfold bind at 1, Workflow_update at 1.
  cbn [state_machine_arn state_machines sfn_accepts record with_log].
  rewrite Hold, bool_decide_eq_true_2 by done. cbn [andb].
  destruct (sfn_accepts w (workflow_pipeline_arn a) (ld_graph a L)).
  - unfold pushed, record. cbn [log with_log]. rewrite <- !app_assoc. reflexivity.
  - unfold record. cbn [log with_log]. rewrite <- !app_assoc. reflexivity.
Qed.

End Forward.

(** *** The output phase *)

Lemma os_mkdir_Ok path w u w' : os_mkdir path w = (Ok u, w') -> path <> "".
Proof. unfold os_mkdir. case_bool_decide; [discriminate | done]. Qed.

Lemma os_mkdir_run path w :
  path <> "" -> path_exists w path = false ->
  os_mkdir path w = (Ok tt, with_dirs (record (EvMkdir path) w) ({[path]} ∪ dirs w)).
Proof.
  intros Hp He. unfold os_mkdir. rewrite bool_decide_eq_false_2 by done.
  change (path_exists (record (EvMkdir path) w) path) with (path_exists w path).
  by rewrite He.
Qed.

Lemma path_exists_nonempty w path : path_exists w path = true -> path <> "".
Proof. unfold path_exists. intros H ->. discriminate. Qed.

Section Outcome.

Context (json_dumps : json -> string) (definition_to_json : State -> string).

Local Abbreviation run_outputs := (write_outputs json_dumps definition_to_json).
Local Abbreviation run_artifacts := (artifacts json_dumps definition_to_json).

Ltac stepo H :=
  let E := fresh "E" in
  let Hr := fresh "Hr" in
  apply bind_inv in H as [(? & ? & E & H) | (? & E & Hr)].

Ltac frame_rest :=
  repeat (split; [solve [eauto] |]);
  first [ intros ? _; cbn [length]; lia | intros ? [=] ].

Ltac fields :=
  cbn [files dirs log pipelines state_machines region_name sfn_accepts
       record with_log with_files with_dirs with_state_machines].

(** Whatever the output phase does, it has written a first part of the
    artifacts, not all of them when it raises, has at most made the output
    directory, and has left the rest of the world alone. *)
Lemma write_outputs_frame a image_uri job_id git_commit_id data_verison_id workflow w r w' :
  run_outputs a image_uri job_id git_commit_id data_verison_id
    (main_output_data a job_id) workflow w = (r, w') ->
  exists written,
    written `prefix_of` run_artifacts a image_uri job_id git_commit_id data_verison_id
                          (definition workflow)
    /\ files w' = write_all written (files w)
    /\ (dirs w' = dirs w \/ dirs w' = {[output_dir a]} ∪ dirs w)
    /\ state_machines w' = state_machines w
    /\ pipelines w' = pipelines w
    /\ region_name w' = region_name w
    /\ sfn_accepts w' = sfn_accepts w
    /\ (exists evs, log w' = log w ++ evs)
    /\ (forall e, r = Raise e -> length written < 4).
Proof.
  intros H. unfold write_outputs in H.
  stepo H; apply os_path_exists_inv in E as [-> [= ->]].
  stepo H; apply (mkdir_phase_inv (fun _ => None)) in E.
  2: { destruct E as (_ & _ & ->). exists []. fields.
       split; [apply prefix_nil |]. rewrite <- ?app_assoc; frame_rest. }
  subst.
  assert (dirs w = dirs w \/ dirs w = {[output_dir a]} ∪ dirs w) as Hsame by auto.
  assert ((if path_exists w (output_dir a) then dirs w else {[output_dir a]} ∪ dirs w) = dirs w
          \/ (if path_exists w (output_dir a) then dirs w else {[output_dir a]} ∪ dirs w)
             = {[output_dir a]} ∪ dirs w) as Hdirs
    by (destruct (path_exists w (output_dir a)); auto).
  stepo H; apply write_file_inv in E.
  2: { destruct E as (_ & ->). exists []. fields.
       split; [apply prefix_nil |]. rewrite <- ?app_assoc; frame_rest. }
  subst.
  stepo H; apply lift_inv in E as [Huri ->].
  2: { rewrite main_output_data_baseline in Huri. discriminate. }
  rewrite main_output_data_baseline in Huri. injection Huri as <-.
  stepo H; apply write_file_inv in E.
  2: { destruct E as (_ & ->). eexists [_]. fields.
       split; [by apply prefix_cons, prefix_nil |]. split; [reflexivity |].
       rewrite <- ?app_assoc; frame_rest. }
  subst.
  stepo H; apply write_file_inv in E.
  2: { destruct E as (_ & ->). eexists [_; _]. fields.
       split; [by do 2 apply prefix_cons; apply prefix_nil |].
       split; [reflexivity |]. rewrite <- ?app_assoc; frame_rest. }
  subst.
  apply write_file_inv in H. destruct r as [[] | e].
  2: { destruct H as (_ & ->). eexists [_; _; _]. fields.
       split; [by do 3 apply prefix_cons; apply prefix_nil |].
       split; [reflexivity |]. rewrite <- ?app_assoc; frame_rest. }
  subst. eexists. fields. split; [reflexivity |]. split; [reflexivity |].
  rewrite <- ?app_assoc; frame_rest.
Qed.

(** The output phase returns exactly when the output directory has a name and
    no artifact path is a directory. *)
Lemma write_outputs_returns a image_uri job_id git_commit_id data_verison_id workflow w :
  (exists w', run_outputs a image_uri job_id git_commit_id data_verison_id
                (main_output_data a job_id) workflow w = (Ok tt, w'))
  <-> outputs_writable a w.
Proof.
  unfold outputs_writable, dirs_with_output, artifact_names. split.
  - intros [w' H]. unfold write_outputs in H.
    stepo H; apply os_path_exists_inv in E as [-> [= ->]].
    stepo H; [| discriminate].
    assert (output_dir a <> "") as Hname.
    { destruct (path_exists w (output_dir a)) eqn:He.
      - by apply path_exists_nonempty in He.
      - by apply os_mkdir_Ok in E. }
    apply (mkdir_phase_inv (fun _ => None)) in E. subst.
    stepo H; [| discriminate].
    pose proof (write_file_Ok _ _ _ _ _ E) as H1. apply write_file_inv in E. subst.
    stepo H; [| discriminate]. apply lift_inv in E as [_ ->].
    stepo H; [| discriminate].
    pose proof (write_file_Ok _ _ _ _ _ E) as H2. apply write_file_inv in E. subst.
    stepo H; [| discriminate].
    pose proof (write_file_Ok _ _ _ _ _ E) as H3. apply write_file_inv in E. subst.
    pose proof (write_file_Ok _ _ _ _ _ H) as H4.
    cbn [files dirs log record with_log with_files with_dirs] in H1, H2, H3, H4.
    split; [done |]. repeat constructor; assumption.
  - intros [Hname Hall].
    apply Forall_cons in Hall as [H1 Hall]. apply Forall_cons in Hall as [H2 Hall].
    apply Forall_cons in Hall as [H3 Hall]. apply Forall_cons in Hall as [H4 _].
    unfold write_outputs, bind, os_path_exists, os_mkdir, write_file, ret, lift.
    rewrite main_output_data_baseline. fields.
    change (path_exists (record (EvExists (output_dir a)) w) (output_dir a))
      with (path_exists w (output_dir a)).
    destruct (path_exists w (output_dir a)) eqn:He; fields.
    + rewrite !bool_decide_eq_false_2 by done. eauto.
    + rewrite (bool_decide_eq_false_2 (output_dir a = "")) by done.
      unfold path_exists in He |- *. fields. rewrite He.
      rewrite !bool_decide_eq_false_2 by done. eauto.
Qed.

End Outcome.

(** *** The outcome of [main] *)

Section MainOutcome.

Context (py_str : json -> string) (json_loads : string -> option json)
  (json_dumps : json -> string) (definition_to_json : State -> string)
  (image_uris_retrieve : option string -> string -> string -> option string).

Local Abbreviation run_main :=
  (main py_str json_loads json_dumps definition_to_json image_uris_retrieve).
Local Abbreviation run_loads := (loads py_str json_loads image_uris_retrieve).
Local Abbreviation run_outputs := (write_outputs json_dumps definition_to_json).
Local Abbreviation run_artifacts := (artifacts json_dumps definition_to_json).

(** X3: what a run of [main] that returns has found. A region is
    configured, the role is not empty, the configuration has loaded (the
    image, inputData.json with its three keys, the revisions of the pipeline,
    the hyperparameters, both builders), the image is a string, no
    hyperparameter is called self, the state machine was there and the
    service has taken the graph, the output directory has a name and no
    artifact path was a directory. *)
Theorem main_returns_only_if a w w' :
  run_main a w = (Ok tt, w') ->
  is_Some (region_name w)
  /\ sagemaker_role a <> ""
  /\ exists L,
       run_loads a w L
       /\ (exists uri, ld_image_uri L = JStr uri)
       /\ ld_hyperparameters L !! "self" = None
       /\ is_Some (state_machines w !! workflow_pipeline_arn a)
       /\ sfn_accepts w (workflow_pipeline_arn a) (ld_graph a L) = true
       /\ outputs_writable a w.
Proof.
  intros [Hfail | (L & Hloads & Hmachine & Haccepts & Hout)]%main_run.
  { destruct Hfail as (e & evs & [=] & _). }
  destruct (loads_checks _ _ _ _ _ _ Hloads) as (Hregion & Hrole & Hself & Himage).
  split; [exact Hregion |]. split; [exact Hrole |].
  exists L. repeat (split; [assumption |]).
  assert (outputs_writable a (pushed a w (ld_graph a L))) as Hw
    by (eapply write_outputs_returns; eauto).
  exact Hw.
Qed.

(** X4: a run of [main], whatever its outcome, changes no file but the four
    artifacts, at most adds the output directory, changes no state machine but
    the one it was given, leaves the pipelines alone and only adds to the
    log. *)
Theorem main_changes_only_its_outputs a w r w' :
  run_main a w = (r, w') ->
  (forall path,
     path ∉ (os_path_join (output_dir a) <$> artifact_names) ->
     files w' !! path = files w !! path)
  /\ (dirs w' = dirs w \/ dirs w' = {[output_dir a]} ∪ dirs w)
  /\ (forall arn,
        arn <> workflow_pipeline_arn a ->
        state_machines w' !! arn = state_machines w !! arn)
  /\ pipelines w' = pipelines w
  /\ region_name w' = region_name w
  /\ exists evs, log w' = log w ++ evs.
Proof.
  intros [Hfail | (L & _ & _ & _ & Hout)]%main_run.
  - destruct Hfail as (e & evs & _ & -> & _).
    cbn [files dirs log pipelines state_machines region_name with_log]. eauto 10.
  - apply write_outputs_frame in Hout
      as (written & Hpre & Hfiles & Hdirs & Hsm & Hp & Hr & _ & [evs Hlog] & _).
    split; [| split; [exact Hdirs | split; [| split; [exact Hp | split; [exact Hr |]]]]].
    + intros path Hpath. rewrite Hfiles. apply write_all_other.
      intros Hin. apply Hpath.
      destruct Hpre as [k Hk].
      change (os_path_join (output_dir a) <$> artifact_names)
        with ((run_artifacts a (ld_image_uri L) (ld_job_id L) (ld_git_commit_id L)
                 (ld_data_version_id L) (ld_graph a L)).*1).
      cbn [definition] in Hk. rewrite Hk, fmap_app. apply elem_of_app. by left.
    + intros arn Hne. rewrite Hsm. unfold pushed.
      cbn [state_machines with_state_machines]. by rewrite lookup_insert_ne.
    + rewrite Hlog. unfold pushed. cbn [log with_log with_state_machines].
      rewrite <- app_assoc. eauto.
Qed.

(** X5: an update [main] has called is kept: a graph the service took is the
    definition of the state machine when [main] is through, also when [main]
    fails afterwards; a graph the service rejected makes [main] raise with
    the state machine, the files and the directories as they were. *)
Theorem main_update_is_kept a w r w' arn g :
  run_main a w = (r, w') ->
  EvUpdate arn g ∈ new_events w w' ->
  if sfn_accepts w arn g
  then state_machines w' !! arn = Some g
  else r = Raise (ClientError "UpdateStateMachine")
       /\ state_machines w' = state_machines w
       /\ files w' = files w
       /\ dirs w' = dirs w.
Proof.
  intros Hrun Hin.
  destruct (main_update_graph _ _ _ _ _ _ _ _ _ _ _ Hrun Hin) as (L & HL & -> & ->).
  rewrite (main_loaded _ _ _ _ _ _ _ _ HL) in Hrun.
  destruct (state_machines w !! workflow_pipeline_arn a) as [old |] eqn:Hold.
  - destruct (sfn_accepts w (workflow_pipeline_arn a) (ld_graph a L)).
    + apply write_outputs_frame in Hrun as (_ & _ & _ & _ & -> & _).
      unfold pushed. cbn [state_machines with_state_machines]. apply lookup_insert_eq.
    + injection Hrun as <- <-. done.
  - injection Hrun as <- <-.
    rewrite (new_events_app _ _ (front_trace a w)) in Hin by reflexivity.
    destruct (front_trace_kinds a w) as (_ & _ & Hu & _).
    by apply (filter_nil_elem is_update _ _ Hu) in Hin.
Qed.

(** A first part of the front events leaves everything as it is. *)
Lemma nothing_done_front a w evs :
  evs `prefix_of` front_trace a w -> nothing_done w (with_log w (log w ++ evs)).
Proof.
  intros Hpre. unfold nothing_done.
  cbn [files dirs state_machines with_log].
  rewrite (new_events_app _ _ evs) by reflexivity.
  destruct (front_trace_kinds a w) as (Hw & Hm & Hu & _).
  repeat split; try reflexivity; apply prefix_nil_inv.
  - rewrite <- Hu. by apply filter_prefix.
  - rewrite <- Hw. by apply filter_prefix.
  - rewrite <- Hm. by apply filter_prefix.
Qed.

(** Without a configuration to load [main] raises and has done nothing. *)
Lemma main_not_loaded a w r w' :
  run_main a w = (r, w') ->
  ~ (exists L, run_loads a w L) ->
  (exists e, r = Raise e) /\ nothing_done w w'.
Proof.
  intros [Hfail | (L & HL & _)]%main_run Hno; [| exfalso; eauto].
  destruct Hfail as (e & evs & -> & -> & [Hpre | (L & HL & _)] & _); [| exfalso; eauto].
  split; [eauto |]. by eapply nothing_done_front.
Qed.

(** X6: how [main] fails. Either it has pushed and written nothing; or the
    service has rejected the update, and only the log has changed; or the
    state machine has the new graph, and the output phase has raised an error
    of the file system after writing a first part of the artifacts, not all
    of them: the update is not taken back. *)
Theorem main_failure_modes a w e w' :
  run_main a w = (Raise e, w') ->
  nothing_done w w'
  \/ (exists L,
        run_loads a w L
        /\ sfn_accepts w (workflow_pipeline_arn a) (ld_graph a L) = false
        /\ e = ClientError "UpdateStateMachine"
        /\ w' = with_log w (log w ++ front_trace a w
                            ++ [EvUpdate (workflow_pipeline_arn a) (ld_graph a L)]))
  \/ (exists L written,
        run_loads a w L
        /\ sfn_accepts w (workflow_pipeline_arn a) (ld_graph a L) = true
        /\ os_error e
        /\ state_machines w'
           = <[workflow_pipeline_arn a := ld_graph a L]> (state_machines w)
        /\ written `prefix_of` run_artifacts a (ld_image_uri L) (ld_job_id L)
                                (ld_git_commit_id L) (ld_data_version_id L) (ld_graph a L)
        /\ length written < 4
        /\ files w' = write_all written (files w)).
Proof.
  intros Hrun.
  assert (forall L,
            run_loads a w L ->
            sfn_accepts w (workflow_pipeline_arn a) (ld_graph a L) = true ->
            run_outputs a (ld_image_uri L) (ld_job_id L) (ld_git_commit_id L)
              (ld_data_version_id L) (main_output_data a (ld_job_id L))
              {| state_machine_arn := workflow_pipeline_arn a; definition := ld_graph a L |}
              (pushed a w (ld_graph a L)) = (Raise e, w') ->
            exists L written,
              run_loads a w L
              /\ sfn_accepts w (workflow_pipeline_arn a) (ld_graph a L) = true
              /\ os_error e
              /\ state_machines w'
                 = <[workflow_pipeline_arn a := ld_graph a L]> (state_machines w)
              /\ written `prefix_of` run_artifacts a (ld_image_uri L) (ld_job_id L)
                                      (ld_git_commit_id L) (ld_data_version_id L)
                                      (ld_graph a L)
              /\ length written < 4
              /\ files w' = write_all written (files w)) as Houtput.
  { intros L HL Haccepts Hout.
    pose proof Hout as (written & Hpre & Hfiles & _ & Hsm & _ & _ & _ & _ & Hlen)
      %write_outputs_frame.
    pose proof Hout as [Hos _]%(write_outputs_run json_loads).
    exists L, written. split; [exact HL |]. split; [exact Haccepts |].
    split; [exact Hos |]. split; [exact Hsm |]. split; [exact Hpre |].
    split; [by eapply Hlen | exact Hfiles]. }
  pose proof Hrun as [Hfail | (L & HL & _ & Haccepts & Hout)]%main_run.
  - destruct Hfail as (e0 & evs & [= <-] & -> & [Hpre | (L & HL & _)] & _).
    { left. by eapply nothing_done_front. }
    rewrite (main_loaded _ _ _ _ _ _ _ _ HL) in Hrun.
    destruct (state_machines w !! workflow_pipeline_arn a) as [old |].
    + destruct (sfn_accepts w (workflow_pipeline_arn a) (ld_graph a L)) eqn:Haccepts.
      * right. right. by apply (Houtput L).
      * right. left. exists L. injection Hrun as <- Hw. by rewrite Hw.
    + left. injection Hrun as _ <-. by eapply nothing_done_front.
  - right. right. by apply (Houtput L).
Qed.

End MainOutcome.

(** *** Configurations that cannot be loaded *)

Section Defective.

Context (py_str : json -> string) (json_loads : string -> option json)
  (json_dumps : json -> string) (definition_to_json : State -> string)
  (image_uris_retrieve : option string -> string -> string -> option string).

Local Abbreviation run_main :=
  (main py_str json_loads json_dumps definition_to_json image_uris_retrieve).
Local Abbreviation run_loads := (loads py_str json_loads image_uris_retrieve).

(** X7: when the pipeline is not known, has no stage, has an action without a
    current revision in its first stage (whatever the action is called) or no
    execution of its first stage, [main] raises and has pushed and written
    nothing. *)
Theorem main_needs_pipeline_state a w r w' :
  run_main a w = (r, w') ->
  pipeline_defect a w ->
  (exists e, r = Raise e) /\ nothing_done w w'.
Proof.
  intros Hrun Hdefect. eapply main_not_loaded; [exact Hrun |].
  intros (L & _ & _ & Hrev & _).
  destruct Hrev as (_ & response & stage & pairs & Hr & Hs & Hp & He & _).
  destruct Hdefect as [Hnone | (response' & Hr' & Hd)]; [congruence |].
  rewrite Hr in Hr'. injection Hr' as <-.
  destruct Hd as [Hnil | (stage' & rest & Hstages & Hd)].
  { rewrite Hnil in Hs. discriminate. }
  rewrite Hstages in Hs. injection Hs as ->.
  destruct Hd as [Hex | Hnone]; [| congruence].
  apply action_revisions_raises in Hex as [e He']. congruence.
Qed.

(** X8: when hyperparameters.json is there but cannot be read as a JSON object,
    [main] raises and has pushed and written nothing. *)
Theorem main_needs_hyperparameters_object a w r w' :
  run_main a w = (r, w') ->
  hyperparameters_defect json_loads a w ->
  (exists e, r = Raise e) /\ nothing_done w w'.
Proof.
  intros Hrun [Hexists Hdefect]. eapply main_not_loaded; [exact Hrun |].
  intros (L & _ & _ & _ & Hh & _). unfold hyperparameters_loaded in Hh.
  rewrite Hexists in Hh. destruct Hh as (text & d & Hf & Hd & Hs).
  apply stringify_Ok in Hs as (m & -> & _).
  destruct Hdefect as [Hnone | (text' & Hf' & Hbad)]; [congruence |].
  rewrite Hf in Hf'. injection Hf' as <-.
  destruct Hbad as [Hnone | (d' & Hd' & Hno)]; [congruence |].
  apply Hno. rewrite Hd in Hd'. injection Hd' as <-. eauto.
Qed.

Lemma create_baseline_step_image input_data execution_input region role b :
  create_baseline_step image_uris_retrieve input_data execution_input region role = Ok b ->
  is_Some (image_uris_retrieve region "model-monitor" "latest").
Proof.
  unfold create_baseline_step. intros H. do 3 rstep H.
  unfold retrieve in E1.
  destruct (image_uris_retrieve region "model-monitor" "latest"); [done | discriminate].
Qed.

(** X9: when the image cannot be determined, or the region has no model monitor
    image, [main] raises and has pushed and written nothing: the model monitor
    image is needed also when [ecr_dir] gives the training image. *)
Theorem main_needs_images a w r w' :
  run_main a w = (r, w') ->
  image_defect json_loads image_uris_retrieve a w ->
  (exists e, r = Raise e) /\ nothing_done w w'.
Proof.
  intros Hrun Hdefect. eapply main_not_loaded; [exact Hrun |].
  intros (L & Hi & _ & _ & _ & Hb & _). unfold image_loaded in Hi.
  destruct Hdefect as [[Hecr Hbad] | [[Hecr Hnone] | Hnone]].
  - rewrite Hecr in Hi. destruct Hi as (text & d & Hf & Hd & Hk).
    destruct Hbad as [Hnone | (text' & Hf' & Hbad)]; [congruence |].
    rewrite Hf in Hf'. injection Hf' as <-.
    destruct Hbad as [Hnone | (d' & Hd' & Hno)]; [congruence |].
    apply Hno. rewrite Hd in Hd'. injection Hd' as <-. by eexists.
  - rewrite Hecr in Hi. destruct Hi as (uri & Hu & _). congruence.
  - apply create_baseline_step_image in Hb as [uri Hu]. congruence.
Qed.

(** X10: when there is no state machine of the given name, [main] raises, calls no
    update and has written nothing. *)
Theorem main_needs_state_machine a w r w' :
  run_main a w = (r, w') ->
  state_machines w !! workflow_pipeline_arn a = None ->
  (exists e, r = Raise e) /\ nothing_done w w'.
Proof.
  intros Hrun Hnone.
  pose proof Hrun as [Hfail | (L & HL & [old Hold] & _)]%main_run; [| congruence].
  destruct Hfail as (e & evs & -> & -> & [Hpre | (L & HL & _)] & _).
  - split; [eauto |]. by eapply nothing_done_front.
  - rewrite (main_loaded _ _ _ _ _ _ _ _ HL), Hnone in Hrun.
    injection Hrun as _ Hlog. apply app_inv_head in Hlog. subst evs.
    split; [eauto |]. by eapply nothing_done_front.
Qed.

(** X18: when hyperparameters.json has a key called self, [main] raises and
    has pushed and written nothing: the key would be a second value for the
    first parameter of [set_hyperparameters]. *)
Theorem main_refuses_self a w r w' text (file : gmap string json) :
  run_main a w = (r, w') ->
  files w !! os_path_join (data_dir a) "hyperparameters.json" = Some text ->
  json_loads text = Some (JObj file) ->
  is_Some (file !! "self") ->
  (exists e, r = Raise e) /\ nothing_done w w'.
Proof.
  intros Hrun Hfile Hjson [v Hv]. eapply main_not_loaded; [exact Hrun |].
  intros [L HL]. destruct (loads_checks _ _ _ _ _ _ HL) as (_ & _ & Hself & _).
  destruct HL as (_ & _ & _ & Hh & _). unfold hyperparameters_loaded in Hh.
  assert (path_exists w (os_path_join (data_dir a) "hyperparameters.json") = true) as He.
  { unfold path_exists. rewrite Hfile.
    rewrite (bool_decide_eq_true_2 (is_Some (Some text))) by eauto.
    rewrite bool_decide_eq_false_2; [done |].
    unfold os_path_join. cbn [String.prefix].
    destruct (bool_decide (data_dir a = "") || ends_with_sep (data_dir a));
      by destruct (data_dir a). }
  rewrite He in Hh. destruct Hh as (text' & d & Hf & Hd & (m & -> & Hm)%stringify_Ok).
  rewrite Hfile in Hf. injection Hf as <-. rewrite Hjson in Hd. injection Hd as <-.
  rewrite Hm, lookup_fmap, Hv in Hself. discriminate.
Qed.

(** X19: without a region [main] raises and has pushed and written nothing:
    at the latest the client of the pipeline service cannot be made. *)
Theorem main_needs_region a w r w' :
  run_main a w = (r, w') ->
  region_name w = None ->
  (exists e, r = Raise e) /\ nothing_done w w'.
Proof.
  intros Hrun Hnone. eapply main_not_loaded; [exact Hrun |].
  intros [L HL]. destruct (loads_checks _ _ _ _ _ _ HL) as ([region Hregion] & _).
  congruence.
Qed.

End Defective.

(** *** When the builders return *)

Lemma ExecutionInput_getitem_Ok execution_input k v :
  ExecutionInput_getitem execution_input k = Ok v <->
  (schema execution_input = [] \/ k ∈ schema execution_input)
  /\ v = ExecutionInputRef [Key k].
Proof.
  unfold ExecutionInput_getitem.
  destruct (bool_decide (schema execution_input = [])) eqn:Hs;
    destruct (bool_decide (k ∈ schema execution_input)) eqn:Hk; cbn [orb];
    first [apply bool_decide_eq_true in Hs | apply bool_decide_eq_false in Hs];
    first [apply bool_decide_eq_true in Hk | apply bool_decide_eq_false in Hk];
    (split; [intros [= <-] | intros [Hd ->]]); try done; auto.
  by destruct Hd.
Qed.

Lemma ExecutionInput_getitem_keys execution_input (keys : list string) :
  (forall k, k ∈ keys -> exists v, ExecutionInput_getitem execution_input k = Ok v) ->
  schema execution_input = [] \/ Forall (fun k => k ∈ schema execution_input) keys.
Proof.
  intros H. destruct (decide (schema execution_input = [])) as [| Hne]; [by left |].
  right. apply Forall_forall. intros k Hk.
  destruct (H k Hk) as [v [[| Hin] _]%ExecutionInput_getitem_Ok]; done.
Qed.

Lemma ExecutionInput_getitem_run execution_input (keys : list string) k :
  schema execution_input = [] \/ Forall (fun k => k ∈ schema execution_input) keys ->
  k ∈ keys ->
  ExecutionInput_getitem execution_input k = Ok (ExecutionInputRef [Key k]).
Proof.
  intros H Hk. apply ExecutionInput_getitem_Ok. split; [| done].
  destruct H as [| H]; [by left |]. right. by apply (proj1 (Forall_forall _ _) H).
Qed.

(** X11: what [create_training_step] needs. When it returns, [output_data]
    has the model output, the role is not empty, no hyperparameter is called
    self, [input_data] has the training and the validation data, the
    execution input has no schema or declares the six placeholders of the
    training step, and the image is a string. It raises a [KeyError] without
    the model output, then a [ValueError] for an empty role, then a
    [TypeError] for a hyperparameter called self, and a [TypeError] for an
    image that is no string when nothing else is missing. *)
Theorem create_training_step_requirements image_uri hyperparameters input_data
    (output_data : gmap string string) execution_input query_name region role :
  (forall t,
     create_training_step image_uri hyperparameters input_data output_data
       execution_input query_name region role = Ok t ->
     is_Some (output_data !! "ModelOutputUri")
     /\ role <> ""
     /\ hyperparameters !! "self" = None
     /\ has_key input_data "TrainingUri"
     /\ has_key input_data "ValidationUri"
     /\ (schema execution_input = []
         \/ Forall (fun k => k ∈ schema execution_input)
              ["TrainingJobName"; "ExperimentName"; "TrialName"; "GitBranch";
               "GitCommitHash"; "DataVersionId"])
     /\ exists uri, image_uri = JStr uri)
  /\ (output_data !! "ModelOutputUri" = None ->
      create_training_step image_uri hyperparameters input_data output_data
        execution_input query_name region role = Raise (KeyError "ModelOutputUri"))
  /\ (is_Some (output_data !! "ModelOutputUri") ->
      role = "" ->
      create_training_step image_uri hyperparameters input_data output_data
        execution_input query_name region role = Raise ValueError)
  /\ (is_Some (output_data !! "ModelOutputUri") ->
      role <> "" ->
      is_Some (hyperparameters !! "self") ->
      create_training_step image_uri hyperparameters input_data output_data
        execution_input query_name region role = Raise TypeError)
  /\ (is_Some (output_data !! "ModelOutputUri") ->
      role <> "" ->
      hyperparameters !! "self" = None ->
      has_key input_data "TrainingUri" ->
      has_key input_data "ValidationUri" ->
      schema execution_input = []
      \/ Forall (fun k => k ∈ schema execution_input)
           ["TrainingJobName"; "ExperimentName"; "TrialName"; "GitBranch";
            "GitCommitHash"; "DataVersionId"] ->
      (forall uri, image_uri <> JStr uri) ->
      create_training_step image_uri hyperparameters input_data output_data
        execution_input query_name region role = Raise TypeError).
Proof.
  split; [| split; [| split; [| split]]].
  - intros t H.
    pose proof (create_training_step_Ok _ _ _ _ _ _ _ _ _ H)
      as (? & ? & ? & ? & ? & ? & ? & ? & ? & ? & ? & _ & _ & _ & Hself & Himage & Hrole).
    unfold create_training_step in H. do 11 rstep H.
    unfold dict_getitem in E. destruct (output_data !! "ModelOutputUri"); [| discriminate].
    split; [done |]. split; [done |]. split; [done |].
    split; [by eexists |]. split; [by eexists |]. split; [| done].
    apply ExecutionInput_getitem_keys. intros k Hk.
    repeat (apply elem_of_cons in Hk as [-> | Hk]; [eauto |]).
    by apply elem_of_nil in Hk.
  - intros Hnone. unfold create_training_step, dict_getitem. by rewrite Hnone.
  - intros [out Hout] ->. unfold create_training_step, dict_getitem. by rewrite Hout.
  - intros [out Hout] Hrole [v Hself].
    unfold create_training_step, dict_getitem, require_role, set_hyperparameters.
    rewrite Hout, (bool_decide_eq_false_2 (role = "")) by done.
    cbn [of_option mbind result_bind].
    rewrite bool_decide_eq_true_2; [done |].
    rewrite dict_update_lookup, Hself. eauto.
  - intros [out Hout] Hrole Hself [train Htrain] [val Hval] Hkeys Himage.
    unfold create_training_step, dict_getitem, require_role, set_hyperparameters.
    rewrite Hout, (bool_decide_eq_false_2 (role = "")) by done.
    cbn [of_option mbind result_bind].
    rewrite bool_decide_eq_false_2.
    2: { rewrite dict_update_lookup, Hself. by intros [? [=]]. }
    cbn [mbind result_bind]. rewrite Htrain, Hval. cbn [mbind result_bind].
    rewrite !(ExecutionInput_getitem_run execution_input _ _ Hkeys)
      by (apply (bool_decide_unpack _); by vm_compute).
    cbn [mbind result_bind]. unfold TrainingStep. cbn [est_image_uri].
    destruct image_uri; try reflexivity. by destruct (Himage s).
Qed.

(** X12: what [create_baseline_step] needs. When it returns, [input_data] has
    the baseline data, the region has a model monitor image, and the
    execution input has no schema or declares the seven placeholders of the
    baseline step. The exception of [input_data["BaselineUri"]] is the
    exception of the call, and without a model monitor image the call raises
    the [ValueError] of [retrieve] once the baseline data and the output
    placeholder are there. *)
Theorem create_baseline_step_requirements image_uris_retrieve input_data execution_input
    region role :
  (forall b,
     create_baseline_step image_uris_retrieve input_data execution_input region role = Ok b ->
     has_key input_data "BaselineUri"
     /\ is_Some (image_uris_retrieve region "model-monitor" "latest")
     /\ (schema execution_input = []
         \/ Forall (fun k => k ∈ schema execution_input)
              ["BaselineOutputUri"; "BaselineJobName"; "ExperimentName"; "TrialName";
               "GitBranch"; "GitCommitHash"; "DataVersionId"]))
  /\ (forall e,
        py_getitem input_data "BaselineUri" = Raise e ->
        create_baseline_step image_uris_retrieve input_data execution_input region role
        = Raise e)
  /\ (has_key input_data "BaselineUri" ->
      schema execution_input = [] \/ "BaselineOutputUri" ∈ schema execution_input ->
      image_uris_retrieve region "model-monitor" "latest" = None ->
      create_baseline_step image_uris_retrieve input_data execution_input region role
      = Raise ValueError).
Proof.
  split; [| split].
  - intros b H. pose proof (create_baseline_step_image _ _ _ _ _ _ H) as Himage.
    unfold create_baseline_step in H. do 10 rstep H.
    split; [by eexists |]. split; [done |].
    apply ExecutionInput_getitem_keys. intros k Hk.
    repeat (apply elem_of_cons in Hk as [-> | Hk]; [eauto |]).
    by apply elem_of_nil in Hk.
  - intros e He. unfold create_baseline_step. by rewrite He.
  - intros [uri Huri] Hkey Hnone. unfold create_baseline_step, retrieve.
    rewrite Huri. cbn [mbind result_bind].
    rewrite (proj2 (ExecutionInput_getitem_Ok execution_input "BaselineOutputUri" _)
               (conj Hkey eq_refl)).
    cbn [mbind result_bind]. by rewrite Hnone.
Qed.

(** *** The states and the inputs of the graph *)

Lemma execution_input_schema_getitem k v :
  ExecutionInput_getitem execution_input_schema k = Ok v -> v = ExecutionInputRef [Key k].
Proof. by intros [_ ->]%ExecutionInput_getitem_Ok. Qed.

Section Graph.

Context (py_str : json -> string) (json_loads : string -> option json)
  (json_dumps : json -> string) (definition_to_json : State -> string)
  (image_uris_retrieve : option string -> string -> string -> option string).

Local Abbreviation run_main :=
  (main py_str json_loads json_dumps definition_to_json image_uris_retrieve).
Local Abbreviation run_loads := (loads py_str json_loads image_uris_retrieve).

Lemma loads_state_ids a w L :
  run_loads a w L ->
  state_ids (ld_graph a L)
  = ["Create Experiment"; "SageMaker Jobs"; "Baseline Job"; "Baseline failed";
     "Training Job"; "Training failed"; "Save Model"; "Query Training Results";
     "RMSE < 10"; "Model Error Acceptable"; "Model Error Too Low";
     "SageMaker Jobs failed"].
Proof.
  intros (_ & _ & _ & _ & Hb & Ht). unfold ld_graph.
  apply create_baseline_step_Ok in Hb as (? & ? & ? & ? & ? & ? & ->).
  apply create_training_step_Ok in Ht
    as (? & ? & ? & ? & ? & ? & ? & ? & ? & ? & ? & -> & _).
  reflexivity.
Qed.

Lemma loads_input_keys a w L :
  run_loads a w L ->
  (list_to_set (input_keys (ld_graph a L)) : gset string)
  = list_to_set (schema execution_input_schema).
Proof.
  intros (_ & _ & _ & _ & Hb & Ht). unfold ld_graph.
  unfold create_baseline_step in Hb. do 10 rstep Hb. injection Hb as <-.
  unfold create_training_step in Ht. do 14 rstep Ht. injection Ht as <-.
  repeat match goal with
         | E : ExecutionInput_getitem execution_input_schema _ = Ok _ |- _ =>
             apply execution_input_schema_getitem in E; subst
         end.
  match goal with
  | E : TrainingStep _ _ _ _ _ _ _ = Ok _ |- _ => apply TrainingStep_Ok in E as [_ ->]
  end.
  match goal with
  | E : get_expected_model _ = Ok _ |- _ =>
      cbv [get_expected_model add_catch] in E; injection E as <-
  end.
  match goal with
  | |- list_to_set ?l = _ => let keys := eval vm_compute in l in change l with keys
  end.
  apply set_eq. intros k. rewrite !elem_of_list_to_set. unfold execution_input_schema, schema.
  rewrite !elem_of_cons, !elem_of_nil. tauto.
Qed.

(** X13: the states of every graph [main] pushes are these twelve, no id
    twice. *)
Theorem workflow_states_are_distinct a w r w' arn g :
  run_main a w = (r, w') ->
  EvUpdate arn g ∈ new_events w w' ->
  state_ids g
  = ["Create Experiment"; "SageMaker Jobs"; "Baseline Job"; "Baseline failed";
     "Training Job"; "Training failed"; "Save Model"; "Query Training Results";
     "RMSE < 10"; "Model Error Acceptable"; "Model Error Too Low";
     "SageMaker Jobs failed"]
  /\ NoDup (state_ids g).
Proof.
  intros Hrun Hin.
  destruct (main_update_graph _ _ _ _ _ _ _ _ _ _ _ Hrun Hin) as (L & HL & _ & ->).
  rewrite (loads_state_ids _ _ _ HL). split; [reflexivity |].
  apply (bool_decide_unpack _). by vm_compute.
Qed.

(** The four artifacts a run leaves behind. *)
Lemma artifacts_written a image_uri job_id git_commit_id data_verison_id graph
    (f : gmap string string) :
  let l := artifacts json_dumps definition_to_json a image_uri job_id git_commit_id
             data_verison_id graph in
  Forall (fun pt => write_all l f !! pt.1 = Some pt.2) l.
Proof.
  cbv zeta. unfold write_all, artifacts. cbn [foldl fst snd].
  repeat constructor; cbn [fst snd];
    rewrite ?lookup_insert_ne by (intros [=]%os_path_join_inj; done);
    apply lookup_insert_eq.
Qed.

(** X14: the artifacts of a run that returns fit together. The execution id
    of the first stage of the pipeline is the TrainJobId of both parameter
    files and the end of the TrainingJobName in workflow-input.json;
    workflow-graph.json is the serialization of the definition the state
    machine now has; and the image its estimator trains with is the
    ImageRepoUri of both parameter files. *)
Theorem artifacts_fit_together a w w' :
  run_main a w = (Ok tt, w') ->
  exists response stage job_id g e image_uri (inputs dev prd : gmap string json),
    pipelines w !! pipeline_name a = Some response
    /\ stageStates response !! 0 = Some stage
    /\ latestExecution stage = Some job_id
    /\ state_machines w' !! workflow_pipeline_arn a = Some g
    /\ files w' !! os_path_join (output_dir a) "workflow-graph.json"
       = Some (definition_to_json g)
    /\ graph_estimator g = Some e
    /\ est_image_uri e = image_uri
    /\ files w' !! os_path_join (output_dir a) "deploy-model-dev.json"
       = Some (json_dumps (JObj {[ "Parameters" := JObj dev ]}))
    /\ files w' !! os_path_join (output_dir a) "template-model-prd.json"
       = Some (json_dumps (JObj {[ "Parameters" := JObj prd ]}))
    /\ dev !! "ImageRepoUri" = Some image_uri
    /\ prd !! "ImageRepoUri" = Some image_uri
    /\ dev !! "TrainJobId" = Some (JStr job_id)
    /\ prd !! "TrainJobId" = Some (JStr job_id)
    /\ files w' !! os_path_join (output_dir a) "workflow-input.json"
       = Some (json_dumps (JObj inputs))
    /\ inputs !! "TrainingJobName"
       = Some (JStr ("mlops-" +:+ model_name a +:+ "-" +:+ job_id)).
Proof.
  intros (L & HL & _ & _ & _ & Hfiles & _ & Hsm)%main_Ok.
  destruct (loads_estimator _ _ _ _ _ _ HL) as (_ & e & He & Himage & _).
  pose proof HL as (_ & _ & (_ & response & stage & pairs & Hr & Hs & _ & Hexec & _) & _).
  pose proof (artifacts_written a (ld_image_uri L) (ld_job_id L) (ld_git_commit_id L)
                (ld_data_version_id L) (ld_graph a L) (files w)) as Hw.
  cbv zeta in Hw. rewrite <- Hfiles in Hw.
  apply Forall_cons in Hw as [H1 Hw]. apply Forall_cons in Hw as [H2 Hw].
  apply Forall_cons in Hw as [H3 Hw]. apply Forall_cons in Hw as [H4 _].
  cbn [fst snd] in H1, H2, H3, H4.
  exists response, stage, (ld_job_id L), (ld_graph a L), e, (ld_image_uri L),
    (main_workflow_inputs a (ld_job_id L) (ld_git_commit_id L) (ld_data_version_id L)),
    (Parameters (get_dev_params (model_name a) (ld_job_id L) (deploy_role a)
                   (ld_image_uri L) (kms_key_id a))),
    (Parameters (get_prd_params (model_name a) (ld_job_id L) (deploy_role a)
                   (ld_image_uri L) (kms_key_id a))).
  split; [exact Hr |]. split; [exact Hs |]. split; [exact Hexec |].
  split; [rewrite Hsm; apply lookup_insert_eq |].
  repeat (split; [assumption |]).
  unfold get_prd_params, get_dev_params, main_workflow_inputs. cbn [Parameters].
  rewrite !dict_update_lookup.
  repeat split; by simplify_map_eq.
Qed.

(** X15: workflow-input.json gives a value for exactly the execution inputs the
    pushed graph refers to. *)
Theorem workflow_input_matches_graph a w w' :
  run_main a w = (Ok tt, w') ->
  exists g inputs,
    state_machines w' !! workflow_pipeline_arn a = Some g
    /\ files w' !! os_path_join (output_dir a) "workflow-input.json"
       = Some (json_dumps (JObj inputs))
    /\ dom inputs = list_to_set (input_keys g).
Proof.
  intros (L & HL & _ & _ & _ & Hfiles & _ & Hsm)%main_Ok.
  pose proof (artifacts_written a (ld_image_uri L) (ld_job_id L) (ld_git_commit_id L)
                (ld_data_version_id L) (ld_graph a L) (files w)) as Hw.
  cbv zeta in Hw. rewrite <- Hfiles in Hw.
  apply Forall_cons in Hw as [_ Hw]. apply Forall_cons in Hw as [H2 _].
  cbn [fst snd] in H2.
  exists (ld_graph a L),
    (main_workflow_inputs a (ld_job_id L) (ld_git_commit_id L) (ld_data_version_id L)).
  split; [rewrite Hsm; apply lookup_insert_eq |]. split; [exact H2 |].
  rewrite (loads_input_keys _ _ _ HL).
  unfold main_workflow_inputs, execution_input_schema, schema. cbv zeta.
  rewrite !dom_insert_L, dom_singleton_L. cbn [list_to_set]. set_solver.
Qed.

End Graph.

(** *** Running [main] again *)

Lemma not_artifact a d n :
  after_last_sep n = None -> n ∉ artifact_names ->
  os_path_join d n ∉ (os_path_join (output_dir a) <$> artifact_names).
Proof.
  intros Hn Hnot (name & Heq & Hin)%list_elem_of_fmap.
  assert (after_last_sep name = None) as Hname.
  { unfold artifact_names in Hin.
    repeat (apply elem_of_cons in Hin as [-> | Hin]; [reflexivity |]).
    by apply elem_of_nil in Hin. }
  destruct (decide (n = name)) as [-> | Hne]; [done |].
  by apply (os_path_join_names d n (output_dir a) name).
Qed.

Lemma write_all_is_Some l (f : gmap string string) path :
  is_Some (f !! path) -> is_Some (write_all l f !! path).
Proof.
  unfold write_all. revert f. induction l as [| [p t] l IH]; intros f Hf; [done |].
  cbn. apply IH. rewrite lookup_insert. by case_decide.
Qed.

Lemma write_all_again l (f : gmap string string) :
  Forall (fun pt => f !! pt.1 = Some pt.2) l -> write_all l f = f.
Proof.
  unfold write_all. induction 1 as [| [p t] l Hp _ IH]; [done |].
  cbn in *. by rewrite insert_id.
Qed.


Section Again.

Context (py_str : json -> string) (json_loads : string -> option json)
  (json_dumps : json -> string) (definition_to_json : State -> string)
  (image_uris_retrieve : option string -> string -> string -> option string).

Local Abbreviation run_main :=
  (main py_str json_loads json_dumps definition_to_json image_uris_retrieve).
Local Abbreviation run_loads := (loads py_str json_loads image_uris_retrieve).
Local Abbreviation run_outputs := (write_outputs json_dumps definition_to_json).
Local Abbreviation run_artifacts := (artifacts json_dumps definition_to_json).

(** What is loaded in a world is loaded in every world with the same region,
    pipelines and configuration files. *)
Lemma loads_same_configuration a w w' L :
  region_name w' = region_name w ->
  pipelines w' = pipelines w ->
  (forall d n,
     n ∈ ["imageDetail.json"; "inputData.json"; "hyperparameters.json"] ->
     files w' !! os_path_join d n = files w !! os_path_join d n) ->
  path_exists w' (os_path_join (data_dir a) "hyperparameters.json")
  = path_exists w (os_path_join (data_dir a) "hyperparameters.json") ->
  run_loads a w L -> run_loads a w' L.
Proof.
  intros Hregion Hpipelines Hfiles Hexists.
  unfold loads, image_loaded, input_loaded, revision_loaded, hyperparameters_loaded.
  rewrite Hregion, Hpipelines, Hexists.
  rewrite !Hfiles by (repeat constructor). done.
Qed.

(** X16: a run that has returned can be run again: in the world it has left, the
    same call returns and leaves the files, the directories and the state
    machines as the first run has left them, without making a directory.
    This is for a first run that found the output directory or
    hyperparameters.json in place: a first run that makes the output
    directory can make it where the second run looks for hyperparameters.json,
    under that path or another spelling of it. *)
Theorem main_can_run_again a w w' :
  run_main a w = (Ok tt, w') ->
  path_exists w (output_dir a) = true
  \/ path_exists w (os_path_join (data_dir a) "hyperparameters.json") = true ->
  exists w'',
    run_main a w' = (Ok tt, w'')
    /\ files w'' = files w'
    /\ dirs w'' = dirs w'
    /\ state_machines w'' = state_machines w'
    /\ List.filter is_mkdir (new_events w' w'') = [].
Proof.
  intros Hrun Hplace.
  assert (path_exists w (output_dir a) = false ->
          output_dir a <> os_path_join (data_dir a) "hyperparameters.json") as Hne.
  { intros Hout Heq. rewrite <- Heq in Hplace. destruct Hplace; congruence. }
  pose proof Hrun as [Hfail | (L & HL & _ & Haccepts & Hout)]%main_run.
  { destruct Hfail as (e & evs & [=] & _). }
  assert (outputs_writable a (pushed a w (ld_graph a L))) as [Hname Hall].
  { eapply (write_outputs_returns json_dumps definition_to_json). eexists. exact Hout. }
  change (Forall (fun name => os_path_join (output_dir a) name ∉ dirs_with_output a w)
            artifact_names) in Hall.
  pose proof Hout as (_ & _ & _ & _ & _ & Hpipelines & Hregion & Hsfn & _)%write_outputs_frame.
  apply (write_outputs_run json_loads) in Hout. cbv zeta in Hout.
  destruct Hout as (_ & Hfiles & Hdirs & Hsm).
  unfold pushed in Hfiles, Hdirs, Hsm, Hpipelines, Hregion, Hsfn.
  cbn [files dirs log pipelines state_machines region_name sfn_accepts definition
       with_log with_state_machines] in Hfiles, Hdirs, Hsm, Hpipelines, Hregion, Hsfn.
  change (path_exists _ (output_dir a)) with (path_exists w (output_dir a)) in Hdirs.
  set (l := run_artifacts a (ld_image_uri L) (ld_job_id L) (ld_git_commit_id L)
              (ld_data_version_id L) (ld_graph a L)) in *.
  assert (forall d n,
            n ∈ ["imageDetail.json"; "inputData.json"; "hyperparameters.json"] ->
            files w' !! os_path_join d n = files w !! os_path_join d n) as Hconf.
  { intros d n Hn. rewrite Hfiles. apply write_all_other.
    change (l.*1) with (os_path_join (output_dir a) <$> artifact_names).
    apply not_artifact.
    - repeat (apply elem_of_cons in Hn as [-> | Hn]; [reflexivity |]).
      by apply elem_of_nil in Hn.
    - repeat (apply elem_of_cons in Hn as [-> | Hn];
              [by apply (bool_decide_unpack _) |]).
      by apply elem_of_nil in Hn. }
  assert (path_exists w' (output_dir a) = true) as Hthere.
  { unfold path_exists. rewrite (bool_decide_eq_false_2 (output_dir a = "")) by done.
    cbn [negb andb]. destruct (path_exists w (output_dir a)) eqn:He.
    - unfold path_exists in He.
      rewrite (bool_decide_eq_false_2 (output_dir a = "")) in He by done.
      cbn [negb andb] in He. apply orb_true_iff in He as [He | He].
      + apply bool_decide_eq_true in He. apply orb_true_iff. left.
        apply bool_decide_eq_true. rewrite Hfiles. by apply write_all_is_Some.
      + apply orb_true_iff. right. by rewrite Hdirs.
    - apply orb_true_iff. right. apply bool_decide_eq_true. rewrite Hdirs.
      by apply elem_of_union_l, elem_of_singleton. }
  assert (dirs w' = dirs_with_output a w) as Hdirs' by exact Hdirs.
  assert (run_loads a w' L) as HL'.
  { apply (loads_same_configuration a w); [done | done | exact Hconf | | exact HL].
    unfold path_exists. rewrite Hconf by (repeat constructor).
    do 2 f_equal. apply bool_decide_ext. rewrite Hdirs.
    destruct (path_exists w (output_dir a)); [done |].
    rewrite elem_of_union, elem_of_singleton. split; [| by right].
    intros [Heq | Hin]; [by destruct (Hne eq_refl) | done]. }
  assert (state_machines w' !! workflow_pipeline_arn a = Some (ld_graph a L)) as Hmachine
    by (rewrite Hsm; apply lookup_insert_eq).
  rewrite (main_loaded _ _ _ _ _ _ _ _ HL'), Hmachine, Hsfn, Haccepts.
  assert (outputs_writable a (pushed a w' (ld_graph a L))) as Hw.
  { split; [done |]. unfold dirs_with_output.
    change (path_exists (pushed a w' (ld_graph a L)) (output_dir a))
      with (path_exists w' (output_dir a)).
    rewrite Hthere. change (dirs (pushed a w' (ld_graph a L))) with (dirs w').
    by rewrite Hdirs'. }
  apply (write_outputs_returns json_dumps definition_to_json a (ld_image_uri L)
           (ld_job_id L) (ld_git_commit_id L) (ld_data_version_id L)
           {| state_machine_arn := workflow_pipeline_arn a; definition := ld_graph a L |})
    in Hw as [w'' Hagain].
  exists w''. split; [exact Hagain |].
  apply (write_outputs_run json_loads) in Hagain. cbv zeta in Hagain.
  destruct Hagain as (Hlog2 & Hfiles2 & Hdirs2 & Hsm2).
  unfold pushed in Hlog2, Hfiles2, Hdirs2, Hsm2.
  cbn [files dirs log pipelines state_machines region_name sfn_accepts definition
       with_log with_state_machines] in Hlog2, Hfiles2, Hdirs2, Hsm2.
  change (path_exists _ (output_dir a)) with (path_exists w' (output_dir a)) in Hdirs2.
  rewrite Hthere in Hdirs2.
  split; [| split; [exact Hdirs2 | split]].
  - rewrite Hfiles2. fold l. rewrite Hfiles. apply write_all_again.
    apply (artifacts_written json_dumps definition_to_json).
  - rewrite Hsm2, Hsm. apply insert_insert_eq.
  - rewrite <- !app_assoc in Hlog2. rewrite (new_events_app _ _ _ Hlog2).
    rewrite !List.filter_app.
    destruct (front_trace_kinds a w') as (_ & Hm & _). rewrite Hm.
    unfold output_trace, mkdir_trace.
    change (path_exists _ (output_dir a)) with (path_exists w' (output_dir a)).
    rewrite Hthere. cbn [app List.filter is_mkdir].
    destruct (write_events_kinds l) as (_ & Hmk & _). fold l. apply Hmk.
Qed.

End Again.


(** *** The arguments the graph depends on *)

Section Arguments.

Context (py_str : json -> string) (json_loads : string -> option json)
  (json_dumps : json -> string) (definition_to_json : State -> string)
  (image_uris_retrieve : option string -> string -> string -> option string).

Local Abbreviation run_main :=
  (main py_str json_loads json_dumps definition_to_json image_uris_retrieve).
Local Abbreviation run_loads := (loads py_str json_loads image_uris_retrieve).

Lemma loads_graph_arguments a1 a2 w1 w2 L1 L2 :
  same_graph_arguments a1 a2 ->
  region_name w1 = region_name w2 -> files w1 = files w2 -> dirs w1 = dirs w2 ->
  run_loads a1 w1 L1 -> run_loads a2 w2 L2 ->
  ld_graph a1 L1 = ld_graph a2 L2.
Proof.
  intros (Hdata & Hecr & Hrole & Hbucket & Hmodel & Hexp & Hquery) Hregion Hfiles Hdirs
    (Hi1 & Hd1 & _ & Hh1 & Hb1 & Ht1) (Hi2 & Hd2 & _ & Hh2 & Hb2 & Ht2).
  assert (ld_image_uri L1 = ld_image_uri L2) as Himage.
  { unfold image_loaded in Hi1, Hi2. rewrite Hfiles, Hregion, Hecr in Hi1.
    destruct (truthy (ecr_dir a2)).
    - destruct Hi1 as (text & d & Hf & Hd & Hk), Hi2 as (text' & d' & Hf' & Hd' & Hk').
      congruence.
    - destruct Hi1 as (uri & Hu & ->), Hi2 as (uri' & Hu' & ->). congruence. }
  assert (ld_input_data L1 = ld_input_data L2) as Hinput.
  { destruct Hd1 as (text & Hf & Hd & _), Hd2 as (text' & Hf' & Hd' & _).
    rewrite Hfiles, Hdata in Hf. congruence. }
  assert (ld_hyperparameters L1 = ld_hyperparameters L2) as Hhyper.
  { unfold hyperparameters_loaded, path_exists in Hh1, Hh2.
    rewrite Hfiles, Hdirs, Hdata in Hh1.
    destruct (negb _ && _).
    - destruct Hh1 as (text & d & Hf & Hd & Hs), Hh2 as (text' & d' & Hf' & Hd' & Hs').
      congruence.
    - congruence. }
  unfold ld_graph. rewrite Hexp. f_equal.
  - rewrite Hregion, Hinput, Hrole in Hb1. congruence.
  - rewrite Hregion, Hinput, Himage, Hhyper, Hrole, Hquery in Ht1.
    rewrite (create_training_step_output_data _ _ _ _ (main_output_data a2 (ld_job_id L2)))
      in Ht1; [congruence |].
    unfold main_output_data. rewrite !lookup_insert_eq. by rewrite Hbucket, Hmodel.
Qed.

(** X17: the graph [main] pushes depends on its arguments only through
    [data_dir], [ecr_dir], [sagemaker_role], [sagemaker_bucket], [model_name]
    and the names of the two functions: two runs whose arguments agree on
    these, in worlds with the same region, files and directories, push the
    same graph, whatever the branch, the pipeline, the deploy role, the output
    directory, the key and the state machine are. *)
Theorem graph_ignores_other_arguments a1 a2 w1 w2 r1 r2 w1' w2' arn1 arn2 g1 g2 :
  same_graph_arguments a1 a2 ->
  region_name w1 = region_name w2 -> files w1 = files w2 -> dirs w1 = dirs w2 ->
  run_main a1 w1 = (r1, w1') -> run_main a2 w2 = (r2, w2') ->
  EvUpdate arn1 g1 ∈ new_events w1 w1' -> EvUpdate arn2 g2 ∈ new_events w2 w2' ->
  g1 = g2.
Proof.
  intros Hargs Hregion Hfiles Hdirs Hrun1 Hrun2 Hin1 Hin2.
  destruct (main_update_graph _ _ _ _ _ _ _ _ _ _ _ Hrun1 Hin1) as (L1 & HL1 & _ & ->).
  destruct (main_update_graph _ _ _ _ _ _ _ _ _ _ _ Hrun2 Hin2) as (L2 & HL2 & _ & ->).
  by eapply loads_graph_arguments.
Qed.

End Arguments.

(** *** The further properties on sample runs *)

Lemma cases_blocked_run :
  Sample.run Sample.args Cases.blocked_world
  = (Raise (IsADirectoryError "out/deploy-model-dev.json"), Cases.after Cases.blocked_world).
Proof. vm_compute. reflexivity. Qed.

Lemma cases_blocked_update :
  EvUpdate "arn:wf" Sample.graph
    ∈ new_events Cases.blocked_world (Cases.after Cases.blocked_world).
Proof. apply (list_elem_of_lookup_2 _ 5). vm_compute. reflexivity. Qed.

Lemma cases_no_revision_run :
  Sample.run Sample.args (Cases.with_pipeline (Some Cases.no_revision))
  = (Raise (KeyError "currentRevision"),
     Cases.after (Cases.with_pipeline (Some Cases.no_revision))).
Proof. vm_compute. reflexivity. Qed.

Lemma cases_list_run : Cases.list_run = (Raise TypeError, Cases.list_run.2).
Proof. vm_compute. reflexivity. Qed.

Lemma cases_no_region_run :
  Sample.run Sample.args Cases.no_region_world
  = (Raise ValueError, Cases.after Cases.no_region_world).
Proof. vm_compute. reflexivity. Qed.

Lemma cases_no_machine_run :
  Sample.run Sample.args Cases.no_machine_world
  = (Raise (ClientError "DescribeStateMachine"), Cases.after Cases.no_machine_world).
Proof. vm_compute. reflexivity. Qed.

Lemma cases_twice_run :
  get_pipeline_revision "pipe" (Cases.with_pipeline (Some Cases.twice))
  = (Ok Cases.twice_revision,
     record (EvGetPipelineState "pipe") (Cases.with_pipeline (Some Cases.twice))).
Proof. vm_compute. reflexivity. Qed.

Lemma cases_other_args_run :
  Sample.run Cases.other_args Sample.other_world
  = (Raise (ClientError "UpdateStateMachine"), Cases.other_args_final).
Proof. vm_compute. reflexivity. Qed.

Lemma cases_other_args_update :
  EvUpdate "arn:wf" Cases.other_args_graph
    ∈ new_events Sample.other_world Cases.other_args_final.
Proof. apply (list_elem_of_lookup_2 _ 5). vm_compute. reflexivity. Qed.

Ltac all_there :=
  repeat first [ apply Forall_nil_2 | apply Forall_cons_2; [by eexists |] ].

Ltac all_in :=
  repeat first [ apply Forall_nil_2
               | apply Forall_cons_2; [apply (bool_decide_unpack _); by vm_compute |] ].

Lemma get_pipeline_revision_outcome_witness :
  get_pipeline_revision "pipe" Cases.no_region_world
  = (Raise NoRegionError, Cases.no_region_world)
  /\ get_pipeline_revision "pipe" (Cases.with_pipeline None)
     = (Raise (ClientError "GetPipelineState"),
        record (EvGetPipelineState "pipe") (Cases.with_pipeline None))
  /\ get_pipeline_revision "pipe" (Cases.with_pipeline (Some Cases.no_stage))
     = (Raise IndexError,
        record (EvGetPipelineState "pipe") (Cases.with_pipeline (Some Cases.no_stage)))
  /\ get_pipeline_revision "pipe" (Cases.with_pipeline (Some Cases.no_revision))
     = (Raise (KeyError "currentRevision"),
        record (EvGetPipelineState "pipe") (Cases.with_pipeline (Some Cases.no_revision)))
  /\ get_pipeline_revision "pipe" (Cases.with_pipeline (Some Cases.no_execution))
     = (Raise (KeyError "latestExecution"),
        record (EvGetPipelineState "pipe") (Cases.with_pipeline (Some Cases.no_execution)))
  /\ exists rev,
       get_pipeline_revision "pipe" Sample.world
       = (Ok rev, record (EvGetPipelineState "pipe") Sample.world)
       /\ rev !! "JobId" = Some "exec-1".
Proof.
  assert (forall p, is_Some (region_name (Cases.with_pipeline p))) as Hregion
    by (intros p; by eexists).
  split; [| split; [| split; [| split; [| split]]]].
  - apply (get_pipeline_revision_outcome "pipe" Cases.no_region_world). reflexivity.
  - apply (get_pipeline_revision_outcome "pipe" (Cases.with_pipeline None));
      [apply Hregion |]. vm_compute. reflexivity.
  - destruct (get_pipeline_revision_outcome "pipe"
                (Cases.with_pipeline (Some Cases.no_stage))) as [_ H].
    destruct (H (Hregion _)) as (_ & H' & _).
    apply (H' Cases.no_stage); [vm_compute |]; reflexivity.
  - destruct (get_pipeline_revision_outcome "pipe"
                (Cases.with_pipeline (Some Cases.no_revision))) as [_ H].
    destruct (H (Hregion _)) as (_ & _ & H' & _).
    eapply (H' Cases.no_revision); [vm_compute; reflexivity | reflexivity |].
    do 2 apply Exists_cons_tl. apply Exists_cons_hd. reflexivity.
  - destruct (get_pipeline_revision_outcome "pipe"
                (Cases.with_pipeline (Some Cases.no_execution))) as [_ H].
    destruct (H (Hregion _)) as (_ & _ & _ & H' & _).
    eapply (H' Cases.no_execution); [vm_compute; reflexivity | reflexivity | | reflexivity].
    all_there.
  - destruct (get_pipeline_revision_outcome "pipe" Sample.world) as [_ H].
    destruct (H (ex_intro _ "eu-west-1" eq_refl)) as (_ & _ & _ & _ & H').
    eapply (H' Sample.pipeline); [vm_compute; reflexivity | reflexivity | | reflexivity].
    all_there.
Defined.

Lemma get_pipeline_revision_lookup_witness :
  get_pipeline_revision "pipe" (Cases.with_pipeline (Some Cases.twice))
  = (Ok Cases.twice_revision,
     record (EvGetPipelineState "pipe") (Cases.with_pipeline (Some Cases.twice)))
  /\ exists response stage execution_id,
       pipelines (Cases.with_pipeline (Some Cases.twice)) !! "pipe" = Some response
       /\ stageStates response !! 0 = Some stage
       /\ latestExecution stage = Some execution_id
       /\ Cases.twice_revision !! "JobId" = Some execution_id
       /\ dom Cases.twice_revision
          = {["JobId"]} ∪ list_to_set (actionName <$> actionStates stage)
       /\ forall pre r post,
            actionStates stage = pre ++ r :: post ->
            actionName r ∉ actionName <$> post ->
            actionName r <> "JobId" ->
            Cases.twice_revision !! actionName r = currentRevision r.
Proof.
  pose proof cases_twice_run as Hrun.
  split; [exact Hrun |].
  exact (get_pipeline_revision_lookup "pipe" _ _ _ Hrun).
Defined.

Lemma create_training_step_requirements_witness :
  (is_Some (({[ "ModelOutputUri" := "s3://bucket/nyctaxi/model" ]} : gmap string string)
              !! "ModelOutputUri")
   /\ "role/sm" <> ""
   /\ ({[ "eta" := "0.3" ]} : gmap string string) !! "self" = None
   /\ has_key Sample.input_doc "TrainingUri"
   /\ has_key Sample.input_doc "ValidationUri"
   /\ (schema execution_input_schema = []
       \/ Forall (fun k => k ∈ schema execution_input_schema)
            ["TrainingJobName"; "ExperimentName"; "TrialName"; "GitBranch";
             "GitCommitHash"; "DataVersionId"])
   /\ exists uri, JStr "repo/image:1" = JStr uri)
  /\ create_training_step (JStr "repo/image:1") {[ "eta" := "0.3" ]} Sample.input_doc
       ∅ execution_input_schema "fn-query" (Some "eu-west-1") "role/sm"
     = Raise (KeyError "ModelOutputUri")
  /\ create_training_step (JStr "repo/image:1") {[ "eta" := "0.3" ]} Sample.input_doc
       {[ "ModelOutputUri" := "s3://bucket/nyctaxi/model" ]} execution_input_schema
       "fn-query" (Some "eu-west-1") "" = Raise ValueError
  /\ create_training_step (JStr "repo/image:1") {[ "self" := "me" ]} Sample.input_doc
       {[ "ModelOutputUri" := "s3://bucket/nyctaxi/model" ]} execution_input_schema
       "fn-query" (Some "eu-west-1") "role/sm" = Raise TypeError
  /\ create_training_step (JNum 5) {[ "eta" := "0.3" ]} Sample.input_doc
       {[ "ModelOutputUri" := "s3://bucket/nyctaxi/model" ]} {| schema := [] |}
       "fn-query" (Some "eu-west-1") "role/sm" = Raise TypeError.
Proof.
  assert (is_Some (({[ "ModelOutputUri" := "s3://bucket/nyctaxi/model" ]}
                      : gmap string string) !! "ModelOutputUri")) as Hout by (by eexists).
  assert (create_training_step (JStr "repo/image:1") {[ "eta" := "0.3" ]} Sample.input_doc
            {[ "ModelOutputUri" := "s3://bucket/nyctaxi/model" ]} execution_input_schema
            "fn-query" (Some "eu-west-1") "role/sm" = Ok Sample.training_chain) as Hchain
    by (vm_compute; reflexivity).
  split; [| split; [| split; [| split]]].
  - exact (proj1 (create_training_step_requirements _ _ _ _ _ _ _ _) _ Hchain).
  - apply (create_training_step_requirements (JStr "repo/image:1") {[ "eta" := "0.3" ]}
             Sample.input_doc ∅ execution_input_schema "fn-query" (Some "eu-west-1")
             "role/sm").
    reflexivity.
  - apply (create_training_step_requirements (JStr "repo/image:1") {[ "eta" := "0.3" ]}
             Sample.input_doc {[ "ModelOutputUri" := "s3://bucket/nyctaxi/model" ]}
             execution_input_schema "fn-query" (Some "eu-west-1") "");
      [exact Hout | reflexivity].
  - destruct (create_training_step_requirements (JStr "repo/image:1") {[ "self" := "me" ]}
                Sample.input_doc {[ "ModelOutputUri" := "s3://bucket/nyctaxi/model" ]}
                execution_input_schema "fn-query" (Some "eu-west-1") "role/sm")
      as (_ & _ & _ & H & _).
    apply H; [exact Hout | done | by eexists].
  - destruct (create_training_step_requirements (JNum 5) {[ "eta" := "0.3" ]}
                Sample.input_doc {[ "ModelOutputUri" := "s3://bucket/nyctaxi/model" ]}
                {| schema := [] |} "fn-query" (Some "eu-west-1") "role/sm")
      as (_ & _ & _ & _ & H).
    apply H; [exact Hout | done | reflexivity | by eexists | by eexists | by left
             | intros uri; discriminate].
Defined.

Lemma create_baseline_step_requirements_witness :
  (exists b,
     create_baseline_step Sample.image_uris_retrieve Sample.input_doc
       execution_input_schema (Some "eu-west-1") "role/sm" = Ok b
     /\ has_key Sample.input_doc "BaselineUri"
     /\ is_Some (Sample.image_uris_retrieve (Some "eu-west-1") "model-monitor" "latest")
     /\ (schema execution_input_schema = []
         \/ Forall (fun k => k ∈ schema execution_input_schema)
              ["BaselineOutputUri"; "BaselineJobName"; "ExperimentName"; "TrialName";
               "GitBranch"; "GitCommitHash"; "DataVersionId"]))
  /\ create_baseline_step Sample.image_uris_retrieve (JObj ∅)
       execution_input_schema (Some "eu-west-1") "role/sm" = Raise (KeyError "BaselineUri")
  /\ create_baseline_step Sample.image_uris_retrieve Sample.input_doc
       execution_input_schema None "role/sm" = Raise ValueError.
Proof.
  split; [| split].
  - destruct (create_baseline_step Sample.image_uris_retrieve Sample.input_doc
                execution_input_schema (Some "eu-west-1") "role/sm") as [b | e] eqn:Hb.
    + exists b. split; [reflexivity |].
      exact (proj1 (create_baseline_step_requirements _ _ _ _ _) b Hb).
    + vm_compute in Hb. discriminate.
  - apply (create_baseline_step_requirements Sample.image_uris_retrieve (JObj ∅)
             execution_input_schema (Some "eu-west-1") "role/sm").
    reflexivity.
  - apply (create_baseline_step_requirements Sample.image_uris_retrieve Sample.input_doc
             execution_input_schema None "role/sm");
      [by eexists | right; apply (bool_decide_unpack _); by vm_compute | reflexivity].
Defined.

Lemma main_returns_only_if_witness :
  Sample.run Sample.args Sample.world = (Ok tt, Sample.final)
  /\ is_Some (region_name Sample.world)
  /\ sagemaker_role Sample.args <> ""
  /\ exists L,
       loads Sample.py_str Sample.json_loads Sample.image_uris_retrieve
         Sample.args Sample.world L
       /\ (exists uri, ld_image_uri L = JStr uri)
       /\ ld_hyperparameters L !! "self" = None
       /\ is_Some (state_machines Sample.world !! workflow_pipeline_arn Sample.args)
       /\ sfn_accepts Sample.world (workflow_pipeline_arn Sample.args)
            (ld_graph Sample.args L) = true
       /\ outputs_writable Sample.args Sample.world.
Proof.
  pose proof sample_run as Hrun.
  split; [exact Hrun |].
  exact (main_returns_only_if Sample.py_str Sample.json_loads Sample.json_dumps
           Sample.definition_to_json Sample.image_uris_retrieve
           Sample.args Sample.world Sample.final Hrun).
Defined.

Lemma main_changes_only_its_outputs_witness :
  Sample.run Sample.args Cases.blocked_world
  = (Raise (IsADirectoryError "out/deploy-model-dev.json"), Cases.after Cases.blocked_world)
  /\ (forall path,
        path ∉ (os_path_join (output_dir Sample.args) <$> artifact_names) ->
        files (Cases.after Cases.blocked_world) !! path = files Cases.blocked_world !! path)
  /\ (dirs (Cases.after Cases.blocked_world) = dirs Cases.blocked_world
      \/ dirs (Cases.after Cases.blocked_world)
         = {[output_dir Sample.args]} ∪ dirs Cases.blocked_world)
  /\ (forall arn,
        arn <> workflow_pipeline_arn Sample.args ->
        state_machines (Cases.after Cases.blocked_world) !! arn
        = state_machines Cases.blocked_world !! arn)
  /\ pipelines (Cases.after Cases.blocked_world) = pipelines Cases.blocked_world
  /\ region_name (Cases.after Cases.blocked_world) = region_name Cases.blocked_world
  /\ exists evs, log (Cases.after Cases.blocked_world) = log Cases.blocked_world ++ evs.
Proof.
  pose proof cases_blocked_run as Hrun.
  split; [exact Hrun |].
  exact (main_changes_only_its_outputs Sample.py_str Sample.json_loads Sample.json_dumps
           Sample.definition_to_json Sample.image_uris_retrieve
           Sample.args Cases.blocked_world _ _ Hrun).
Defined.

Lemma main_update_is_kept_witness :
  (Sample.run Sample.args Cases.blocked_world
   = (Raise (IsADirectoryError "out/deploy-model-dev.json"), Cases.after Cases.blocked_world)
   /\ EvUpdate "arn:wf" Sample.graph
        ∈ new_events Cases.blocked_world (Cases.after Cases.blocked_world)
   /\ state_machines (Cases.after Cases.blocked_world) !! "arn:wf" = Some Sample.graph)
  /\ (EvUpdate "arn:wf" Sample.other_graph
        ∈ new_events Sample.other_world Sample.other_final
      /\ state_machines Sample.other_final = state_machines Sample.other_world
      /\ files Sample.other_final = files Sample.other_world
      /\ dirs Sample.other_final = dirs Sample.other_world).
Proof.
  pose proof cases_blocked_run as Hrun.
  pose proof cases_blocked_update as Hin.
  pose proof sample_other_run as Hrun'.
  pose proof sample_other_update as Hin'.
  split.
  - split; [exact Hrun |]. split; [exact Hin |].
    exact (main_update_is_kept Sample.py_str Sample.json_loads Sample.json_dumps
             Sample.definition_to_json Sample.image_uris_retrieve
             Sample.args Cases.blocked_world _ _ "arn:wf" Sample.graph Hrun Hin).
  - split; [exact Hin' |].
    exact (proj2 (main_update_is_kept Sample.py_str Sample.json_loads Sample.json_dumps
                    Sample.definition_to_json Sample.image_uris_retrieve
                    Sample.args Sample.other_world _ _ "arn:wf" Sample.other_graph
                    Hrun' Hin')).
Defined.

Lemma main_failure_modes_witness :
  Sample.run Sample.args Cases.blocked_world
  = (Raise (IsADirectoryError "out/deploy-model-dev.json"), Cases.after Cases.blocked_world)
  /\ (nothing_done Cases.blocked_world (Cases.after Cases.blocked_world)
      \/ (exists L,
            loads Sample.py_str Sample.json_loads Sample.image_uris_retrieve
              Sample.args Cases.blocked_world L
            /\ sfn_accepts Cases.blocked_world (workflow_pipeline_arn Sample.args)
                 (ld_graph Sample.args L) = false
            /\ IsADirectoryError "out/deploy-model-dev.json"
               = ClientError "UpdateStateMachine"
            /\ Cases.after Cases.blocked_world
               = with_log Cases.blocked_world
                   (log Cases.blocked_world ++ front_trace Sample.args Cases.blocked_world
                    ++ [EvUpdate (workflow_pipeline_arn Sample.args)
                          (ld_graph Sample.args L)]))
      \/ (exists L written,
            loads Sample.py_str Sample.json_loads Sample.image_uris_retrieve
              Sample.args Cases.blocked_world L
            /\ sfn_accepts Cases.blocked_world (workflow_pipeline_arn Sample.args)
                 (ld_graph Sample.args L) = true
            /\ os_error (IsADirectoryError "out/deploy-model-dev.json")
            /\ state_machines (Cases.after Cases.blocked_world)
               = <[workflow_pipeline_arn Sample.args := ld_graph Sample.args L]>
                   (state_machines Cases.blocked_world)
            /\ written `prefix_of` artifacts Sample.json_dumps Sample.definition_to_json
                                     Sample.args (ld_image_uri L) (ld_job_id L)
                                     (ld_git_commit_id L) (ld_data_version_id L)
                                     (ld_graph Sample.args L)
            /\ length written < 4
            /\ files (Cases.after Cases.blocked_world)
               = write_all written (files Cases.blocked_world))).
Proof.
  pose proof cases_blocked_run as Hrun.
  split; [exact Hrun |].
  exact (main_failure_modes Sample.py_str Sample.json_loads Sample.json_dumps
           Sample.definition_to_json Sample.image_uris_retrieve
           Sample.args Cases.blocked_world _ _ Hrun).
Defined.

Lemma main_needs_pipeline_state_witness :
  Sample.run Sample.args (Cases.with_pipeline (Some Cases.no_revision))
  = (Raise (KeyError "currentRevision"),
     Cases.after (Cases.with_pipeline (Some Cases.no_revision)))
  /\ pipeline_defect Sample.args (Cases.with_pipeline (Some Cases.no_revision))
  /\ (exists e, Raise (KeyError "currentRevision") = @Raise unit e)
  /\ nothing_done (Cases.with_pipeline (Some Cases.no_revision))
       (Cases.after (Cases.with_pipeline (Some Cases.no_revision))).
Proof.
  pose proof cases_no_revision_run as Hrun.
  assert (pipeline_defect Sample.args (Cases.with_pipeline (Some Cases.no_revision)))
    as Hdefect.
  { right. exists Cases.no_revision. split; [vm_compute; reflexivity |].
    right. eexists _, _. split; [reflexivity |]. left.
    do 2 apply Exists_cons_tl. apply Exists_cons_hd. reflexivity. }
  split; [exact Hrun |]. split; [exact Hdefect |].
  exact (main_needs_pipeline_state Sample.py_str Sample.json_loads Sample.json_dumps
           Sample.definition_to_json Sample.image_uris_retrieve
           Sample.args _ _ _ Hrun Hdefect).
Defined.

Lemma main_needs_hyperparameters_object_witness :
  Cases.list_run = (Raise TypeError, Cases.list_run.2)
  /\ hyperparameters_defect Cases.json_loads Sample.args Cases.list_world
  /\ (exists e, Raise TypeError = @Raise unit e)
  /\ nothing_done Cases.list_world Cases.list_run.2.
Proof.
  pose proof cases_list_run as Hrun.
  assert (hyperparameters_defect Cases.json_loads Sample.args Cases.list_world) as Hdefect.
  { split; [vm_compute; reflexivity |]. right. exists "LIST".
    split; [vm_compute; reflexivity |]. right. eexists.
    split; [vm_compute; reflexivity |]. intros [m Hm]. discriminate. }
  split; [exact Hrun |]. split; [exact Hdefect |].
  exact (main_needs_hyperparameters_object Sample.py_str Cases.json_loads Sample.json_dumps
           Sample.definition_to_json Sample.image_uris_retrieve
           Sample.args Cases.list_world _ _ Hrun Hdefect).
Defined.

Lemma main_needs_images_witness :
  Sample.run Sample.args Cases.no_region_world
  = (Raise ValueError, Cases.after Cases.no_region_world)
  /\ image_defect Sample.json_loads Sample.image_uris_retrieve Sample.args
       Cases.no_region_world
  /\ (exists e, Raise ValueError = @Raise unit e)
  /\ nothing_done Cases.no_region_world (Cases.after Cases.no_region_world).
Proof.
  pose proof cases_no_region_run as Hrun.
  assert (image_defect Sample.json_loads Sample.image_uris_retrieve Sample.args
            Cases.no_region_world) as Hdefect.
  { right. left. split; reflexivity. }
  split; [exact Hrun |]. split; [exact Hdefect |].
  exact (main_needs_images Sample.py_str Sample.json_loads Sample.json_dumps
           Sample.definition_to_json Sample.image_uris_retrieve
           Sample.args _ _ _ Hrun Hdefect).
Defined.

Lemma main_needs_state_machine_witness :
  Sample.run Sample.args Cases.no_machine_world
  = (Raise (ClientError "DescribeStateMachine"), Cases.after Cases.no_machine_world)
  /\ state_machines Cases.no_machine_world !! workflow_pipeline_arn Sample.args = None
  /\ (exists e, Raise (ClientError "DescribeStateMachine") = @Raise unit e)
  /\ nothing_done Cases.no_machine_world (Cases.after Cases.no_machine_world).
Proof.
  pose proof cases_no_machine_run as Hrun.
  assert (state_machines Cases.no_machine_world !! workflow_pipeline_arn Sample.args = None)
    as Hnone by reflexivity.
  split; [exact Hrun |]. split; [exact Hnone |].
  exact (main_needs_state_machine Sample.py_str Sample.json_loads Sample.json_dumps
           Sample.definition_to_json Sample.image_uris_retrieve
           Sample.args _ _ _ Hrun Hnone).
Defined.

Lemma workflow_states_are_distinct_witness :
  EvUpdate "arn:wf" Sample.graph ∈ new_events Sample.world Sample.final
  /\ state_ids Sample.graph
     = ["Create Experiment"; "SageMaker Jobs"; "Baseline Job"; "Baseline failed";
        "Training Job"; "Training failed"; "Save Model"; "Query Training Results";
        "RMSE < 10"; "Model Error Acceptable"; "Model Error Too Low";
        "SageMaker Jobs failed"]
  /\ NoDup (state_ids Sample.graph).
Proof.
  pose proof sample_run as Hrun.
  pose proof sample_update as Hin.
  split; [exact Hin |].
  exact (workflow_states_are_distinct Sample.py_str Sample.json_loads Sample.json_dumps
           Sample.definition_to_json Sample.image_uris_retrieve
           Sample.args Sample.world _ _ "arn:wf" Sample.graph Hrun Hin).
Defined.

Lemma artifacts_fit_together_witness :
  Sample.run Sample.args Sample.world = (Ok tt, Sample.final)
  /\ exists response stage job_id g e image_uri (inputs dev prd : gmap string json),
       pipelines Sample.world !! pipeline_name Sample.args = Some response
       /\ stageStates response !! 0 = Some stage
       /\ latestExecution stage = Some job_id
       /\ state_machines Sample.final !! workflow_pipeline_arn Sample.args = Some g
       /\ files Sample.final !! os_path_join (output_dir Sample.args) "workflow-graph.json"
          = Some (Sample.definition_to_json g)
       /\ graph_estimator g = Some e
       /\ est_image_uri e = image_uri
       /\ files Sample.final !! os_path_join (output_dir Sample.args) "deploy-model-dev.json"
          = Some (Sample.json_dumps (JObj {[ "Parameters" := JObj dev ]}))
       /\ files Sample.final
            !! os_path_join (output_dir Sample.args) "template-model-prd.json"
          = Some (Sample.json_dumps (JObj {[ "Parameters" := JObj prd ]}))
       /\ dev !! "ImageRepoUri" = Some image_uri
       /\ prd !! "ImageRepoUri" = Some image_uri
       /\ dev !! "TrainJobId" = Some (JStr job_id)
       /\ prd !! "TrainJobId" = Some (JStr job_id)
       /\ files Sample.final !! os_path_join (output_dir Sample.args) "workflow-input.json"
          = Some (Sample.json_dumps (JObj inputs))
       /\ inputs !! "TrainingJobName"
          = Some (JStr ("mlops-" +:+ model_name Sample.args +:+ "-" +:+ job_id)).
Proof.
  pose proof sample_run as Hrun.
  split; [exact Hrun |].
  exact (artifacts_fit_together Sample.py_str Sample.json_loads Sample.json_dumps
           Sample.definition_to_json Sample.image_uris_retrieve
           Sample.args Sample.world Sample.final Hrun).
Defined.

Lemma workflow_input_matches_graph_witness :
  Sample.run Sample.args Sample.world = (Ok tt, Sample.final)
  /\ exists g inputs,
       state_machines Sample.final !! workflow_pipeline_arn Sample.args = Some g
       /\ files Sample.final !! os_path_join (output_dir Sample.args) "workflow-input.json"
          = Some (Sample.json_dumps (JObj inputs))
       /\ dom inputs = list_to_set (input_keys g).
Proof.
  pose proof sample_run as Hrun.
  split; [exact Hrun |].
  exact (workflow_input_matches_graph Sample.py_str Sample.json_loads Sample.json_dumps
           Sample.definition_to_json Sample.image_uris_retrieve
           Sample.args Sample.world Sample.final Hrun).
Defined.

Lemma main_can_run_again_witness :
  Sample.run Sample.args Sample.world = (Ok tt, Sample.final)
  /\ (path_exists Sample.world (output_dir Sample.args) = true
      \/ path_exists Sample.world
           (os_path_join (data_dir Sample.args) "hyperparameters.json") = true)
  /\ exists w'',
       Sample.run Sample.args Sample.final = (Ok tt, w'')
       /\ files w'' = files Sample.final
       /\ dirs w'' = dirs Sample.final
       /\ state_machines w'' = state_machines Sample.final
       /\ List.filter is_mkdir (new_events Sample.final w'') = [].
Proof.
  pose proof sample_run as Hrun.
  assert (path_exists Sample.world (output_dir Sample.args) = true
          \/ path_exists Sample.world
               (os_path_join (data_dir Sample.args) "hyperparameters.json") = true) as Hplace
    by (right; vm_compute; reflexivity).
  split; [exact Hrun |]. split; [exact Hplace |].
  exact (main_can_run_again Sample.py_str Sample.json_loads Sample.json_dumps
           Sample.definition_to_json Sample.image_uris_retrieve
           Sample.args Sample.world Sample.final Hrun Hplace).
Defined.

Lemma graph_ignores_other_arguments_witness :
  same_graph_arguments Sample.args Cases.other_args
  /\ EvUpdate "arn:wf" Sample.graph ∈ new_events Sample.world Sample.final
  /\ EvUpdate "arn:wf" Cases.other_args_graph
       ∈ new_events Sample.other_world Cases.other_args_final
  /\ Sample.graph = Cases.other_args_graph.
Proof.
  pose proof sample_run as Hrun1.
  pose proof cases_other_args_run as Hrun2.
  pose proof sample_update as Hin1.
  pose proof cases_other_args_update as Hin2.
  assert (same_graph_arguments Sample.args Cases.other_args) as Hargs
    by (unfold same_graph_arguments; repeat split; reflexivity).
  split; [exact Hargs |]. split; [exact Hin1 |]. split; [exact Hin2 |].
  exact (graph_ignores_other_arguments Sample.py_str Sample.json_loads Sample.json_dumps
           Sample.definition_to_json Sample.image_uris_retrieve
           Sample.args Cases.other_args Sample.world Sample.other_world _ _ _ _
           "arn:wf" "arn:wf" Sample.graph Cases.other_args_graph
           Hargs eq_refl eq_refl eq_refl Hrun1 Hrun2 Hin1 Hin2).
Defined.

Lemma cases_ecr_no_region_run :
  Sample.run Cases.ecr_args Cases.ecr_no_region_world
  = (Raise NoRegionError, Cases.after_ecr Cases.ecr_no_region_world).
Proof. vm_compute. reflexivity. Qed.

Lemma main_refuses_self_witness :
  Cases.self_run = (Raise TypeError, Cases.self_run.2)
  /\ (exists e, Raise TypeError = @Raise unit e)
  /\ nothing_done Cases.self_world Cases.self_run.2.
Proof.
  pose proof cases_self_run as Hrun.
  split; [exact Hrun |].
  apply (main_refuses_self Sample.py_str Cases.json_loads Sample.json_dumps
           Sample.definition_to_json Sample.image_uris_retrieve
           Sample.args Cases.self_world _ _ "SELF"
           (<["self" := JStr "me"]> {[ "max_depth" := JNum 5 ]}) Hrun).
  - vm_compute. reflexivity.
  - vm_compute. reflexivity.
  - by eexists.
Defined.

Lemma main_needs_region_witness :
  Sample.run Cases.ecr_args Cases.ecr_no_region_world
  = (Raise NoRegionError, Cases.after_ecr Cases.ecr_no_region_world)
  /\ (exists e, Raise NoRegionError = @Raise unit e)
  /\ nothing_done Cases.ecr_no_region_world (Cases.after_ecr Cases.ecr_no_region_world).
Proof.
  pose proof cases_ecr_no_region_run as Hrun.
  split; [exact Hrun |].
  exact (main_needs_region Sample.py_str Sample.json_loads Sample.json_dumps
           Sample.definition_to_json Sample.image_uris_retrieve
           Cases.ecr_args Cases.ecr_no_region_world _ _ Hrun eq_refl).
Defined.
